(** * gm-convert-gui: the conversion job engine

    A shallow embedding of the two pieces of [R1.py] that carry logic:

    - [ImprovedGMConvertGUI.build_commands], the command builder, which turns
      the widget values into one [gm convert ...] argument list per input;
    - [EnhancedConvertWorker.run] / [stop], the batch executor, which runs the
      argument lists one after the other and emits Qt signals.

    Python [str] values are modelled as [string] (sequences of bytes, UTF-8),
    Python [int] values as [Z], [pathlib.Path] values by their parsed form
    (POSIX flavour: root and list of components), exceptions by a sum type,
    the file system and the external processes by parameters of a section. *)

From Stdlib Require Import List Bool Arith ZArith Lia.
From Stdlib Require Import Strings.Ascii Strings.String Numbers.DecimalString.
Import ListNotations.

Open Scope string_scope.
Open Scope list_scope.

(** String concatenation (Python's [+] and f-strings); [++] is kept for lists. *)
Infix "+++" := String.append (at level 60, right associativity).

(** ** Python strings *)

Module PyStr.

(** [str(n)] for a Python [int]. *)
Definition str_of_int (n : Z) : string :=
  NilZero.string_of_int (Z.to_int n).

(** [c.lower()] on one byte: only the ASCII capitals change. *)
Definition lower_ascii (c : ascii) : ascii :=
  let n := nat_of_ascii c in
  if (65 <=? n)%nat && (n <=? 90)%nat then ascii_of_nat (n + 32) else c.

(** [s.lower()]. *)
Fixpoint lower (s : string) : string :=
  match s with
  | "" => ""
  | String c s' => String (lower_ascii c) (lower s')
  end.

(** [s.endswith(suffix)]: some tail of [s] is [suffix]. *)
Fixpoint endswith (s suffix : string) : bool :=
  String.eqb s suffix ||
  match s with
  | "" => false
  | String _ s' => endswith s' suffix
  end.

(** [s.endswith(t)] for a tuple [t] of suffixes. *)
Definition endswith_any (s : string) (suffixes : list string) : bool :=
  existsb (endswith s) suffixes.

(** [s.split(sep)] for a one-character separator: never the empty list. *)
Fixpoint split (sep : ascii) (s : string) : list string :=
  match s with
  | "" => [""]
  | String c s' =>
      if Ascii.eqb c sep then "" :: split sep s'
      else match split sep s' with
           | [] => [String c ""]
           | w :: ws => String c w :: ws
           end
  end.

(** [sep.join(l)]. *)
Fixpoint join (sep : string) (l : list string) : string :=
  match l with
  | [] => ""
  | [x] => x
  | x :: rest => x +++ sep +++ join sep rest
  end.

(** [s.rfind(c)]: the index of the last occurrence of the character [c];
    Python's [-1] is [None]. *)
Fixpoint rfind (c : ascii) (s : string) : option nat :=
  match s with
  | "" => None
  | String a s' =>
      match rfind c s' with
      | Some i => Some (S i)
      | None => if Ascii.eqb a c then Some 0%nat else None
      end
  end.

(** The last character of [s], if there is one. *)
Fixpoint last_char (s : string) : option ascii :=
  match s with
  | "" => None
  | String c "" => Some c
  | String _ s' => last_char s'
  end.

(** Whether the character [c] occurs in [s]. *)
Fixpoint occurs (c : ascii) (s : string) : bool :=
  match s with
  | "" => false
  | String a s' => Ascii.eqb a c || occurs c s'
  end.

(** [s.rstrip(t)] where [t] is one code point encoded as the byte sequence
    [t]: drop every trailing copy of [t].  [fuel] bounds the number of copies
    by the length of [s]. *)
Fixpoint rstrip_fuel (fuel : nat) (s t : string) : string :=
  match fuel with
  | O => s
  | S fuel' =>
      let n := String.length s in
      let m := String.length t in
      if (0 <? m)%nat && endswith s t
      then rstrip_fuel fuel' (substring 0 (n - m) s) t
      else s
  end.

Definition rstrip (s t : string) : string :=
  rstrip_fuel (String.length s) s t.

End PyStr.

(** ** [pathlib.PurePosixPath] *)

Module PurePath.

Import PyStr.

Definition sep : ascii := "/"%char.

(** A parsed path: [root] is [""], ["/"] or ["//"]; [parts] are the
    components after the root (pathlib's [_tail]). *)
Record t : Type := mk { root : string; parts : list string }.

(** [posixpath.splitroot(p)], without the (always empty) drive. *)
Definition splitroot (p : string) : string * string :=
  match p with
  | String c1 rest1 =>
      if Ascii.eqb c1 sep then
        match rest1 with
        | String c2 rest2 =>
            if Ascii.eqb c2 sep then
              match rest2 with
              | String c3 _ =>
                  if Ascii.eqb c3 sep then ("/", rest1) else ("//", rest2)
              | "" => ("//", rest2)
              end
            else ("/", rest1)
        | "" => ("/", rest1)
        end
      else ("", p)
  | "" => ("", p)
  end.

(** The components kept by the parser: [if x and x != '.']. *)
Definition keep_part (x : string) : bool :=
  negb (String.eqb x "") && negb (String.eqb x ".").

(** [Path(s)]: [_parse_path]. *)
Definition Path (s : string) : t :=
  let '(r, rel) := splitroot s in
  mk r (filter keep_part (split sep rel)).

(** [str(p)]: root and components joined by the separator, ["."] if empty. *)
Definition str (p : t) : string :=
  let s := root p +++ join "/" (parts p) in
  if String.eqb s "" then "." else s.

(** [p.name]. *)
Definition name (p : t) : string := last (parts p) "".

(** [p.parent]. *)
Definition parent (p : t) : t :=
  match parts p with
  | [] => p
  | _ => mk (root p) (removelast (parts p))
  end.

(** [p.anchor]: drive plus root. *)
Definition anchor (p : t) : string := root p.

(** [p.stem]: the name without its suffix; the suffix starts at the last dot
    when that dot is neither the first nor the last character. *)
Definition stem (p : t) : string :=
  let name := name p in
  match rfind "."%char name with
  | Some i =>
      if (0 <? i)%nat && (i <? String.length name - 1)%nat
      then substring 0 i name
      else name
  | None => name
  end.

(** [p / q] for a path [q]: an absolute right operand replaces the left. *)
Definition joinpath (p q : t) : t :=
  if negb (String.eqb (root q) "") then q
  else mk (root p) (parts p ++ parts q).

(** Whether [l1] is a prefix of [l2]; the rest of [l2] when it is. *)
Fixpoint strip_prefix (l1 l2 : list string) : option (list string) :=
  match l1, l2 with
  | [], _ => Some l2
  | x :: l1', y :: l2' =>
      if String.eqb x y then strip_prefix l1' l2' else None
  | _ :: _, [] => None
  end.

(** [p.relative_to(other)]: [None] stands for the [ValueError] raised when
    [other] is not [p] or one of its ancestors. *)
Definition relative_to (p : t) (other : string) : option t :=
  let o := Path other in
  if String.eqb (root p) (root o) then
    match strip_prefix (parts o) (parts p) with
    | Some rest => Some (mk "" rest)
    | None => None
    end
  else None.

(** What the parser produces: one of the three roots, and components that
    are free of separators, not empty and not a lone dot. *)
Definition well_formed (p : t) : Prop :=
  (root p = "" \/ root p = "/" \/ root p = "//") /\
  Forall (fun w => occurs sep w = false /\ keep_part w = true) (parts p).

End PurePath.

(** ** Python control flow: state, exceptions, loops *)

Module Py.

(** The exceptions that reach the code: [subprocess.CalledProcessError]
    carries the captured [output]; every other [Exception] is kept by its
    [str(e)] text. *)
Inductive exn : Type :=
| CalledProcessError (output : string) (msg : string)
| Exception (msg : string).

(** [str(e)]. *)
Definition exn_str (e : exn) : string :=
  match e with
  | CalledProcessError _ msg => msg
  | Exception msg => msg
  end.

(** A computation over a mutable state [St] that returns or raises. *)
Definition M (St A : Type) : Type := St -> (exn + A) * St.

Definition ret {St A} (a : A) : M St A := fun s => (inr a, s).

Definition bind {St A B} (m : M St A) (k : A -> M St B) : M St B :=
  fun s =>
    match m s with
    | (inr a, s') => k a s'
    | (inl e, s') => (inl e, s')
    end.

Definition raise {St A} (e : exn) : M St A := fun s => (inl e, s).

Definition get {St} : M St St := fun s => (inr s, s).

Definition modify {St} (f : St -> St) : M St unit := fun s => (inr tt, f s).

(** [try: body / except ...: handler]; [handler e = None] when the
    [except] clause does not match [e]. *)
Definition try_except {St A} (body : M St A) (handler : exn -> option (M St A))
  : M St A :=
  fun s =>
    match body s with
    | (inl e, s') =>
        match handler e with
        | Some h => h s'
        | None => (inl e, s')
        end
    | r => r
    end.

(** [try: body / finally: fin]. *)
Definition try_finally {St A} (body : M St A) (fin : M St unit) : M St A :=
  fun s =>
    match body s with
    | (r, s') =>
        match fin s' with
        | (inr _, s'') => (r, s'')
        | (inl e, s'') => (inl e, s'')
        end
    end.

(** What one pass through a loop body asks for. *)
Inductive ctl : Type := Continue | Break.

(** [for x in l: body]. *)
Fixpoint for_each {St A} (l : list A) (body : A -> M St unit) : M St unit :=
  match l with
  | [] => ret tt
  | x :: l' => bind (body x) (fun _ => for_each l' body)
  end.

(** [for idx, x in enumerate(l): body], with [break]. *)
Fixpoint for_enumerate {St A} (idx : nat) (l : list A)
    (body : nat -> A -> M St ctl) : M St unit :=
  match l with
  | [] => ret tt
  | x :: l' =>
      bind (body idx x) (fun c =>
        match c with
        | Break => ret tt
        | Continue => for_enumerate (S idx) l' body
        end)
  end.

(** [l[-1]]. *)
Definition getitem_last {St} (l : list string) : M St string :=
  match l with
  | [] => raise (Exception "list index out of range")
  | _ => ret (last l "")
  end.

End Py.

Notation "x <- c1 ;; c2" := (Py.bind c1 (fun x => c2))
  (at level 61, c1 at next level, right associativity).
Notation "c1 ;; c2" := (Py.bind c1 (fun _ => c2))
  (at level 61, right associativity).

(** ** The widgets read by the command builder *)

(** The items of [format_combo]. *)
Inductive FormatItem : Type :=
| item_jpg | item_png | item_webp | item_tiff | item_bmp | item_same_as_input.

Definition format_text (f : FormatItem) : string :=
  match f with
  | item_jpg => "jpg"
  | item_png => "png"
  | item_webp => "webp"
  | item_tiff => "tiff"
  | item_bmp => "bmp"
  | item_same_as_input => "Same as input"
  end.

(** The degree sign, U+00B0, in UTF-8. *)
Definition degree_sign : string :=
  String (ascii_of_nat 194) (String (ascii_of_nat 176) "").

(** The items of [rotate_combo]. *)
Inductive RotateItem : Type := rot_0 | rot_90 | rot_180 | rot_270.

Definition rotate_text (r : RotateItem) : string :=
  match r with
  | rot_0 => "0" +++ degree_sign
  | rot_90 => "90" +++ degree_sign
  | rot_180 => "180" +++ degree_sign
  | rot_270 => "270" +++ degree_sign
  end.

(** The state of the window that [build_commands] reads: one field per
    attribute of [ImprovedGMConvertGUI], holding the widget's current value. *)
Record Widgets : Type := {
  input_files : list string;
  output_dir : string;
  chk_overwrite : bool;
  chk_preserve_structure : bool;
  format_combo : FormatItem;
  quality_spin : Z;
  rotate_combo : RotateItem;
  flip_check : bool;
  flop_check : bool;
  resize_check : bool;
  width_spin : Z;
  height_spin : Z;
  aspect_check : bool;
  chk_color_profile : bool
}.

(** The extensions accepted by [dropEvent]. *)
Definition valid_extensions : list string :=
  [".png"; ".jpg"; ".jpeg"; ".bmp"; ".tiff"; ".webp"].

(** The filter of [dropEvent]: [f.lower().endswith(valid_extensions)]. *)
Definition accepted_input (f : string) : bool :=
  PyStr.endswith_any (PyStr.lower f) valid_extensions.

(** Truth value of an optional string: [None] and [""] are false. *)
Definition truthy (o : option string) : bool :=
  match o with
  | Some s => negb (String.eqb s "")
  | None => false
  end.

(** [x in t] for an optional string and a tuple of strings. *)
Definition in_tuple (o : option string) (t : list string) : bool :=
  match o with
  | Some s => existsb (String.eqb s) t
  | None => false
  end.

(** ** The command builder *)

Section CommandBuilder.

(** The file system is a parameter: its states, and what
    [p.mkdir(parents=True, exist_ok=True)] does to one. *)
Variable FS : Type.
Variable mkdir : PurePath.t -> FS -> (Py.exn + unit) * FS.

(** The file system and the local list [commands]. *)
Record BuildState : Type := { fs : FS; commands : list (list string) }.

Definition mkdir_parents_exist_ok (p : PurePath.t) : Py.M BuildState unit :=
  fun s =>
    match mkdir p (fs s) with
    | (r, fs') => (r, {| fs := fs'; commands := commands s |})
    end.

(** [commands.append(cmd)]. *)
Definition commands_append (cmd : list string) : Py.M BuildState unit :=
  Py.modify (fun s => {| fs := fs s; commands := commands s ++ [cmd] |}).

(** [p.relative_to(other)], raising [ValueError]. *)
Definition relative_to (p : PurePath.t) (other : string)
  : Py.M BuildState PurePath.t :=
  match PurePath.relative_to p other with
  | Some r => Py.ret r
  | None => Py.raise (Py.Exception "path is not in the subpath of other")
  end.

(** The value of [output_format] after lines 306-308. *)
Definition output_format_of (gui : Widgets) : option string :=
  let output_format := PyStr.lower (format_text (format_combo gui)) in
  if String.eqb output_format "same as input" then None
  else Some output_format.

(** The body of the loop of [build_commands], lines 311-349. *)
Definition build_commands_body (gui : Widgets) (output_format : option string)
    (input_path : string) : Py.M BuildState unit :=
  let input_path := PurePath.Path input_path in
  let output_path := PurePath.Path (output_dir gui) in
  output_path <-
    (if chk_preserve_structure gui then
       rel <- relative_to (PurePath.parent input_path)
                          (PurePath.anchor input_path) ;;
       Py.ret (PurePath.joinpath output_path rel)
     else Py.ret output_path) ;;
  mkdir_parents_exist_ok output_path ;;
  let output_file :=
    if truthy output_format then
      PurePath.joinpath output_path
        (PurePath.Path (PurePath.stem input_path +++ "." +++
                        match output_format with Some f => f | None => "None" end))
    else
      PurePath.joinpath output_path (PurePath.Path (PurePath.name input_path)) in
  let cmd := ["gm"; "convert"; PurePath.str input_path] in
  let cmd :=
    if resize_check gui then
      let cmd := cmd ++ ["-resize";
                         PyStr.str_of_int (width_spin gui) +++ "x" +++
                         PyStr.str_of_int (height_spin gui)] in
      if aspect_check gui
      then cmd ++ ["-filter"; "Lanczos"; "-unsharp"; "0.25x0.25+8+0.065"]
      else cmd
    else cmd in
  let rotation := PyStr.rstrip (rotate_text (rotate_combo gui)) degree_sign in
  let cmd :=
    if negb (String.eqb rotation "0") then cmd ++ ["-rotate"; rotation]
    else cmd in
  let cmd := if flip_check gui then cmd ++ ["-flip"] else cmd in
  let cmd := if flop_check gui then cmd ++ ["-flop"] else cmd in
  let cmd :=
    if in_tuple output_format ["jpg"; "webp"; "tiff"]
    then cmd ++ ["-quality"; PyStr.str_of_int (quality_spin gui)]
    else cmd in
  let cmd :=
    if chk_color_profile gui then cmd ++ ["-profile"; "RGB.icm"] else cmd in
  let cmd := cmd ++ [PurePath.str output_file] in
  commands_append cmd.

(** [build_commands], lines 304-351. *)
Definition build_commands (gui : Widgets) : Py.M BuildState (list (list string)) :=
  Py.modify (fun s => {| fs := fs s; commands := [] |}) ;;
  let output_format := output_format_of gui in
  Py.for_each (input_files gui) (build_commands_body gui output_format) ;;
  s <- Py.get ;;
  Py.ret (commands s).

(** Running [build_commands] on a file system: the JobPlan or the exception,
    and the file system left behind. *)
Definition run_build_commands (gui : Widgets) (fs0 : FS)
  : (Py.exn + list (list string)) * FS :=
  match build_commands gui {| fs := fs0; commands := [] |} with
  | (r, s) => (r, fs s)
  end.

End CommandBuilder.

Arguments fs {FS} _.
Arguments commands {FS} _.

(** ** The batch executor *)

(** The signals of [EnhancedConvertWorker]. *)
Inductive Signal : Type :=
| progress_incremented
| output_received (text : string)
| finished (success : bool) (error_msg : string)
| current_file (path : string).

(** The attributes of an [EnhancedConvertWorker]. *)
Record Worker : Type := {
  w_commands : list (list string);
  w_output_dir : string;
  _is_running : bool
}.

(** [EnhancedConvertWorker.__init__]. *)
Definition Worker_init (commands : list (list string)) (output_dir : string)
  : Worker :=
  {| w_commands := commands; w_output_dir := output_dir; _is_running := true |}.

(** [EnhancedConvertWorker.stop]. *)
Definition stop (self : Worker) : Worker :=
  {| w_commands := w_commands self;
     w_output_dir := w_output_dir self;
     _is_running := false |}.

(** What surrounds one run: the outcome of the [mkdir] of line 30, the outcome
    of the [idx]-th [subprocess.run] (the captured output, or the exception
    raised), and whether the controller thread has called [stop] by the time
    the worker thread reaches the test of line 33 in iteration [idx]. *)
Record Env : Type := {
  env_mkdir : PurePath.t -> Py.exn + unit;
  env_subprocess_run : nat -> list string -> Py.exn + string;
  env_stop_called : nat -> bool
}.

(** The worker, the locals [success] and [error_msg] of [run], and what the
    run has done so far: the signals emitted and the argument lists handed to
    [subprocess.run], both oldest first. *)
Record RunState : Type := {
  self : Worker;
  success : bool;
  error_msg : string;
  emitted : list Signal;
  invoked : list (list string)
}.

Definition set_self (f : Worker -> Worker) (s : RunState) : RunState :=
  {| self := f (self s); success := success s; error_msg := error_msg s;
     emitted := emitted s; invoked := invoked s |}.

Definition set_success (b : bool) (s : RunState) : RunState :=
  {| self := self s; success := b; error_msg := error_msg s;
     emitted := emitted s; invoked := invoked s |}.

Definition set_error_msg (m : string) (s : RunState) : RunState :=
  {| self := self s; success := success s; error_msg := m;
     emitted := emitted s; invoked := invoked s |}.

Definition add_emitted (l : list Signal) (s : RunState) : RunState :=
  {| self := self s; success := success s; error_msg := error_msg s;
     emitted := emitted s ++ l; invoked := invoked s |}.

Definition add_invoked (cmd_parts : list string) (s : RunState) : RunState :=
  {| self := self s; success := success s; error_msg := error_msg s;
     emitted := emitted s; invoked := invoked s ++ [cmd_parts] |}.

(** [signal.emit(...)]. *)
Definition emit (sg : Signal) : Py.M RunState unit :=
  Py.modify (add_emitted [sg]).

Section BatchExecutor.

Variable env : Env.

(** [Path(...).mkdir(parents=True, exist_ok=True)]. *)
Definition mkdir_output_dir (p : PurePath.t) : Py.M RunState unit :=
  match env_mkdir env p with
  | inl e => Py.raise e
  | inr _ => Py.ret tt
  end.

(** [subprocess.run(cmd_parts, check=True, stdout=PIPE, stderr=STDOUT,
    text=True)] followed by [.stdout]. *)
Definition subprocess_run (idx : nat) (cmd_parts : list string)
  : Py.M RunState string :=
  Py.modify (add_invoked cmd_parts) ;;
  match env_subprocess_run env idx cmd_parts with
  | inl e => Py.raise e
  | inr stdout => Py.ret stdout
  end.

(** The controller thread: a call of [stop] that lands before the test of
    iteration [idx]. *)
Definition controller (idx : nat) : Py.M RunState unit :=
  if env_stop_called env idx then Py.modify (set_self stop) else Py.ret tt.

Definition newline : string := String (ascii_of_nat 10) "".

(** The log line of line 36. *)
Definition executing (total idx : nat) (cmd_parts : list string) : string :=
  "[" +++ PyStr.str_of_int (Z.of_nat idx + 1) +++ "/" +++
  PyStr.str_of_int (Z.of_nat total) +++ "] Executing: " +++
  PyStr.join " " cmd_parts +++ newline.

(** The body of the loop of [run], lines 33-53. *)
Definition run_body (total : nat) (idx : nat) (cmd_parts : list string)
  : Py.M RunState Py.ctl :=
  controller idx ;;
  s <- Py.get ;;
  if negb (_is_running (self s)) then Py.ret Py.Break
  else
    path <- Py.getitem_last cmd_parts ;;
    emit (current_file path) ;;
    emit (output_received (executing total idx cmd_parts)) ;;
    c <- Py.try_except
           (stdout <- subprocess_run idx cmd_parts ;;
            emit (output_received stdout) ;;
            Py.ret Py.Continue)
           (fun e =>
              match e with
              | Py.CalledProcessError output _ =>
                  Some (emit (output_received ("Error: " +++ output)) ;;
                        Py.modify (set_success false) ;;
                        path <- Py.getitem_last cmd_parts ;;
                        Py.modify (set_error_msg ("Failed to process " +++ path)) ;;
                        Py.ret Py.Break)
              | _ => None
              end) ;;
    match c with
    | Py.Break => Py.ret Py.Break
    | Py.Continue => emit progress_incremented ;; Py.ret Py.Continue
    end.

(** [EnhancedConvertWorker.run], lines 26-59. *)
Definition run : Py.M RunState unit :=
  Py.modify (set_success true) ;;
  Py.modify (set_error_msg "") ;;
  Py.try_finally
    (Py.try_except
       (s <- Py.get ;;
        mkdir_output_dir (PurePath.Path (w_output_dir (self s))) ;;
        let total := List.length (w_commands (self s)) in
        Py.for_enumerate 0 (w_commands (self s)) (run_body total))
       (fun e =>
          Some (Py.modify (set_error_msg (Py.exn_str e)) ;;
                Py.modify (set_success false) ;;
                s <- Py.get ;;
                emit (output_received ("Critical Error: " +++ error_msg s)))))
    (s <- Py.get ;;
     emit (finished (success s) (error_msg s))).

(** A run from the start: nothing emitted, nothing invoked yet. *)
Definition initial (w : Worker) : RunState :=
  {| self := w; success := true; error_msg := "";
     emitted := []; invoked := [] |}.

(** The state in which a run of the worker [w] ends. *)
Definition run_worker (w : Worker) : RunState := snd (run (initial w)).

End BatchExecutor.

(** ** Observations on traces *)

Definition is_finished (sg : Signal) : bool :=
  match sg with finished _ _ => true | _ => false end.

Definition is_progress (sg : Signal) : bool :=
  match sg with progress_incremented => true | _ => false end.

(** The paths carried by the [current_file] signals of a trace, in order. *)
Fixpoint current_files (l : list Signal) : list string :=
  match l with
  | [] => []
  | current_file p :: l' => p :: current_files l'
  | _ :: l' => current_files l'
  end.

(** ** The builder's loop body, piece by piece

    The values that [build_commands_body] computes on its way, as functions
    of the widgets and of one input; [build_commands_body_eq] below shows
    that the body appends exactly [invocation gui f]. *)

(** [output_path] after lines 312-315. *)
Definition destination_dir (gui : Widgets) (f : string) : PurePath.t :=
  let input_path := PurePath.Path f in
  let output_path := PurePath.Path (output_dir gui) in
  if chk_preserve_structure gui then
    match PurePath.relative_to (PurePath.parent input_path)
                               (PurePath.anchor input_path) with
    | Some rel => PurePath.joinpath output_path rel
    | None => output_path
    end
  else output_path.

(** [output_file] after lines 319-322. *)
Definition destination_file (gui : Widgets) (f : string) : PurePath.t :=
  let input_path := PurePath.Path f in
  let output_path := destination_dir gui f in
  match output_format_of gui with
  | Some fmt =>
      if String.eqb fmt "" then
        PurePath.joinpath output_path (PurePath.Path (PurePath.name input_path))
      else
        PurePath.joinpath output_path
          (PurePath.Path (PurePath.stem input_path +++ "." +++ fmt))
  | None =>
      PurePath.joinpath output_path (PurePath.Path (PurePath.name input_path))
  end.

(** What lines 327-346 add to [cmd]. *)
Definition transform_args (gui : Widgets) : list string :=
  (if resize_check gui then
     ["-resize";
      PyStr.str_of_int (width_spin gui) +++ "x" +++
      PyStr.str_of_int (height_spin gui)] ++
     (if aspect_check gui
      then ["-filter"; "Lanczos"; "-unsharp"; "0.25x0.25+8+0.065"]
      else [])
   else []) ++
  (let rotation := PyStr.rstrip (rotate_text (rotate_combo gui)) degree_sign in
   if negb (String.eqb rotation "0") then ["-rotate"; rotation] else []) ++
  (if flip_check gui then ["-flip"] else []) ++
  (if flop_check gui then ["-flop"] else []) ++
  (if in_tuple (output_format_of gui) ["jpg"; "webp"; "tiff"]
   then ["-quality"; PyStr.str_of_int (quality_spin gui)] else []) ++
  (if chk_color_profile gui then ["-profile"; "RGB.icm"] else []).

(** [cmd] when it is appended to [commands] on line 349. *)
Definition invocation (gui : Widgets) (f : string) : list string :=
  ["gm"; "convert"; PurePath.str (PurePath.Path f)] ++
  transform_args gui ++
  [PurePath.str (destination_file gui f)].

(** The [mkdir] calls of a run of the builder, one after the other. *)
Fixpoint mkdirs {FS : Type} (mkdir : PurePath.t -> FS -> (Py.exn + unit) * FS)
    (dirs : list PurePath.t) (fs0 : FS) : (Py.exn + unit) * FS :=
  match dirs with
  | [] => (inr tt, fs0)
  | d :: dirs' =>
      match mkdir d fs0 with
      | (inr _, fs1) => mkdirs mkdir dirs' fs1
      | (inl e, fs1) => (inl e, fs1)
      end
  end.

(** The lossy-supporting formats, as items of the combo box. *)
Definition lossy (f : FormatItem) : bool :=
  match f with
  | item_jpg | item_webp | item_tiff => true
  | _ => false
  end.

(** ** The executor's loop, iteration by iteration *)

(** What lines 54-59 make of the outcome of the loop: the handler of the
    outer [except] when the loop raised, then the [finally] clause. *)
Definition conclude (r : (Py.exn + unit) * RunState) : RunState :=
  match r with
  | (inr _, s) => add_emitted [finished (success s) (error_msg s)] s
  | (inl e, s) =>
      add_emitted [finished false (Py.exn_str e)]
        (add_emitted [output_received ("Critical Error: " +++ Py.exn_str e)]
           (set_success false (set_error_msg (Py.exn_str e) s)))
  end.

Section Boundaries.

Variable env : Env.

(** The state in which the worker thread reaches the top of the loop for the
    [k]-th time after [s]: every pass before went through to line 53. *)
Fixpoint arrive (total idx : nat) (cmds : list (list string)) (k : nat)
    (s : RunState) {struct k} : option RunState :=
  match k with
  | O => Some s
  | S k' =>
      match cmds with
      | [] => None
      | cmd_parts :: rest =>
          match run_body env total idx cmd_parts s with
          | (inr Py.Continue, s') => arrive total (S idx) rest k' s'
          | _ => None
          end
      end
  end.

(** The state of a run of [w] at the top of the loop after [k] completed
    items: before the test of line 33 for item [k], or at the exit of the
    loop when [k] is the number of items. *)
Definition at_boundary (w : Worker) (k : nat) : option RunState :=
  match env_mkdir env (PurePath.Path (w_output_dir w)) with
  | inr _ => arrive (List.length (w_commands w)) 0 (w_commands w) k (initial w)
  | inl _ => None
  end.

(** Whether the test of line 33 sends item [idx] to [break] from state [s]. *)
Definition stop_seen (idx : nat) (s : RunState) : bool :=
  env_stop_called env idx || negb (_is_running (self s)).

End Boundaries.

(** ** The main window *)

(** The message boxes of [QMessageBox], by kind. *)
Inductive Dialog : Type :=
| warning (title text : string)
| critical (title text : string)
| information (title text : string).

(** [needle in s] for two strings. *)
Fixpoint str_contains (needle s : string) : bool :=
  String.prefix needle s ||
  match s with
  | "" => false
  | String _ s' => str_contains needle s'
  end.

(** The widgets with another value of [chk_overwrite]. *)
Definition with_overwrite (b : bool) (g : Widgets) : Widgets :=
  {| input_files := input_files g; output_dir := output_dir g;
     chk_overwrite := b;
     chk_preserve_structure := chk_preserve_structure g;
     format_combo := format_combo g; quality_spin := quality_spin g;
     rotate_combo := rotate_combo g; flip_check := flip_check g;
     flop_check := flop_check g; resize_check := resize_check g;
     width_spin := width_spin g; height_spin := height_spin g;
     aspect_check := aspect_check g;
     chk_color_profile := chk_color_profile g |}.

(** The widgets with another value of the attribute [input_files]. *)
Definition with_input_files (files : list string) (g : Widgets) : Widgets :=
  {| input_files := files; output_dir := output_dir g;
     chk_overwrite := chk_overwrite g;
     chk_preserve_structure := chk_preserve_structure g;
     format_combo := format_combo g; quality_spin := quality_spin g;
     rotate_combo := rotate_combo g; flip_check := flip_check g;
     flop_check := flop_check g; resize_check := resize_check g;
     width_spin := width_spin g; height_spin := height_spin g;
     aspect_check := aspect_check g;
     chk_color_profile := chk_color_profile g |}.

(** The widgets with another text in the line edit [output_dir]. *)
Definition with_output_dir (text : string) (g : Widgets) : Widgets :=
  {| input_files := input_files g; output_dir := text;
     chk_overwrite := chk_overwrite g;
     chk_preserve_structure := chk_preserve_structure g;
     format_combo := format_combo g; quality_spin := quality_spin g;
     rotate_combo := rotate_combo g; flip_check := flip_check g;
     flop_check := flop_check g; resize_check := resize_check g;
     width_spin := width_spin g; height_spin := height_spin g;
     aspect_check := aspect_check g;
     chk_color_profile := chk_color_profile g |}.

Section MainWindow.

(** The progress bar is a parameter: a [QProgressBar] and its three methods
    [setRange], [setValue] and [value]. *)
Variable PB : Type.
Variable pb_setRange : Z -> Z -> PB -> PB.
Variable pb_setValue : Z -> PB -> PB.
Variable pb_value : PB -> Z.

(** The file system, with [mkdir] as for the builder and
    [os.access(path, os.W_OK)]. *)
Variable FS : Type.
Variable mkdir : PurePath.t -> FS -> (Py.exn + unit) * FS.
Variable access_w : string -> FS -> Py.exn + bool.

(** The state of an [ImprovedGMConvertGUI]: what [build_commands] reads
    ([controls]); whether the attribute [input_files], which [__init__] does
    not assign, has been assigned; the items of [file_list]; the texts of
    the two labels; whether each button is enabled; the progress bar; the
    paragraphs of [log_browser]; the message boxes shown so far, oldest
    first; the attribute [worker]. *)
Record Window : Type := {
  controls : Widgets;
  input_files_defined : bool;
  file_list : list string;
  file_counter : string;
  status_label : string;
  btn_convert : bool;
  btn_cancel : bool;
  progress_bar : PB;
  log_browser : list string;
  dialogs : list Dialog;
  worker : option Worker
}.

Definition set_controls (g : Widgets) (w : Window) : Window :=
  {| controls := g; input_files_defined := input_files_defined w;
     file_list := file_list w; file_counter := file_counter w;
     status_label := status_label w; btn_convert := btn_convert w;
     btn_cancel := btn_cancel w; progress_bar := progress_bar w;
     log_browser := log_browser w; dialogs := dialogs w;
     worker := worker w |}.

(** [self.input_files = files]. *)
Definition set_input_files (files : list string) (w : Window) : Window :=
  {| controls := with_input_files files (controls w);
     input_files_defined := true;
     file_list := file_list w; file_counter := file_counter w;
     status_label := status_label w; btn_convert := btn_convert w;
     btn_cancel := btn_cancel w; progress_bar := progress_bar w;
     log_browser := log_browser w; dialogs := dialogs w;
     worker := worker w |}.

Definition set_file_list (l : list string) (w : Window) : Window :=
  {| controls := controls w; input_files_defined := input_files_defined w;
     file_list := l; file_counter := file_counter w;
     status_label := status_label w; btn_convert := btn_convert w;
     btn_cancel := btn_cancel w; progress_bar := progress_bar w;
     log_browser := log_browser w; dialogs := dialogs w;
     worker := worker w |}.

Definition set_file_counter (t : string) (w : Window) : Window :=
  {| controls := controls w; input_files_defined := input_files_defined w;
     file_list := file_list w; file_counter := t;
     status_label := status_label w; btn_convert := btn_convert w;
     btn_cancel := btn_cancel w; progress_bar := progress_bar w;
     log_browser := log_browser w; dialogs := dialogs w;
     worker := worker w |}.

Definition set_status_label (t : string) (w : Window) : Window :=
  {| controls := controls w; input_files_defined := input_files_defined w;
     file_list := file_list w; file_counter := file_counter w;
     status_label := t; btn_convert := btn_convert w;
     btn_cancel := btn_cancel w; progress_bar := progress_bar w;
     log_browser := log_browser w; dialogs := dialogs w;
     worker := worker w |}.

Definition set_btn_convert (b : bool) (w : Window) : Window :=
  {| controls := controls w; input_files_defined := input_files_defined w;
     file_list := file_list w; file_counter := file_counter w;
     status_label := status_label w; btn_convert := b;
     btn_cancel := btn_cancel w; progress_bar := progress_bar w;
     log_browser := log_browser w; dialogs := dialogs w;
     worker := worker w |}.

Definition set_btn_cancel (b : bool) (w : Window) : Window :=
  {| controls := controls w; input_files_defined := input_files_defined w;
     file_list := file_list w; file_counter := file_counter w;
     status_label := status_label w; btn_convert := btn_convert w;
     btn_cancel := b; progress_bar := progress_bar w;
     log_browser := log_browser w; dialogs := dialogs w;
     worker := worker w |}.

Definition set_progress_bar (f : PB -> PB) (w : Window) : Window :=
  {| controls := controls w; input_files_defined := input_files_defined w;
     file_list := file_list w; file_counter := file_counter w;
     status_label := status_label w; btn_convert := btn_convert w;
     btn_cancel := btn_cancel w; progress_bar := f (progress_bar w);
     log_browser := log_browser w; dialogs := dialogs w;
     worker := worker w |}.

Definition set_log_browser (l : list string) (w : Window) : Window :=
  {| controls := controls w; input_files_defined := input_files_defined w;
     file_list := file_list w; file_counter := file_counter w;
     status_label := status_label w; btn_convert := btn_convert w;
     btn_cancel := btn_cancel w; progress_bar := progress_bar w;
     log_browser := l; dialogs := dialogs w;
     worker := worker w |}.

(** A message box is shown (and closed by the user). *)
Definition show_dialog (d : Dialog) (w : Window) : Window :=
  {| controls := controls w; input_files_defined := input_files_defined w;
     file_list := file_list w; file_counter := file_counter w;
     status_label := status_label w; btn_convert := btn_convert w;
     btn_cancel := btn_cancel w; progress_bar := progress_bar w;
     log_browser := log_browser w; dialogs := dialogs w ++ [d];
     worker := worker w |}.

Definition set_worker (o : option Worker) (w : Window) : Window :=
  {| controls := controls w; input_files_defined := input_files_defined w;
     file_list := file_list w; file_counter := file_counter w;
     status_label := status_label w; btn_convert := btn_convert w;
     btn_cancel := btn_cancel w; progress_bar := progress_bar w;
     log_browser := log_browser w; dialogs := dialogs w;
     worker := o |}.

(** The window and the file system it works on. *)
Record App : Type := { win : Window; disk : FS }.

Definition on_win (f : Window -> Window) : Py.M App unit :=
  Py.modify (fun a => {| win := f (win a); disk := disk a |}).

(** Reading [self.input_files]. *)
Definition self_input_files : Py.M App (list string) :=
  a <- Py.get ;;
  if input_files_defined (win a)
  then Py.ret (input_files (controls (win a)))
  else Py.raise (Py.Exception
         "'ImprovedGMConvertGUI' object has no attribute 'input_files'").

(** [update_file_list], lines 271-277. *)
Definition update_file_list : Py.M App unit :=
  on_win (set_file_list []) ;;
  files <- self_input_files ;;
  Py.for_each files
    (fun f => on_win (fun w => set_file_list (file_list w ++ [f]) w)) ;;
  files <- self_input_files ;;
  on_win (set_file_counter
            (PyStr.str_of_int (Z.of_nat (List.length files)) +++
             " files queued")).

(** [dropEvent], lines 256-260, for the local files of the dropped URLs. *)
Definition dropEvent (files : list string) : Py.M App unit :=
  on_win (set_input_files (filter accepted_input files)) ;;
  update_file_list.

(** [browse_files], lines 262-269, for the list that the dialog returns. *)
Definition browse_files (files : list string) : Py.M App unit :=
  match files with
  | [] => Py.ret tt
  | _ => on_win (set_input_files files) ;; update_file_list
  end.

(** [clear_files], lines 279-282. *)
Definition clear_files : Py.M App unit :=
  on_win (set_input_files []) ;;
  on_win (set_file_list []) ;;
  on_win (set_file_counter "0 files queued").

(** [browse_output_dir], lines 284-287, for the directory that the dialog
    returns. *)
Definition browse_output_dir (directory : string) : Py.M App unit :=
  if negb (String.eqb directory "")
  then on_win (fun w => set_controls (with_output_dir directory (controls w)) w)
  else Py.ret tt.

(** [os.access(path, os.W_OK)]. *)
Definition os_access (path : string) : Py.M App bool :=
  fun a =>
    match access_w path (disk a) with
    | inl e => (inl e, a)
    | inr b => (inr b, a)
    end.

(** [validate_settings], lines 289-302. *)
Definition validate_settings : Py.M App bool :=
  files <- self_input_files ;;
  match files with
  | [] =>
      on_win (show_dialog (warning "Warning" "Please select input files!")) ;;
      Py.ret false
  | _ :: _ =>
      a <- Py.get ;;
      if String.eqb (output_dir (controls (win a))) "" then
        on_win (show_dialog
                  (warning "Warning" "Please select output directory!")) ;;
        Py.ret false
      else
        Py.try_except
          (ok <- os_access (output_dir (controls (win a))) ;;
           if negb ok
           then Py.raise (Py.Exception "Output directory is not writable")
           else Py.ret true)
          (fun e =>
             Some (on_win (show_dialog (critical "Error" (Py.exn_str e))) ;;
                   Py.ret false))
  end.

(** The call [self.build_commands()], on the window's file system. *)
Definition call_build_commands : Py.M App (list (list string)) :=
  _ <- self_input_files ;;
  fun a =>
    match run_build_commands FS mkdir (controls (win a)) (disk a) with
    | (r, fs') => (r, {| win := win a; disk := fs' |})
    end.

(** [start_conversion], lines 353-377: up to the start of the thread that
    runs the new worker. *)
Definition start_conversion : Py.M App unit :=
  ok <- validate_settings ;;
  if negb ok then Py.ret tt
  else
    commands <- call_build_commands ;;
    on_win (set_log_browser []) ;;
    on_win (set_btn_convert false) ;;
    on_win (set_btn_cancel true) ;;
    on_win (set_progress_bar
              (pb_setRange 0 (Z.of_nat (List.length commands)))) ;;
    on_win (set_progress_bar (pb_setValue 0)) ;;
    a <- Py.get ;;
    on_win (set_worker
              (Some (Worker_init commands (output_dir (controls (win a)))))).

(** [cancel_conversion], lines 379-385. *)
Definition cancel_conversion (w : Window) : Window :=
  let w := match worker w with
           | Some wk => set_worker (Some (stop wk)) w
           | None => w
           end in
  let w := set_btn_cancel false w in
  let w := set_status_label "Conversion canceled" w in
  let w := set_progress_bar (pb_setRange 0 1) w in
  set_progress_bar (pb_setValue 0) w.

(** [update_log], lines 387-389. *)
Definition update_log (text : string) (w : Window) : Window :=
  set_log_browser (log_browser w ++ [text]) w.

(** [conversion_finished], lines 391-402. *)
Definition conversion_finished (success : bool) (error_msg : string)
    (w : Window) : Window :=
  let w := set_btn_convert true w in
  let w := set_btn_cancel false w in
  let w := set_progress_bar (pb_setRange 0 1) w in
  let w := set_progress_bar (pb_setValue (if success then 1 else 0)) w in
  if success then
    let w := show_dialog
               (information "Success"
                  "All conversions completed successfully!") w in
    set_status_label "Ready" w
  else
    let w := show_dialog (critical "Error" error_msg) w in
    set_status_label "Conversion failed" w.

(** The slots connected to the worker's signals on lines 369-375. *)
Definition on_signal (sg : Signal) (w : Window) : Window :=
  match sg with
  | progress_incremented =>
      set_progress_bar (fun pb => pb_setValue (pb_value pb + 1) pb) w
  | output_received text => update_log text w
  | finished success error_msg => conversion_finished success error_msg w
  | current_file f => set_status_label ("Processing: " +++ f) w
  end.

(** What the event loop of the window handles during a run: a signal of the
    worker, delivered in the order of emission, or a click on Cancel, which
    reaches [cancel_conversion] when the button is enabled. *)
Inductive GuiEvent : Type :=
| Delivered (sg : Signal)
| CancelClicked.

Definition handle (ev : GuiEvent) (w : Window) : Window :=
  match ev with
  | Delivered sg => on_signal sg w
  | CancelClicked => if btn_cancel w then cancel_conversion w else w
  end.

Definition process (events : list GuiEvent) (w : Window) : Window :=
  fold_left (fun w ev => handle ev w) events w.

(** The signals among the events, in order. *)
Fixpoint signals_of (events : list GuiEvent) : list Signal :=
  match events with
  | [] => []
  | Delivered sg :: rest => sg :: signals_of rest
  | CancelClicked :: rest => signals_of rest
  end.

(** [check_gm_installed], lines 404-416, for the outcome of
    [subprocess.run(["gm", "version"], ...)]: its [stdout], or the exception
    raised. *)
Definition check_gm_installed (gm_version : Py.exn + string)
  : Py.M App unit :=
  Py.try_except
    (stdout <- (match gm_version with
                | inl e => Py.raise e
                | inr out => Py.ret out
                end) ;;
     (if negb (str_contains "GraphicsMagick" stdout)
      then Py.raise (Py.Exception "")
      else Py.ret tt) ;;
     on_win (fun w =>
               set_log_browser
                 (log_browser w ++
                  ["GraphicsMagick version detected:" +++
                   String (ascii_of_nat 10) "" +++ stdout]) w))
    (fun _ =>
       Some (on_win (show_dialog
                       (critical "Error"
                          "GraphicsMagick (gm) not found! Please install it and ensure it's in your PATH.")) ;;
             on_win (set_btn_convert false))).

(** What the user does between runs: drops files, picks files or a
    directory in a dialog, clears the list, changes the controls (the
    attribute [input_files] is not one), clicks a button; a click reaches
    its slot when the button is enabled. *)
Inductive UserEvent : Type :=
| DropFiles (files : list string)
| BrowseFiles (files : list string)
| ClearFiles
| BrowseOutputDir (directory : string)
| EditControls (g : Widgets)
| ClickConvert
| ClickCancel.

Definition handle_user (ev : UserEvent) : Py.M App unit :=
  match ev with
  | DropFiles files => dropEvent files
  | BrowseFiles files => browse_files files
  | ClearFiles => clear_files
  | BrowseOutputDir directory => browse_output_dir directory
  | EditControls g =>
      on_win (fun w =>
                set_controls (with_input_files (input_files (controls w)) g) w)
  | ClickConvert =>
      a <- Py.get ;;
      if btn_convert (win a) then start_conversion else Py.ret tt
  | ClickCancel =>
      a <- Py.get ;;
      if btn_cancel (win a) then on_win cancel_conversion else Py.ret tt
  end.

(** The window as [initUI] leaves it, lines 88-250, around a new progress
    bar [pb]. *)
Definition initUI (pb : PB) : Window :=
  {| controls :=
       {| input_files := []; output_dir := "";
          chk_overwrite := false; chk_preserve_structure := false;
          format_combo := item_jpg; quality_spin := 90;
          rotate_combo := rot_0; flip_check := false; flop_check := false;
          resize_check := false; width_spin := 1; height_spin := 1;
          aspect_check := true; chk_color_profile := false |};
     input_files_defined := false;
     file_list := [];
     file_counter := "0 files queued";
     status_label := "Ready";
     btn_convert := true;
     btn_cancel := false;
     progress_bar := pb_setRange 0 0 pb;
     log_browser := [];
     dialogs := [];
     worker := None |}.

(** [ImprovedGMConvertGUI.__init__], lines 65-71. *)
Definition Window_init (pb : PB) (gm_version : Py.exn + string)
  : Py.M App unit :=
  on_win (fun _ => initUI pb) ;;
  check_gm_installed gm_version.

End MainWindow.

Arguments controls {PB} _.
Arguments input_files_defined {PB} _.
Arguments file_list {PB} _.
Arguments file_counter {PB} _.
Arguments status_label {PB} _.
Arguments btn_convert {PB} _.
Arguments btn_cancel {PB} _.
Arguments progress_bar {PB} _.
Arguments log_browser {PB} _.
Arguments dialogs {PB} _.
Arguments worker {PB} _.
Arguments win {PB FS} _.
Arguments disk {PB FS} _.

(** A progress bar for the examples: minimum, maximum and value; a value
    outside the range is refused, a range that excludes the value resets it
    to one below the minimum. *)
Record Bar : Type := { bar_min : Z; bar_max : Z; bar_value : Z }.

Definition bar_setRange (lo hi : Z) (b : Bar) : Bar :=
  let hi := Z.max lo hi in
  if (bar_value b <? lo - 1)%Z || (hi <? bar_value b)%Z
  then {| bar_min := lo; bar_max := hi; bar_value := lo - 1 |}
  else {| bar_min := lo; bar_max := hi; bar_value := bar_value b |}.

Definition bar_setValue (v : Z) (b : Bar) : Bar :=
  if ((bar_max b <? v)%Z || (v <? bar_min b)%Z)
     && negb ((bar_max b =? 0)%Z && (bar_min b =? 0)%Z)
  then b
  else {| bar_min := bar_min b; bar_max := bar_max b; bar_value := v |}.

Definition bar_new : Bar := {| bar_min := 0; bar_max := 100; bar_value := -1 |}.

(** Every directory writable, for the examples. *)
Definition access_granted (path : string) (n : nat) : Py.exn + bool :=
  inr true.

(** A window as [initUI] leaves it, on a file system for the examples. *)
Definition app_fresh : App Bar nat :=
  {| win := initUI Bar bar_setRange bar_new; disk := 0%nat |}.

(** The same window once the files [files] are queued and the output
    directory text is [out]. *)
Definition app_ready (files : list string) (out : string) : App Bar nat :=
  {| win :=
       set_controls Bar
         (with_output_dir out
            (controls (set_input_files Bar files
                         (initUI Bar bar_setRange bar_new))))
         (set_input_files Bar files (initUI Bar bar_setRange bar_new));
     disk := 0%nat |}.

(** ** The external tool, one level down

    What [subprocess.run(cmd_parts, check=True, stdout=PIPE, stderr=STDOUT,
    text=True)] of lines 39-45 does with one child process.  [Popen] may
    raise before any process exists (the tool is not installed).  Otherwise
    the process writes its output and exits with a return code;
    [communicate] reads the pipe as text ([text=True]), which gives the
    decoded output or raises [UnicodeDecodeError] when the bytes written are
    not text in the locale's encoding; only after that does [check=True]
    look at the return code, and raise [CalledProcessError] with the decoded
    output when the code is not zero. *)

(** What reading the pipe as text gives: the decoded output, or the
    [str(e)] of the [UnicodeDecodeError] raised. *)
Inductive Read : Type :=
| decoded (stdout : string)
| undecodable (msg : string).

Inductive Completion : Type :=
| popen_raises (e : Py.exn)
| exits (returncode : Z) (read : Read).

(** The surroundings of a run with the tool seen as a process: the [mkdir]
    of line 30, how the process started for the [idx]-th invocation ends,
    the [str(e)] of the [CalledProcessError] of a command and a return code
    (which [run] never reads), and the calls of [stop] as in [Env]. *)
Record Tools : Type := {
  tools_mkdir : PurePath.t -> Py.exn + unit;
  tools_run : nat -> list string -> Completion;
  tools_check_str : list string -> Z -> string;
  tools_stop_called : nat -> bool
}.

(** The outcome of [subprocess.run(..., check=True, ..., text=True)] followed
    by [.stdout]. *)
Definition subprocess_outcome (t : Tools) (idx : nat) (cmd_parts : list string)
  : Py.exn + string :=
  match tools_run t idx cmd_parts with
  | popen_raises e => inl e
  | exits _ (undecodable msg) => inl (Py.Exception msg)
  | exits returncode (decoded stdout) =>
      if (returncode =? 0)%Z then inr stdout
      else inl (Py.CalledProcessError stdout
                  (tools_check_str t cmd_parts returncode))
  end.

(** The environment of a run that these tools make. *)
Definition env_of_tools (t : Tools) : Env :=
  {| env_mkdir := tools_mkdir t;
     env_subprocess_run := subprocess_outcome t;
     env_stop_called := tools_stop_called t |}.

(** The [str(e)] of the [UnicodeDecodeError] that the UTF-8 codec raises on
    an output made of the single byte [0xe9]. *)
Definition lone_0xe9 : string :=
  "'utf-8' codec can't decode byte 0xe9 in position 0: unexpected end of data".

(** Tools with which the process of item [k] writes the single byte [0xe9]
    and exits with status 1, every other process writes nothing and exits
    with status 0, and nobody calls [stop]. *)
Definition tools_undecodable_at (k : nat) : Tools :=
  {| tools_mkdir := fun _ => inr tt;
     tools_run := fun idx _ =>
       if (idx =? k)%nat then exits 1 (undecodable lone_0xe9)
       else exits 0 (decoded "");
     tools_check_str := fun _ _ => "non-zero exit status";
     tools_stop_called := fun _ => false |}.

(** Tools with which the process of item [k] writes [out], which is text,
    and exits with status [rc]; the rest as above. *)
Definition tools_exit_at (k : nat) (rc : Z) (out : string) : Tools :=
  {| tools_mkdir := fun _ => inr tt;
     tools_run := fun idx _ =>
       if (idx =? k)%nat then exits rc (decoded out)
       else exits 0 (decoded "");
     tools_check_str := fun _ _ => "non-zero exit status";
     tools_stop_called := fun _ => false |}.

(** An always-succeeding file system, for examples: the state counts the
    directories asked for. *)
Definition mkdir_ok (p : PurePath.t) (n : nat) : (Py.exn + unit) * nat :=
  (inr tt, S n).

(** An environment in which everything succeeds and nobody calls [stop]. *)
Definition env_ok : Env :=
  {| env_mkdir := fun _ => inr tt;
     env_subprocess_run := fun _ _ => inr "";
     env_stop_called := fun _ => false |}.

(** An environment in which everything succeeds and the controller has
    called [stop] by the time item [k] is about to start. *)
Definition env_stop_at (k : nat) : Env :=
  {| env_mkdir := fun _ => inr tt;
     env_subprocess_run := fun _ _ => inr "";
     env_stop_called := fun idx => (k <=? idx)%nat |}.

(** An environment in which the tool fails on item [k] with the text [out],
    succeeds on the others, and nobody calls [stop]. *)
Definition env_fail_at (k : nat) (out : string) : Env :=
  {| env_mkdir := fun _ => inr tt;
     env_subprocess_run := fun idx _ =>
       if (idx =? k)%nat
       then inl (Py.CalledProcessError out "non-zero exit status")
       else inr "";
     env_stop_called := fun _ => false |}.

(** Three invocations, as the builder makes them. *)
Definition plan3 : list (list string) :=
  [["gm"; "convert"; "/in/a.png"; "/out/a.webp"];
   ["gm"; "convert"; "/in/b.png"; "/out/b.webp"];
   ["gm"; "convert"; "/in/c.png"; "/out/c.webp"]].

(** The widgets of the first end-to-end scenario of the specification:
    format webp, quality 80, no resize, no rotation, no flip. *)
Definition gui_webp (files : list string) (out : string) : Widgets :=
  {| input_files := files; output_dir := out;
     chk_overwrite := false; chk_preserve_structure := false;
     format_combo := item_webp; quality_spin := 80;
     rotate_combo := rot_0; flip_check := false; flop_check := false;
     resize_check := false; width_spin := 1; height_spin := 1;
     aspect_check := true; chk_color_profile := false |}.

(** Format png, structure preserved, resize to 800x600 keeping the aspect. *)
Definition gui_preserve (files : list string) (out : string) : Widgets :=
  {| input_files := files; output_dir := out;
     chk_overwrite := false; chk_preserve_structure := true;
     format_combo := item_png; quality_spin := 90;
     rotate_combo := rot_0; flip_check := false; flop_check := false;
     resize_check := true; width_spin := 800; height_spin := 600;
     aspect_check := true; chk_color_profile := true |}.

(** A file system on which every [mkdir] is refused. *)
Definition mkdir_refused (p : PurePath.t) (n : nat) : (Py.exn + unit) * nat :=
  (inl (Py.Exception "Permission denied"), n).

(** The widgets of the second scenario: format unchanged, rotation 90, flip. *)
Definition gui_rotate_flip (files : list string) (out : string) : Widgets :=
  {| input_files := files; output_dir := out;
     chk_overwrite := false; chk_preserve_structure := false;
     format_combo := item_same_as_input; quality_spin := 90;
     rotate_combo := rot_90; flip_check := true; flop_check := false;
     resize_check := false; width_spin := 1; height_spin := 1;
     aspect_check := true; chk_color_profile := false |}.

(** * Properties *)

Example split_ex : PyStr.split "/" "/in//a.png" = [""; "in"; ""; "a.png"].
Proof. reflexivity. Qed.

Example path_ex1 : PurePath.str (PurePath.Path "/in/./x//a.png") = "/in/x/a.png".
Proof. reflexivity. Qed.

Example path_ex2 : PurePath.str (PurePath.Path "") = ".".
Proof. reflexivity. Qed.

Example path_ex3 :
  PurePath.stem (PurePath.Path "/in/a.tar.gz") = "a.tar"
  /\ PurePath.stem (PurePath.Path ".png") = ".png"
  /\ PurePath.stem (PurePath.Path "a.") = "a.".
Proof. repeat split; reflexivity. Qed.

Example rstrip_ex : PyStr.rstrip "90xyxy" "xy" = "90".
Proof. reflexivity. Qed.

Example str_of_int_ex : PyStr.str_of_int 80 = "80" /\ PyStr.str_of_int (-3) = "-3".
Proof. split; reflexivity. Qed.

Example accepted_ex :
  accepted_input "/in/A.PNG" = true /\ accepted_input "/in/a.gif" = false.
Proof. split; reflexivity. Qed.

(** The first end-to-end scenario of the specification. *)
Example scenario_webp :
  fst (run_build_commands nat mkdir_ok
         (gui_webp ["/in/a.png"; "/in/b.jpg"] "/out") 0%nat)
  = inr [["gm"; "convert"; "/in/a.png"; "-quality"; "80"; "/out/a.webp"];
         ["gm"; "convert"; "/in/b.jpg"; "-quality"; "80"; "/out/b.webp"]].
Proof. reflexivity. Qed.

Example scenario_webp_run :
  emitted (run_worker env_ok
             (Worker_init [["gm"; "convert"; "/in/a.png"; "/out/a.webp"]] "/out"))
  = [current_file "/out/a.webp";
     output_received ("[1/1] Executing: gm convert /in/a.png /out/a.webp" +++ newline);
     output_received "";
     progress_incremented;
     finished true ""].
Proof. reflexivity. Qed.

(** The second end-to-end scenario of the specification. *)
Example scenario_rotate_flip :
  fst (run_build_commands nat mkdir_ok
         (gui_rotate_flip ["/in/a.png"] "/out") 0%nat)
  = inr [["gm"; "convert"; "/in/a.png"; "-rotate"; "90"; "-flip"; "/out/a.png"]].
Proof. reflexivity. Qed.

Example scenario_preserve :
  fst (run_build_commands nat mkdir_ok
         (gui_preserve ["/in/sub/a.jpeg"] "/out") 0%nat)
  = inr [["gm"; "convert"; "/in/sub/a.jpeg"; "-resize"; "800x600";
          "-filter"; "Lanczos"; "-unsharp"; "0.25x0.25+8+0.065";
          "-profile"; "RGB.icm"; "/out/in/sub/a.png"]].
Proof. reflexivity. Qed.

Example scenario_mkdir_refused :
  fst (run_build_commands nat mkdir_refused
         (gui_webp ["/in/a.png"] "/out") 0%nat)
  = inl (Py.Exception "Permission denied").
Proof. reflexivity. Qed.

(** A run whose third invocation cannot be started at all: the exception
    reaches the outer handler. *)
Example scenario_tool_missing :
  emitted (run_worker
             {| env_mkdir := fun _ => inr tt;
                env_subprocess_run := fun _ _ =>
                  inl (Py.Exception "No such file or directory: 'gm'");
                env_stop_called := fun _ => false |}
             (Worker_init [["gm"; "convert"; "a.png"; "b.png"]] "/out"))
  = [current_file "b.png";
     output_received ("[1/1] Executing: gm convert a.png b.png" +++ newline);
     output_received "Critical Error: No such file or directory: 'gm'";
     finished false "No such file or directory: 'gm'"].
Proof. reflexivity. Qed.

(** ** Facts about strings *)

Module PyStrFacts.

Import PyStr.

Lemma last_char_None (s : string) : last_char s = None -> s = "".
Proof.
  induction s as [|a s IH]; simpl; auto.
  destruct s; [discriminate|].
  intros H. apply IH in H. discriminate.
Qed.

Lemma last_char_cons (a : ascii) (s : string) :
  s <> "" -> last_char (String a s) = last_char s.
Proof. destruct s; simpl; congruence. Qed.

Lemma append_empty (s t : string) : s +++ t = "" -> t = "".
Proof. destruct s; simpl; [auto|discriminate]. Qed.

Lemma last_char_append (s t : string) :
  t <> "" -> last_char (s +++ t) = last_char t.
Proof.
  intros Ht. induction s as [|a s IH]; simpl; auto.
  rewrite <- IH. apply last_char_cons.
  intros E. apply append_empty in E. auto.
Qed.

Lemma endswith_last_char (s suffix : string) :
  endswith s suffix = true -> suffix <> "" -> last_char s = last_char suffix.
Proof.
  intros H Hs. induction s as [|a s IH].
  - destruct suffix; [congruence|discriminate].
  - cbn [endswith] in H. apply orb_true_iff in H. destruct H as [H|H].
    + apply String.eqb_eq in H. now subst.
    + specialize (IH H). rewrite last_char_cons; auto.
      intros ->. simpl in IH. symmetry in IH.
      apply last_char_None in IH. auto.
Qed.

Lemma last_char_lower (s : string) :
  last_char (lower s) = option_map lower_ascii (last_char s).
Proof.
  induction s as [|a s IH]; simpl; auto.
  destruct s; simpl in *; auto.
Qed.

Lemma split_not_nil (sep : ascii) (s : string) : split sep s <> [].
Proof.
  destruct s as [|a s]; simpl; [discriminate|].
  destruct (Ascii.eqb a sep); [discriminate|].
  destruct (split sep s); discriminate.
Qed.

Lemma split_no_sep (sep : ascii) (s : string) :
  Forall (fun w => occurs sep w = false) (split sep s).
Proof.
  induction s as [|a s IH]; simpl.
  - repeat constructor.
  - destruct (Ascii.eqb a sep) eqn:E.
    + constructor; auto.
    + destruct (split sep s) as [|w ws].
      * repeat constructor. simpl. now rewrite E.
      * inversion IH; subst. constructor; auto.
        simpl. rewrite E. auto.
Qed.

Lemma split_id (sep : ascii) (s : string) :
  occurs sep s = false -> split sep s = [s].
Proof.
  induction s as [|a s IH]; simpl; auto.
  intros H. apply orb_false_iff in H. destruct H as [H1 H2].
  rewrite H1, IH; auto.
Qed.

Lemma split_last (sep : ascii) (s : string) (c : ascii) :
  last_char s = Some c -> c <> sep ->
  last_char (last (split sep s) "") = Some c.
Proof.
  intros H Hc. induction s as [|a s IH]; [discriminate|].
  destruct s as [|b s].
  - simpl in H. injection H as ->. simpl.
    destruct (Ascii.eqb_spec c sep); [contradiction|reflexivity].
  - rewrite last_char_cons in H by discriminate.
    specialize (IH H).
    change (split sep (String a (String b s))) with
      (if Ascii.eqb a sep then "" :: split sep (String b s)
       else match split sep (String b s) with
            | [] => [String a ""]
            | w :: ws => String a w :: ws
            end).
    pose proof (split_not_nil sep (String b s)) as Hn.
    destruct (split sep (String b s)) as [|w ws]; [contradiction|].
    destruct (Ascii.eqb a sep).
    + exact IH.
    + destruct ws as [|w' ws].
      * cbn [last] in *. rewrite last_char_cons; auto.
        intros ->. discriminate.
      * exact IH.
Qed.

Lemma occurs_append (c : ascii) (s t : string) :
  occurs c (s +++ t) = occurs c s || occurs c t.
Proof.
  induction s as [|a s IH]; simpl; auto.
  rewrite IH. now rewrite orb_assoc.
Qed.

Lemma occurs_substring (c : ascii) (s : string) (n m : nat) :
  occurs c s = false -> occurs c (substring n m s) = false.
Proof.
  revert n m. induction s as [|a s IH]; intros n m H.
  - destruct n, m; reflexivity.
  - simpl in H. apply orb_false_iff in H. destruct H as [H1 H2].
    destruct n; simpl.
    + destruct m; simpl; auto. rewrite H1. simpl. auto.
    + auto.
Qed.

Lemma last_filter {A} (f : A -> bool) (l : list A) (d : A) :
  l <> [] -> f (last l d) = true -> last (filter f l) d = last l d.
Proof.
  intros Hl Hf.
  rewrite (app_removelast_last d Hl) at 1.
  rewrite filter_app. simpl. rewrite Hf. apply last_last.
Qed.

Lemma last_char_join (l : list string) :
  last l "" <> "" ->
  last_char (join "/" l) = last_char (last l "").
Proof.
  induction l as [|x l IH]; auto.
  destruct l as [|y l]; auto.
  intros H. specialize (IH H).
  change (join "/" (x :: y :: l)) with (x +++ "/" +++ join "/" (y :: l)).
  change (last (x :: y :: l) "") with (last (y :: l) "").
  rewrite <- IH.
  rewrite last_char_append.
  - apply last_char_cons. intros E. rewrite E in IH. simpl in IH.
    symmetry in IH. apply last_char_None in IH. auto.
  - discriminate.
Qed.

(** A decimal numeral never starts like a flag does. *)
Lemma str_of_int_not_flag (n : Z) (rest : string) (c : ascii) (flag : string) :
  (nat_of_ascii c <? 48)%nat || (57 <? nat_of_ascii c)%nat = true ->
  str_of_int n +++ rest <> String "-" (String c flag).
Proof.
  intros Hc. unfold str_of_int.
  assert (D : forall u, exists d s,
               NilZero.string_of_uint u = String d s
               /\ (nat_of_ascii d <? 48)%nat || (57 <? nat_of_ascii d)%nat = false).
  { intros u. destruct u; simpl; eexists; eexists; split; reflexivity. }
  destruct n as [|p|p]; simpl.
  - discriminate.
  - destruct (D (Pos.to_uint p)) as (d & s & E & Hd).
    rewrite E. simpl. intros H. injection H as H _. subst d.
    vm_compute in Hd. discriminate.
  - destruct (D (Pos.to_uint p)) as (d & s & E & Hd).
    rewrite E. simpl. intros H. injection H as H _. subst d.
    rewrite Hd in Hc. discriminate.
Qed.

End PyStrFacts.

(** ** Facts about paths *)

Module PurePathFacts.

Import PyStr PyStrFacts PurePath.

(** Every component of a parsed path is free of separators, not empty and
    not a lone dot. *)
Lemma Path_parts_valid (f : string) :
  Forall (fun w => occurs sep w = false /\ keep_part w = true)
         (parts (Path f)).
Proof.
  unfold Path. destruct (splitroot f) as [r rel]. simpl.
  apply Forall_forall. intros w Hw. apply filter_In in Hw.
  destruct Hw as [Hw Hk]. split; auto.
  pose proof (split_no_sep sep rel) as Hs.
  rewrite Forall_forall in Hs. auto.
Qed.

Lemma Path_root_cases (f : string) :
  root (Path f) = "" \/ root (Path f) = "/" \/ root (Path f) = "//".
Proof.
  unfold Path, splitroot.
  destruct f as [|c1 [|c2 [|c3 r]]]; simpl; auto;
    repeat match goal with
           | |- context [Ascii.eqb ?a ?b] => destruct (Ascii.eqb a b); simpl; auto
           end.
Qed.

Lemma splitroot_last_char (f : string) (c : ascii) :
  last_char f = Some c -> c <> sep ->
  last_char (snd (splitroot f)) = Some c.
Proof.
  intros H Hc. unfold splitroot.
  destruct f as [|c1 r1]; [discriminate|].
  destruct (Ascii.eqb_spec c1 sep) as [->|]; [|exact H].
  destruct r1 as [|c2 r2].
  { simpl in H. congruence. }
  rewrite last_char_cons in H by discriminate.
  destruct (Ascii.eqb_spec c2 sep) as [->|]; [|exact H].
  destruct r2 as [|c3 r3].
  { simpl in H. congruence. }
  destruct (Ascii.eqb c3 sep); simpl snd; exact H.
Qed.

(** The name of a path whose text ends with a character other than the
    separator and the dot ends with that character. *)
Lemma Path_name_last_char (f : string) (c : ascii) :
  last_char f = Some c -> c <> sep -> c <> "."%char ->
  parts (Path f) <> [] /\ last_char (name (Path f)) = Some c.
Proof.
  intros H Hs Hd.
  pose proof (splitroot_last_char f c H Hs) as Hrel.
  unfold name, Path. destruct (splitroot f) as [r rel]. simpl in *.
  pose proof (split_last sep rel c Hrel Hs) as Hl.
  assert (Hk : keep_part (last (split sep rel) "") = true).
  { unfold keep_part. destruct (last (split sep rel) "") as [|a [|b w]].
    - discriminate.
    - simpl in Hl. injection Hl as ->. simpl.
      destruct (Ascii.eqb_spec c "."%char); [contradiction|reflexivity].
    - simpl. destruct (Ascii.eqb a "."); reflexivity. }
  pose proof (last_filter keep_part (split sep rel) ""
                (split_not_nil sep rel) Hk) as E.
  split.
  - intros N. rewrite N in E. simpl in E. rewrite <- E in Hl. discriminate.
  - rewrite E. exact Hl.
Qed.

Lemma occurs_false_head (x : string) :
  occurs sep x = false -> splitroot x = ("", x).
Proof.
  destruct x as [|a x]; simpl; auto.
  intros H. apply orb_false_iff in H. destruct H as [H _].
  unfold splitroot. now rewrite H.
Qed.

(** A text without separator that the parser keeps is a one-component path. *)
Lemma Path_single (x : string) :
  occurs sep x = false -> keep_part x = true -> Path x = mk "" [x].
Proof.
  intros Ho Hk. unfold Path. rewrite occurs_false_head by auto.
  rewrite split_id by auto. simpl. now rewrite Hk.
Qed.

Lemma Path_empty : Path "" = mk "" [].
Proof. reflexivity. Qed.

Lemma name_valid (f : string) :
  parts (Path f) <> [] ->
  occurs sep (name (Path f)) = false /\ keep_part (name (Path f)) = true.
Proof.
  intros Hn. pose proof (Path_parts_valid f) as V.
  rewrite Forall_forall in V. apply V.
  unfold name. rewrite (app_removelast_last "" Hn) at 2.
  apply in_or_app. right. now left.
Qed.

Lemma name_empty (f : string) :
  name (Path f) = "" <-> parts (Path f) = [].
Proof.
  split.
  - intros E. destruct (parts (Path f)) eqn:P; auto.
    assert (Hn : parts (Path f) <> []) by (rewrite P; discriminate).
    destruct (name_valid f Hn) as [_ K]. rewrite E in K. discriminate.
  - unfold name. now intros ->.
Qed.

(** [Path(p.name)] for a parsed path [p]. *)
Lemma Path_name (f : string) :
  name (Path f) <> "" -> Path (name (Path f)) = mk "" [name (Path f)].
Proof.
  intros Hn. assert (P : parts (Path f) <> []).
  { intros E. apply Hn. now apply name_empty. }
  destruct (name_valid f P). now apply Path_single.
Qed.

Lemma name_no_sep (f : string) : occurs sep (name (Path f)) = false.
Proof.
  destruct (parts (Path f)) eqn:P.
  - unfold name. now rewrite P.
  - apply name_valid. rewrite P. discriminate.
Qed.

Lemma stem_no_sep (f : string) : occurs sep (stem (Path f)) = false.
Proof.
  unfold stem. pose proof (name_no_sep f) as H.
  destruct (rfind "."%char (name (Path f))); auto.
  destruct (_ && _); auto. now apply occurs_substring.
Qed.

(** [Path(f"{p.stem}.{fmt}")] for a format without separator. *)
Lemma Path_stem_fmt (f fmt : string) :
  occurs sep fmt = false -> fmt <> "" ->
  Path (stem (Path f) +++ "." +++ fmt)
  = mk "" [stem (Path f) +++ "." +++ fmt].
Proof.
  intros Ho Hf. apply Path_single.
  - rewrite occurs_append, stem_no_sep. simpl. exact Ho.
  - unfold keep_part. destruct (stem (Path f)) as [|a [|b w]]; simpl.
    + destruct fmt; [contradiction|reflexivity].
    + destruct (Ascii.eqb a "."); reflexivity.
    + destruct (Ascii.eqb a "."); reflexivity.
Qed.

Lemma joinpath_single (d : t) (x : string) :
  joinpath d (mk "" [x]) = mk (root d) (parts d ++ [x]).
Proof. reflexivity. Qed.

Lemma parent_snoc (r : string) (l : list string) (x : string) :
  parent (mk r (l ++ [x])) = mk r l.
Proof.
  unfold parent. simpl. rewrite removelast_last.
  destruct l; reflexivity.
Qed.

Lemma name_snoc (r : string) (l : list string) (x : string) :
  name (mk r (l ++ [x])) = x.
Proof. unfold name. simpl. apply last_last. Qed.

Lemma Path_of_root (f : string) : Path (root (Path f)) = mk (root (Path f)) [].
Proof.
  destruct (Path_root_cases f) as [E|[E|E]]; rewrite E; reflexivity.
Qed.

(** [p.parent.relative_to(p.anchor)] never raises: it is the parent without
    its root. *)
Lemma relative_to_parent_anchor (f : string) :
  relative_to (parent (Path f)) (anchor (Path f))
  = Some (mk "" (removelast (parts (Path f)))).
Proof.
  unfold relative_to, anchor. rewrite Path_of_root. simpl.
  unfold parent. destruct (parts (Path f)) eqn:P.
  - rewrite String.eqb_refl, P. reflexivity.
  - simpl root. rewrite String.eqb_refl. reflexivity.
Qed.

(** The text of a path with a name ends like the name. *)
Lemma str_last_char (p : t) :
  name p <> "" -> last_char (str p) = last_char (name p).
Proof.
  intros Hn. unfold str, name in *.
  assert (J : join "/" (parts p) <> "").
  { intros E. pose proof (last_char_join (parts p) Hn) as L.
    rewrite E in L. simpl in L. symmetry in L.
    apply last_char_None in L. auto. }
  destruct (String.eqb_spec (root p +++ join "/" (parts p)) "") as [E|_].
  - apply append_empty in E. contradiction.
  - rewrite last_char_append by auto. now apply last_char_join.
Qed.

Lemma Path_well_formed (f : string) : well_formed (Path f).
Proof. split; [apply Path_root_cases|apply Path_parts_valid]. Qed.

Lemma split_append_sep (x rest : string) :
  occurs sep x = false ->
  split sep (x +++ String sep rest) = x :: split sep rest.
Proof.
  induction x as [|a x IH]; intros H.
  - reflexivity.
  - simpl in H. apply orb_false_iff in H. destruct H as [H1 H2].
    simpl. rewrite H1. rewrite IH by exact H2. reflexivity.
Qed.

Lemma split_join (l : list string) :
  Forall (fun w => occurs sep w = false /\ keep_part w = true) l ->
  l <> [] -> split sep (join "/" l) = l.
Proof.
  induction l as [|x l IH]; intros V Hn; [contradiction|].
  inversion V as [|? ? [Hx _] Vl]; subst.
  destruct l as [|y l].
  - simpl. now apply split_id.
  - change (join "/" (x :: y :: l)) with (x +++ String sep (join "/" (y :: l))).
    rewrite split_append_sep by exact Hx.
    rewrite IH; auto. discriminate.
Qed.

Lemma filter_keep_all (l : list string) :
  Forall (fun w => occurs sep w = false /\ keep_part w = true) l ->
  filter keep_part l = l.
Proof.
  induction 1 as [|x l [_ K] _ IH]; simpl; auto.
  rewrite K, IH. reflexivity.
Qed.

(** The text of a non-empty list of components starts with a character that
    is not the separator. *)
Lemma join_head (l : list string) :
  Forall (fun w => occurs sep w = false /\ keep_part w = true) l ->
  l <> [] ->
  exists a w, join "/" l = String a w /\ Ascii.eqb a sep = false.
Proof.
  intros V Hn. destruct l as [|x l]; [contradiction|].
  inversion V as [|? ? [Hx Kx] _]; subst.
  destruct x as [|a x]; [discriminate|].
  simpl in Hx. apply orb_false_iff in Hx. destruct Hx as [Ha _].
  destruct l; simpl; eauto.
Qed.

(** Parsing the text of a parsed path gives the path back. *)
Lemma Path_str (p : t) : well_formed p -> Path (str p) = p.
Proof.
  destruct p as [r l]. intros [R V]. simpl in R, V.
  destruct l as [|x l'].
  - destruct R as [->|[->| ->]]; reflexivity.
  - remember (x :: l') as l eqn:El.
    assert (Hn : l <> []) by (subst; discriminate).
    destruct (join_head l V Hn) as (a & w & J & Ha).
    pose proof (split_join l V Hn) as SJ.
    pose proof (filter_keep_all l V) as FK.
    unfold str, Path. cbn [root parts].
    destruct R as [->|[->| ->]]; rewrite J in *; cbn -[split filter keep_part];
      rewrite ?Ha; cbn -[split filter keep_part]; rewrite SJ, FK; reflexivity.
Qed.

Lemma stem_fmt_valid (f fmt : string) :
  occurs sep fmt = false -> fmt <> "" ->
  occurs sep (stem (Path f) +++ "." +++ fmt) = false
  /\ keep_part (stem (Path f) +++ "." +++ fmt) = true.
Proof.
  intros Ho Hf. split.
  - rewrite occurs_append, stem_no_sep. simpl. exact Ho.
  - unfold keep_part. destruct (stem (Path f)) as [|a [|b w]]; simpl.
    + destruct fmt; [contradiction|reflexivity].
    + destruct (Ascii.eqb a "."); reflexivity.
    + destruct (Ascii.eqb a "."); reflexivity.
Qed.

Lemma well_formed_snoc (d : t) (n : string) :
  well_formed d -> occurs sep n = false -> keep_part n = true ->
  well_formed (mk (root d) (parts d ++ [n])).
Proof.
  intros [R V] Ho Hk. split; [exact R|]. simpl.
  apply Forall_app. split; auto.
Qed.

Lemma well_formed_joinpath_parent (d : t) (f : string) :
  well_formed d ->
  well_formed (joinpath d (mk "" (removelast (parts (Path f))))).
Proof.
  intros [R V]. split; [exact R|]. simpl.
  apply Forall_app. split; auto.
  pose proof (Path_parts_valid f) as Vf. rewrite Forall_forall in *.
  intros w Hw. apply Vf.
  destruct (parts (Path f)) eqn:P; [contradiction|].
  rewrite (app_removelast_last "" (l:=s :: l)) by discriminate.
  apply in_or_app. now left.
Qed.

End PurePathFacts.

(** ** The command builder, characterised *)

Section BuilderFacts.

Variable FS : Type.
Variable mkdir : PurePath.t -> FS -> (Py.exn + unit) * FS.

(** One pass through the loop: the directory is created, then the invocation
    is appended; a failing [mkdir] is the only exception. *)
Lemma build_commands_body_eq (gui : Widgets) (f : string) (s : BuildState FS) :
  build_commands_body FS mkdir gui (output_format_of gui) f s =
  match mkdir (destination_dir gui f) (fs s) with
  | (inl e, fs') => (inl e, {| fs := fs'; commands := commands s |})
  | (inr _, fs') =>
      (inr tt, {| fs := fs'; commands := commands s ++ [invocation gui f] |})
  end.
Proof.
  unfold build_commands_body, invocation, destination_file, transform_args,
    destination_dir.
  destruct (chk_preserve_structure gui);
    [unfold relative_to; rewrite !PurePathFacts.relative_to_parent_anchor|];
    unfold Py.bind, Py.ret, mkdir_parents_exist_ok;
    (destruct (mkdir _ (fs s)) as [[e|[]] fs']; [reflexivity|]);
    unfold commands_append, Py.modify; cbn [fs commands];
    do 3 f_equal;
    (destruct (output_format_of gui) as [fmt|]; cbn [truthy in_tuple];
     [destruct (String.eqb fmt ""); cbn [negb]|]);
    destruct (resize_check gui), (aspect_check gui),
      (negb (String.eqb (PyStr.rstrip (rotate_text (rotate_combo gui))
                           degree_sign) "0")),
      (flip_check gui), (flop_check gui), (chk_color_profile gui);
    try destruct (existsb (String.eqb fmt) ["jpg"; "webp"; "tiff"]);
    reflexivity.
Qed.

(** The loop: the [mkdir] calls happen in input order; when none raises, one
    invocation per input has been appended, in input order. *)
Lemma for_each_body_eq (gui : Widgets) (files : list string)
    (s : BuildState FS) :
  let r := Py.for_each files
             (build_commands_body FS mkdir gui (output_format_of gui)) s in
  let m := mkdirs mkdir (map (destination_dir gui) files) (fs s) in
  fst r = fst m /\ fs (snd r) = snd m /\
  (fst r = inr tt ->
   commands (snd r) = commands s ++ map (invocation gui) files).
Proof.
  revert s. induction files as [|f files IH]; intros s; cbn zeta.
  - simpl. rewrite app_nil_r. auto.
  - cbn [Py.for_each map mkdirs]. unfold Py.bind.
    rewrite build_commands_body_eq.
    destruct (mkdir (destination_dir gui f) (fs s)) as [[e|[]] fs'].
    + simpl. repeat split; auto. discriminate.
    + specialize (IH {| fs := fs';
                        commands := commands s ++ [invocation gui f] |}).
      cbn zeta in IH. cbn [fs commands] in IH.
      destruct IH as (I1 & I2 & I3). repeat split; auto.
      intros H. rewrite I3 by exact H.
      rewrite <- app_assoc. reflexivity.
Qed.

(** [build_commands] returns the invocations of its inputs, in order, unless
    a [mkdir] raises. *)
Lemma run_build_commands_eq (gui : Widgets) (fs0 : FS) :
  run_build_commands FS mkdir gui fs0 =
  match mkdirs mkdir (map (destination_dir gui) (input_files gui)) fs0 with
  | (inr _, fs') => (inr (map (invocation gui) (input_files gui)), fs')
  | (inl e, fs') => (inl e, fs')
  end.
Proof.
  unfold run_build_commands, build_commands.
  unfold Py.bind at 1. unfold Py.modify at 1. cbn [fs].
  unfold Py.bind at 1.
  pose proof (for_each_body_eq gui (input_files gui)
                {| fs := fs0; commands := [] |}) as H.
  cbn zeta in H. cbn [fs commands] in H.
  destruct (Py.for_each _ _ _) as [r s'].
  destruct (mkdirs _ _ _) as [m fs'].
  cbn [fst snd] in H. destruct H as (H1 & H2 & H3). subst m fs'.
  destruct r as [e|[]].
  - reflexivity.
  - unfold Py.bind, Py.get, Py.ret. rewrite H3 by reflexivity. reflexivity.
Qed.

Lemma build_commands_plan (gui : Widgets) (fs0 : FS) (plan : list (list string)) :
  fst (run_build_commands FS mkdir gui fs0) = inr plan ->
  plan = map (invocation gui) (input_files gui).
Proof.
  rewrite run_build_commands_eq.
  destruct (mkdirs _ _ _) as [[e|[]] fs']; simpl; congruence.
Qed.

End BuilderFacts.

(** ** Shape of an invocation *)

Lemma invocation_shape (gui : Widgets) (f : string) :
  invocation gui f =
  "gm" :: "convert" :: PurePath.str (PurePath.Path f) ::
  transform_args gui ++ [PurePath.str (destination_file gui f)].
Proof. reflexivity. Qed.

Lemma invocation_last (gui : Widgets) (f : string) :
  last (invocation gui f) "" = PurePath.str (destination_file gui f).
Proof.
  rewrite invocation_shape.
  change ("gm" :: "convert" :: PurePath.str (PurePath.Path f) ::
          transform_args gui ++ [PurePath.str (destination_file gui f)])
    with (("gm" :: "convert" :: PurePath.str (PurePath.Path f) ::
           transform_args gui) ++ [PurePath.str (destination_file gui f)]).
  apply last_last.
Qed.

Lemma invocation_not_nil (gui : Widgets) (f : string) : invocation gui f <> [].
Proof. discriminate. Qed.

(** The six formats, two of which never reach the file name or the quality
    test as such: the last item stands for no format at all. *)
Lemma output_format_of_cases (gui : Widgets) :
  output_format_of gui =
  match format_combo gui with
  | item_jpg => Some "jpg"
  | item_png => Some "png"
  | item_webp => Some "webp"
  | item_tiff => Some "tiff"
  | item_bmp => Some "bmp"
  | item_same_as_input => None
  end.
Proof. unfold output_format_of. destruct (format_combo gui); reflexivity. Qed.

Lemma in_tuple_lossy (gui : Widgets) :
  in_tuple (output_format_of gui) ["jpg"; "webp"; "tiff"]
  = lossy (format_combo gui).
Proof.
  rewrite output_format_of_cases. destruct (format_combo gui); reflexivity.
Qed.

(** The destination keeps the directory computed for it, and takes the new
    name. *)
Lemma destination_file_eq (gui : Widgets) (f : string) :
  PurePath.name (PurePath.Path f) <> "" ->
  exists n,
    destination_file gui f
    = PurePath.mk (PurePath.root (destination_dir gui f))
                  (PurePath.parts (destination_dir gui f) ++ [n])
    /\ n = match output_format_of gui with
           | Some fmt => PurePath.stem (PurePath.Path f) +++ "." +++ fmt
           | None => PurePath.name (PurePath.Path f)
           end
    /\ PyStr.occurs PurePath.sep n = false
    /\ PurePath.keep_part n = true.
Proof.
  intros Hn. unfold destination_file. rewrite output_format_of_cases.
  assert (P : PurePath.parts (PurePath.Path f) <> []).
  { intros E. apply Hn. now apply PurePathFacts.name_empty. }
  destruct (PurePathFacts.name_valid f P) as [N1 N2].
  destruct (format_combo gui); cbn [String.eqb Ascii.eqb Bool.eqb];
    try (rewrite PurePathFacts.Path_stem_fmt by (reflexivity || discriminate));
    try (rewrite PurePathFacts.Path_name by exact Hn);
    eexists; (split; [reflexivity|split; [reflexivity|]]);
    try (apply PurePathFacts.stem_fmt_valid; [reflexivity|discriminate]);
    auto.
Qed.

Lemma destination_dir_eq (gui : Widgets) (f : string) :
  destination_dir gui f =
  if chk_preserve_structure gui
  then PurePath.joinpath (PurePath.Path (output_dir gui))
         (PurePath.mk "" (removelast (PurePath.parts (PurePath.Path f))))
  else PurePath.Path (output_dir gui).
Proof.
  unfold destination_dir.
  now rewrite PurePathFacts.relative_to_parent_anchor.
Qed.

Lemma destination_dir_well_formed (gui : Widgets) (f : string) :
  PurePath.well_formed (destination_dir gui f).
Proof.
  rewrite destination_dir_eq. destruct (chk_preserve_structure gui).
  - apply PurePathFacts.well_formed_joinpath_parent.
    apply PurePathFacts.Path_well_formed.
  - apply PurePathFacts.Path_well_formed.
Qed.

(** The destination argument parses back to the destination path, whose
    parent is the directory computed for it. *)
Lemma destination_file_parent (gui : Widgets) (f : string) :
  PurePath.name (PurePath.Path f) <> "" ->
  PurePath.Path (PurePath.str (destination_file gui f)) = destination_file gui f
  /\ PurePath.parent (destination_file gui f) = destination_dir gui f.
Proof.
  intros Hn. destruct (destination_file_eq gui f Hn) as (n & E & _ & N1 & N2).
  rewrite E. split.
  - apply PurePathFacts.Path_str.
    apply PurePathFacts.well_formed_snoc; auto.
    apply destination_dir_well_formed.
  - rewrite PurePathFacts.parent_snoc. now destruct (destination_dir gui f).
Qed.

(** ** What an accepted input looks like *)

(** A text that passes the filter of [dropEvent] ends with the last letter of
    an extension, in either case: not a separator, not a dot, not a [y]. *)
Lemma accepted_last_char (f : string) :
  accepted_input f = true ->
  exists c, PyStr.last_char f = Some c
            /\ c <> "/"%char /\ c <> "."%char /\ c <> "y"%char.
Proof.
  unfold accepted_input, PyStr.endswith_any, valid_extensions. intros H.
  assert (L : exists c, PyStr.last_char f = Some c /\
              (PyStr.lower_ascii c = "g"%char \/ PyStr.lower_ascii c = "p"%char
               \/ PyStr.lower_ascii c = "f"%char)).
  { cbn [existsb] in H.
    repeat (apply orb_true_iff in H; destruct H as [H|H]); try discriminate;
      apply PyStrFacts.endswith_last_char in H; try discriminate;
      rewrite PyStrFacts.last_char_lower in H;
      destruct (PyStr.last_char f) as [c|]; try discriminate;
      simpl in H; injection H as H; exists c; auto. }
  destruct L as (c & Hc & Hl). exists c. split; auto.
  repeat split; intros ->; vm_compute in Hl;
    destruct Hl as [Hl|[Hl|Hl]]; discriminate.
Qed.

Lemma accepted_has_name (f : string) :
  accepted_input f = true -> PurePath.name (PurePath.Path f) <> "".
Proof.
  intros H. destruct (accepted_last_char f H) as (c & Hc & H1 & H2 & _).
  destruct (PurePathFacts.Path_name_last_char f c Hc H1 H2) as [_ L].
  intros E. rewrite E in L. discriminate.
Qed.

(** The source argument of an accepted input does not end with [y]. *)
Lemma source_last_char (f : string) :
  accepted_input f = true ->
  exists c, PyStr.last_char (PurePath.str (PurePath.Path f)) = Some c
            /\ c <> "y"%char.
Proof.
  intros H. destruct (accepted_last_char f H) as (c & Hc & H1 & H2 & H3).
  destruct (PurePathFacts.Path_name_last_char f c Hc H1 H2) as [_ L].
  exists c. split; auto.
  rewrite PurePathFacts.str_last_char; auto.
  intros E. rewrite E in L. discriminate.
Qed.

(** Nor does the destination argument. *)
Lemma destination_last_char (gui : Widgets) (f : string) :
  accepted_input f = true ->
  exists c, PyStr.last_char (PurePath.str (destination_file gui f)) = Some c
            /\ c <> "y"%char.
Proof.
  intros H. pose proof (accepted_has_name f H) as Hn.
  destruct (destination_file_eq gui f Hn) as (n & E & En & _).
  assert (Ln : exists c, PyStr.last_char n = Some c /\ c <> "y"%char).
  { subst n. rewrite output_format_of_cases.
    destruct (format_combo gui);
      try (rewrite PyStrFacts.last_char_append by discriminate;
           eexists; split; [reflexivity|discriminate]).
    destruct (accepted_last_char f H) as (c & Hc & H1 & H2 & H3).
    destruct (PurePathFacts.Path_name_last_char f c Hc H1 H2) as [_ L].
    eauto. }
  destruct Ln as (c & Lc & Hy). exists c. split; auto.
  rewrite E. rewrite PurePathFacts.str_last_char;
    rewrite PurePathFacts.name_snoc; auto.
  intros N. rewrite N in Lc. discriminate.
Qed.

(** Among the arguments added by lines 327-346, [-quality] appears exactly
    for the lossy formats. *)
Lemma transform_args_quality (gui : Widgets) :
  In "-quality" (transform_args gui) <-> lossy (format_combo gui) = true.
Proof.
  unfold transform_args. rewrite in_tuple_lossy.
  assert (G : forall w h, PyStr.str_of_int w +++ "x" +++ PyStr.str_of_int h
                          <> "-quality").
  { intros w h. apply PyStrFacts.str_of_int_not_flag. reflexivity. }
  split.
  - rewrite !in_app_iff. intros [H|[H|[H|[H|[H|H]]]]].
    + destruct (resize_check gui); [|contradiction].
      rewrite in_app_iff in H. destruct H as [H|H].
      * simpl in H. destruct H as [H|[H|H]];
          [discriminate|destruct (G _ _ H)|contradiction].
      * destruct (aspect_check gui); simpl in H;
          repeat (destruct H as [H|H]; try discriminate); contradiction.
    + destruct (rotate_combo gui); vm_compute in H;
        repeat (destruct H as [H|H]; try discriminate); contradiction.
    + destruct (flip_check gui); simpl in H;
        repeat (destruct H as [H|H]; try discriminate); contradiction.
    + destruct (flop_check gui); simpl in H;
        repeat (destruct H as [H|H]; try discriminate); contradiction.
    + destruct (lossy (format_combo gui)); [reflexivity|contradiction].
    + destruct (chk_color_profile gui); simpl in H;
        repeat (destruct H as [H|H]; try discriminate); contradiction.
  - intros ->. do 4 (apply in_or_app; right). apply in_or_app. left.
    now left.
Qed.

(** ** The claims about the command builder *)

Lemma plan_nth (gui : Widgets) (i : nat) (f : string) :
  nth_error (input_files gui) i = Some f ->
  nth_error (map (invocation gui) (input_files gui)) i
  = Some (invocation gui f).
Proof. intros H. now apply map_nth_error. Qed.

(** C3, as amended: every invocation of a JobPlan begins with the tool name
    [gm], the verb [convert] and the source path, and ends with the
    destination path; the arguments of the transformations lie between the
    source and the destination. *)
Theorem invocation_begins_with_source_ends_with_destination
    (FS : Type) (mkdir : PurePath.t -> FS -> (Py.exn + unit) * FS)
    (gui : Widgets) (fs0 : FS) (plan : list (list string))
    (i : nat) (f : string) :
  fst (run_build_commands FS mkdir gui fs0) = inr plan ->
  nth_error (input_files gui) i = Some f ->
  exists cmd,
    nth_error plan i = Some cmd
    /\ cmd = "gm" :: "convert" :: PurePath.str (PurePath.Path f) ::
             transform_args gui ++ [PurePath.str (destination_file gui f)]
    /\ last cmd "" = PurePath.str (destination_file gui f).
Proof.
  intros Hp Hf. apply build_commands_plan in Hp. subst plan.
  exists (invocation gui f). split; [now apply plan_nth|].
  split; [apply invocation_shape|apply invocation_last].
Qed.

Lemma invocation_begins_with_source_ends_with_destination_witness :
  exists cmd,
    nth_error [["gm"; "convert"; "/in/a.png"; "-rotate"; "90"; "-flip";
                "/out/a.png"]] 0 = Some cmd
    /\ cmd = "gm" :: "convert" :: PurePath.str (PurePath.Path "/in/a.png") ::
             transform_args (gui_rotate_flip ["/in/a.png"] "/out") ++
             [PurePath.str (destination_file
                              (gui_rotate_flip ["/in/a.png"] "/out") "/in/a.png")]
    /\ last cmd "" =
       PurePath.str (destination_file
                       (gui_rotate_flip ["/in/a.png"] "/out") "/in/a.png").
Proof.
  apply (invocation_begins_with_source_ends_with_destination nat mkdir_ok
           (gui_rotate_flip ["/in/a.png"] "/out") 0%nat _ 0%nat "/in/a.png");
    reflexivity.
Defined.

(** C3, as stated, fails: with rotation 90 and flip, the element before the
    destination is [-flip], not the source path. *)
Lemma source_not_next_to_destination :
  let gui := gui_rotate_flip ["/in/a.png"] "/out" in
  exists cmd,
    fst (run_build_commands nat mkdir_ok gui 0%nat) = inr [cmd]
    /\ ~ (exists front,
            cmd = front ++ [PurePath.str (PurePath.Path "/in/a.png");
                            PurePath.str (destination_file gui "/in/a.png")]).
Proof.
  cbn zeta. eexists. split; [reflexivity|].
  intros [front E].
  apply (f_equal (fun l => nth_error (rev l) 1)) in E.
  rewrite (rev_app_distr front) in E. discriminate.
Qed.

Lemma app_assoc4 {A} (a b c d q p : list A) :
  a ++ b ++ c ++ d ++ q ++ p = (a ++ b ++ c ++ d) ++ q ++ p.
Proof. now rewrite <- !app_assoc. Qed.

(** C4: in every invocation of a JobPlan, the arguments between the source
    and the destination contain [-quality] if and only if the chosen format
    is one of jpg, webp and tiff, whatever the value of the quality spin box;
    when the input passes the filter of [dropEvent], so that neither path can
    be mistaken for the flag, the same holds of the whole invocation. *)
Theorem quality_flag_iff_lossy
    (FS : Type) (mkdir : PurePath.t -> FS -> (Py.exn + unit) * FS)
    (gui : Widgets) (fs0 : FS) (plan : list (list string))
    (cmd : list string) :
  fst (run_build_commands FS mkdir gui fs0) = inr plan ->
  In cmd plan ->
  exists f,
    In f (input_files gui)
    /\ cmd = "gm" :: "convert" :: PurePath.str (PurePath.Path f) ::
             transform_args gui ++ [PurePath.str (destination_file gui f)]
    /\ (In "-quality" (transform_args gui) <-> lossy (format_combo gui) = true)
    /\ (lossy (format_combo gui) = true ->
        exists front back,
          transform_args gui
          = front ++ ["-quality"; PyStr.str_of_int (quality_spin gui)] ++ back)
    /\ (accepted_input f = true ->
        (In "-quality" cmd <-> lossy (format_combo gui) = true)).
Proof.
  intros Hp Hc. apply build_commands_plan in Hp. subst plan.
  apply in_map_iff in Hc. destruct Hc as (f & <- & Hf).
  exists f. split; [exact Hf|]. split; [apply invocation_shape|].
  split; [apply transform_args_quality|]. split.
  - intros L. unfold transform_args. rewrite in_tuple_lossy, L.
    eexists _, _. apply app_assoc4.
  - intros Hacc. rewrite <- transform_args_quality. unfold invocation.
    split.
    + intros H. apply in_app_or in H. destruct H as [H|H].
      * destruct (source_last_char f Hacc) as (c & Lc & Hy).
        simpl in H. destruct H as [H|[H|[H|[]]]]; try discriminate.
        rewrite H in Lc. simpl in Lc. congruence.
      * apply in_app_or in H. destruct H as [H|H]; auto.
        destruct (destination_last_char gui f Hacc) as (c & Lc & Hy).
        simpl in H. destruct H as [H|[]].
        rewrite H in Lc. simpl in Lc. congruence.
    + intros H. apply in_or_app. right. apply in_or_app. now left.
Qed.

Lemma quality_flag_iff_lossy_witness :
  In "-quality" ["gm"; "convert"; "/in/a.png"; "-quality"; "80"; "/out/a.webp"]
  <-> lossy item_webp = true.
Proof.
  destruct (quality_flag_iff_lossy nat mkdir_ok
              (gui_webp ["/in/a.png"; "/in/b.jpg"] "/out") 0%nat
              [["gm"; "convert"; "/in/a.png"; "-quality"; "80"; "/out/a.webp"];
               ["gm"; "convert"; "/in/b.jpg"; "-quality"; "80"; "/out/b.webp"]]
              ["gm"; "convert"; "/in/a.png"; "-quality"; "80"; "/out/a.webp"]
              eq_refl (or_introl eq_refl))
    as (f & Hf & _ & _ & _ & H).
  apply H. destruct Hf as [<-|[<-|[]]]; reflexivity.
Defined.

(** Without the filter the whole invocation can contain the text of the flag
    as a path: a file named [-quality], converted to png. *)
Example quality_as_a_file_name :
  fst (run_build_commands nat mkdir_ok
         {| input_files := ["-quality"]; output_dir := "/out";
            chk_overwrite := false; chk_preserve_structure := false;
            format_combo := item_png; quality_spin := 90;
            rotate_combo := rot_0; flip_check := false; flop_check := false;
            resize_check := false; width_spin := 1; height_spin := 1;
            aspect_check := true; chk_color_profile := false |} 0%nat)
  = inr [["gm"; "convert"; "-quality"; "/out/-quality.png"]].
Proof. reflexivity. Qed.

(** C5: when no [mkdir] raises, [build_commands] returns a JobPlan; a JobPlan
    that it returns has as many invocations as there are inputs, and its
    [i]-th invocation is the one of the [i]-th input: it carries that input
    as source and that input's destination. *)
Theorem job_plan_one_invocation_per_input_in_order
    (FS : Type) (mkdir : PurePath.t -> FS -> (Py.exn + unit) * FS)
    (gui : Widgets) (fs0 : FS) :
  (fst (mkdirs mkdir (map (destination_dir gui) (input_files gui)) fs0) = inr tt ->
   exists plan, fst (run_build_commands FS mkdir gui fs0) = inr plan)
  /\
  (forall plan,
     fst (run_build_commands FS mkdir gui fs0) = inr plan ->
     List.length plan = List.length (input_files gui)
     /\ forall i f,
          nth_error (input_files gui) i = Some f ->
          exists cmd,
            nth_error plan i = Some cmd
            /\ nth_error cmd 2 = Some (PurePath.str (PurePath.Path f))
            /\ last cmd "" = PurePath.str (destination_file gui f)).
Proof.
  split.
  - intros H. rewrite run_build_commands_eq.
    destruct (mkdirs _ _ _) as [[e|[]] fs']; [discriminate|].
    eexists. reflexivity.
  - intros plan Hp. apply build_commands_plan in Hp. subst plan. split.
    + apply length_map.
    + intros i f Hf. exists (invocation gui f).
      split; [now apply plan_nth|].
      split; [reflexivity|apply invocation_last].
Qed.

Lemma job_plan_one_invocation_per_input_in_order_witness :
  exists plan,
    fst (run_build_commands nat mkdir_ok
           (gui_webp ["/in/a.png"; "/in/b.jpg"] "/out") 0%nat) = inr plan
    /\ List.length plan = 2%nat
    /\ exists cmd, nth_error plan 1 = Some cmd
                   /\ nth_error cmd 2 = Some "/in/b.jpg".
Proof.
  destruct (job_plan_one_invocation_per_input_in_order nat mkdir_ok
              (gui_webp ["/in/a.png"; "/in/b.jpg"] "/out") 0%nat) as [T P].
  destruct (T eq_refl) as [plan Hp].
  exists plan. split; [exact Hp|].
  destruct (P plan Hp) as [L N]. split; [exact L|].
  destruct (N 1%nat "/in/b.jpg" eq_refl) as (cmd & C1 & C2 & _).
  exists cmd. split; [exact C1|exact C2].
Defined.

(** C6: the destination path of the invocation of an input with a file name
    is the last argument.  When the structure is not preserved, its parent is
    the output directory.  When it is preserved, the input's parent made
    relative to its anchor is the rootless path of the input's components
    but the last, and the parent of the destination has the root of the
    output directory and its components followed by those. *)
Theorem destination_parent_directory
    (FS : Type) (mkdir : PurePath.t -> FS -> (Py.exn + unit) * FS)
    (gui : Widgets) (fs0 : FS) (plan : list (list string))
    (i : nat) (f : string) :
  fst (run_build_commands FS mkdir gui fs0) = inr plan ->
  nth_error (input_files gui) i = Some f ->
  PurePath.name (PurePath.Path f) <> "" ->
  exists cmd,
    nth_error plan i = Some cmd
    /\ (chk_preserve_structure gui = false ->
        PurePath.parent (PurePath.Path (last cmd ""))
        = PurePath.Path (output_dir gui))
    /\ (chk_preserve_structure gui = true ->
        PurePath.relative_to (PurePath.parent (PurePath.Path f))
                             (PurePath.anchor (PurePath.Path f))
        = Some (PurePath.mk "" (removelast (PurePath.parts (PurePath.Path f))))
        /\ PurePath.parent (PurePath.Path (last cmd ""))
           = PurePath.joinpath (PurePath.Path (output_dir gui))
               (PurePath.mk ""
                  (removelast (PurePath.parts (PurePath.Path f))))
        /\ PurePath.parent (PurePath.Path (last cmd ""))
           = PurePath.mk
               (PurePath.root (PurePath.Path (output_dir gui)))
               (PurePath.parts (PurePath.Path (output_dir gui)) ++
                removelast (PurePath.parts (PurePath.Path f)))).
Proof.
  intros Hp Hf Hn. apply build_commands_plan in Hp. subst plan.
  exists (invocation gui f). split; [now apply plan_nth|].
  rewrite invocation_last.
  destruct (destination_file_parent gui f Hn) as [RT Par].
  rewrite RT, Par, destination_dir_eq.
  split; intros ->; [reflexivity|].
  split; [apply PurePathFacts.relative_to_parent_anchor|].
  split; reflexivity.
Qed.

Lemma destination_parent_directory_witness :
  (PurePath.parent (PurePath.Path "/out/b.webp") = PurePath.Path "/out")
  /\ (PurePath.relative_to (PurePath.parent (PurePath.Path "/in/sub/a.jpeg"))
                           (PurePath.anchor (PurePath.Path "/in/sub/a.jpeg"))
      = Some (PurePath.mk "" ["in"; "sub"])
      /\ PurePath.parent (PurePath.Path "/out/in/sub/a.png")
         = PurePath.joinpath (PurePath.Path "/out")
             (PurePath.mk "" ["in"; "sub"])
      /\ PurePath.parent (PurePath.Path "/out/in/sub/a.png")
         = PurePath.mk "/" (["out"] ++ ["in"; "sub"])).
Proof.
  split.
  - destruct (destination_parent_directory nat mkdir_ok
                (gui_webp ["/in/a.png"; "/in/b.jpg"] "/out") 0%nat
                [["gm"; "convert"; "/in/a.png"; "-quality"; "80"; "/out/a.webp"];
                 ["gm"; "convert"; "/in/b.jpg"; "-quality"; "80"; "/out/b.webp"]]
                1%nat "/in/b.jpg" eq_refl eq_refl)
      as (cmd & N & Flat & _).
    + discriminate.
    + injection N as <-. exact (Flat eq_refl).
  - destruct (destination_parent_directory nat mkdir_ok
                (gui_preserve ["/in/sub/a.jpeg"] "/out") 0%nat
                [["gm"; "convert"; "/in/sub/a.jpeg"; "-resize"; "800x600";
                  "-filter"; "Lanczos"; "-unsharp"; "0.25x0.25+8+0.065";
                  "-profile"; "RGB.icm"; "/out/in/sub/a.png"]]
                0%nat "/in/sub/a.jpeg" eq_refl eq_refl)
      as (cmd & N & _ & Mirrored).
    + discriminate.
    + injection N as <-. exact (Mirrored eq_refl).
Defined.

(** An input without a file name, the root directory, with the format
    unchanged: the last argument is the output directory itself. *)
Example destination_of_a_nameless_input :
  fst (run_build_commands nat mkdir_ok (gui_rotate_flip ["/"] "/out") 0%nat)
  = inr [["gm"; "convert"; "/"; "-rotate"; "90"; "-flip"; "/out"]].
Proof. reflexivity. Qed.

(** C8: the JobPlan depends on the inputs, the output directory and the
    options only: two runs of [build_commands] on the same widgets that both
    return, from whatever states of the file system, return equal JobPlans;
    in particular a second run on the file system left by the first. *)
Theorem build_commands_deterministic
    (FS : Type) (mkdir : PurePath.t -> FS -> (Py.exn + unit) * FS)
    (gui : Widgets) (fs1 fs2 : FS) (plan1 plan2 : list (list string)) :
  fst (run_build_commands FS mkdir gui fs1) = inr plan1 ->
  fst (run_build_commands FS mkdir gui fs2) = inr plan2 ->
  plan1 = plan2.
Proof.
  intros H1 H2. apply build_commands_plan in H1, H2. congruence.
Qed.

Lemma build_commands_deterministic_witness :
  fst (run_build_commands nat mkdir_ok
         (gui_preserve ["/in/sub/a.jpeg"; "b.PNG"] "/out") 0%nat)
  = fst (run_build_commands nat mkdir_ok
           (gui_preserve ["/in/sub/a.jpeg"; "b.PNG"] "/out")
           (snd (run_build_commands nat mkdir_ok
                   (gui_preserve ["/in/sub/a.jpeg"; "b.PNG"] "/out") 0%nat))).
Proof.
  exact (f_equal (@inr Py.exn (list (list string)))
           (build_commands_deterministic nat mkdir_ok
              (gui_preserve ["/in/sub/a.jpeg"; "b.PNG"] "/out") 0%nat
              (snd (run_build_commands nat mkdir_ok
                      (gui_preserve ["/in/sub/a.jpeg"; "b.PNG"] "/out") 0%nat))
              _ _ eq_refl eq_refl)).
Defined.

(** ** The batch executor, characterised *)

Section ExecutorFacts.

Variable env : Env.

(** One pass through the loop body, case by case. *)
Lemma run_body_eq (total idx : nat) (cmd_parts : list string) (s : RunState) :
  run_body env total idx cmd_parts s =
  let s1 := if env_stop_called env idx then set_self stop s else s in
  if negb (_is_running (self s1)) then (inr Py.Break, s1)
  else
    match cmd_parts with
    | [] => (inl (Py.Exception "list index out of range"), s1)
    | _ :: _ =>
        let s2 :=
          add_invoked cmd_parts
            (add_emitted [output_received (executing total idx cmd_parts)]
               (add_emitted [current_file (last cmd_parts "")] s1)) in
        match env_subprocess_run env idx cmd_parts with
        | inr stdout =>
            (inr Py.Continue,
             add_emitted [progress_incremented]
               (add_emitted [output_received stdout] s2))
        | inl (Py.CalledProcessError output _) =>
            (inr Py.Break,
             set_error_msg ("Failed to process " +++ last cmd_parts "")
               (set_success false
                  (add_emitted [output_received ("Error: " +++ output)] s2)))
        | inl (Py.Exception m) => (inl (Py.Exception m), s2)
        end
    end.
Proof.
  unfold run_body, controller, subprocess_run, emit, Py.try_except,
    Py.getitem_last, Py.bind, Py.get, Py.ret, Py.modify, Py.raise.
  destruct (env_stop_called env idx); cbn [set_self self _is_running stop negb];
    [reflexivity|].
  destruct (_is_running (self s)); cbn [negb]; [|reflexivity].
  destruct cmd_parts as [|a l]; [reflexivity|].
  destruct (env_subprocess_run env idx (a :: l)) as [[o m|m]|out];
    reflexivity.
Qed.

(** One step of the loop. *)
Lemma for_enumerate_cons (total idx : nat) (cmd_parts : list string)
    (rest : list (list string)) (s : RunState) :
  Py.for_enumerate idx (cmd_parts :: rest) (run_body env total) s =
  match run_body env total idx cmd_parts s with
  | (inr Py.Continue, s') =>
      Py.for_enumerate (S idx) rest (run_body env total) s'
  | (inr Py.Break, s') => (inr tt, s')
  | (inl e, s') => (inl e, s')
  end.
Proof.
  cbn [Py.for_enumerate]. unfold Py.bind.
  destruct (run_body env total idx cmd_parts s) as [[e|[|]] s']; reflexivity.
Qed.

(** [run] is the loop between the [mkdir] of line 30 and the handlers. *)
Lemma run_eq (w : Worker) :
  run_worker env w =
  match env_mkdir env (PurePath.Path (w_output_dir w)) with
  | inl e => conclude (inl e, initial w)
  | inr _ =>
      conclude (Py.for_enumerate 0 (w_commands w)
                  (run_body env (List.length (w_commands w))) (initial w))
  end.
Proof.
  unfold run_worker, run, mkdir_output_dir, emit, Py.try_finally,
    Py.try_except, Py.bind, Py.get, Py.ret, Py.modify, Py.raise.
  change (set_error_msg "" (set_success true (initial w))) with (initial w).
  cbn [initial self].
  destruct (env_mkdir env (PurePath.Path (w_output_dir w))) as [e|[]].
  - reflexivity.
  - change {| self := w; success := true; error_msg := "";
              emitted := []; invoked := [] |} with (initial w).
    destruct (Py.for_enumerate 0 (w_commands w) _ (initial w)) as [[e|[]] s'];
      reflexivity.
Qed.

(** The controller touches the flag only. *)
Lemma controller_fields (idx : nat) (s : RunState) :
  let s1 := if env_stop_called env idx then set_self stop s else s in
  emitted s1 = emitted s /\ invoked s1 = invoked s
  /\ success s1 = success s /\ error_msg s1 = error_msg s
  /\ _is_running (self s1) = negb (stop_seen env idx s).
Proof.
  unfold stop_seen. destruct (env_stop_called env idx); cbn.
  - auto.
  - rewrite negb_involutive. auto.
Qed.

Lemma current_files_app (l1 l2 : list Signal) :
  current_files (l1 ++ l2) = current_files l1 ++ current_files l2.
Proof.
  induction l1 as [|sg l1 IH]; simpl; auto.
  destruct sg; simpl; rewrite ?IH; reflexivity.
Qed.

(** What the loop adds to the trace, however it ends: signals other than
    [finished]; the first [n] invocations, each announced by a
    [current_file] signal that carries its last argument; at most [n]
    progress ticks. *)
Lemma loop_trace (total : nat) (cmds : list (list string)) :
  forall idx s r s',
    Py.for_enumerate idx cmds (run_body env total) s = (r, s') ->
    exists ev n,
      emitted s' = emitted s ++ ev
      /\ invoked s' = invoked s ++ firstn n cmds
      /\ existsb is_finished ev = false
      /\ current_files ev = map (fun c => last c "") (firstn n cmds)
      /\ List.length (filter is_progress ev) <= n.
Proof.
  induction cmds as [|c rest IH]; intros idx s r s' H.
  - cbn in H. injection H as _ <-. exists [], 0%nat.
    rewrite !app_nil_r. cbn. auto.
  - rewrite for_enumerate_cons, run_body_eq in H. cbn zeta in H.
    destruct (controller_fields idx s) as (E1 & E2 & _ & _ & _).
    cbn zeta in E1, E2.
    set (s1 := if env_stop_called env idx then set_self stop s else s) in *.
    destruct (negb (_is_running (self s1))).
    { injection H as _ <-. exists [], 0%nat.
      rewrite !app_nil_r, E1, E2. cbn. auto. }
    destruct c as [|a l].
    { injection H as _ <-. exists [], 0%nat.
      rewrite !app_nil_r, E1, E2. cbn. auto. }
    set (c := a :: l) in *.
    destruct (env_subprocess_run env idx c) as [[o m|m]|out].
    + injection H as _ <-.
      exists [current_file (last c "");
              output_received (executing total idx c);
              output_received ("Error: " +++ o)], 1%nat.
      cbn [emitted invoked set_error_msg set_success add_emitted add_invoked].
      rewrite E1, E2, <- !app_assoc.
      repeat split; auto.
    + injection H as _ <-.
      exists [current_file (last c "");
              output_received (executing total idx c)], 1%nat.
      cbn [emitted invoked add_emitted add_invoked].
      rewrite E1, E2, <- !app_assoc.
      repeat split; auto.
    + apply IH in H. destruct H as (ev & n & H1 & H2 & H3 & H4 & H5).
      exists ([current_file (last c "");
               output_received (executing total idx c);
               output_received out; progress_incremented] ++ ev), (S n).
      cbn [emitted invoked add_emitted add_invoked] in H1, H2.
      rewrite H1, H2, E1, E2, <- !app_assoc.
      repeat split; auto.
      * cbn [app current_files firstn map]. now rewrite H4.
      * cbn [app filter is_progress List.length]. lia.
Qed.

(** The loop from a later pass: the passes before went through. *)
Lemma loop_from_arrive (total : nat) :
  forall k idx cmds s sk,
    arrive env total idx cmds k s = Some sk ->
    Py.for_enumerate idx cmds (run_body env total) s
    = Py.for_enumerate (idx + k) (skipn k cmds) (run_body env total) sk.
Proof.
  induction k as [|k IH]; intros idx cmds s sk H.
  - cbn in H. injection H as <-. now rewrite Nat.add_0_r.
  - destruct cmds as [|c rest]; cbn [arrive] in H; [discriminate|].
    rewrite for_enumerate_cons.
    destruct (run_body env total idx c s) as [[e|[|]] s1]; try discriminate.
    rewrite (IH _ _ _ _ H). cbn [skipn]. f_equal. lia.
Qed.

(** The state at the top of the [k]-th pass: [k] invocations made and [k]
    progress ticks emitted, the locals untouched, the flag still set if a
    pass was made. *)
Lemma arrive_facts (total : nat) :
  forall k idx cmds s sk,
    arrive env total idx cmds k s = Some sk ->
    k <= List.length cmds
    /\ invoked sk = invoked s ++ firstn k cmds
    /\ success sk = success s
    /\ error_msg sk = error_msg s
    /\ exists ev,
         emitted sk = emitted s ++ ev
         /\ existsb is_finished ev = false
         /\ List.length (filter is_progress ev) = k.
Proof.
  induction k as [|k IH]; intros idx cmds s sk H.
  - cbn in H. injection H as <-. cbn. rewrite app_nil_r.
    repeat split; auto; try lia. exists []. rewrite app_nil_r. auto.
  - destruct cmds as [|c rest]; cbn [arrive] in H; [discriminate|].
    rewrite run_body_eq in H. cbn zeta in H.
    destruct (controller_fields idx s) as (E1 & E2 & E3 & E4 & _).
    cbn zeta in E1, E2, E3, E4.
    set (s1 := if env_stop_called env idx then set_self stop s else s) in *.
    destruct (negb (_is_running (self s1))); [discriminate|].
    destruct c as [|a l]; [discriminate|].
    set (c := a :: l) in *.
    destruct (env_subprocess_run env idx c) as [[o m|m]|out];
      try discriminate.
    apply IH in H. destruct H as (H1 & H2 & H3 & H4 & ev & H5 & H6 & H7).
    cbn [emitted invoked success error_msg add_emitted add_invoked]
      in H2, H3, H4, H5.
    repeat split.
    + cbn. lia.
    + rewrite H2, E2, <- app_assoc. reflexivity.
    + congruence.
    + congruence.
    + exists ([current_file (last c "");
               output_received (executing total idx c);
               output_received out; progress_incremented] ++ ev).
      rewrite H5, E1, <- !app_assoc. repeat split; auto.
      cbn [app filter is_progress List.length]. now rewrite H7.
Qed.

(** A pass that finds the flag cleared: [break], nothing emitted, nothing
    invoked, the locals as they were. *)
Lemma run_body_stopped (total idx : nat) (c : list string) (s : RunState) :
  stop_seen env idx s = true ->
  exists s1,
    run_body env total idx c s = (inr Py.Break, s1)
    /\ emitted s1 = emitted s /\ invoked s1 = invoked s
    /\ success s1 = success s /\ error_msg s1 = error_msg s.
Proof.
  intros SS. rewrite run_body_eq. cbn zeta.
  destruct (controller_fields idx s) as (E1 & E2 & E3 & E4 & E5).
  cbn zeta in *. rewrite E5, SS. cbn [negb]. eauto 10.
Qed.

(** A pass that finds the flag set. *)
Lemma run_body_running (total idx : nat) (c : list string) (s : RunState) :
  stop_seen env idx s = false ->
  run_body env total idx c s =
  match c with
  | [] => (inl (Py.Exception "list index out of range"), s)
  | _ :: _ =>
      let s2 :=
        add_invoked c
          (add_emitted [output_received (executing total idx c)]
             (add_emitted [current_file (last c "")] s)) in
      match env_subprocess_run env idx c with
      | inr stdout =>
          (inr Py.Continue,
           add_emitted [progress_incremented]
             (add_emitted [output_received stdout] s2))
      | inl (Py.CalledProcessError output _) =>
          (inr Py.Break,
           set_error_msg ("Failed to process " +++ last c "")
             (set_success false
                (add_emitted [output_received ("Error: " +++ output)] s2)))
      | inl (Py.Exception m) => (inl (Py.Exception m), s2)
      end
  end.
Proof.
  intros SS. rewrite run_body_eq. cbn zeta.
  unfold stop_seen in SS. apply orb_false_iff in SS. destruct SS as [S1 S2].
  rewrite S1. apply negb_false_iff in S2. rewrite S2. reflexivity.
Qed.

Lemma nth_error_beyond {A} (l : list A) (j : nat) (x : A) :
  nth_error l (List.length l + j) = Some x -> False.
Proof.
  intros H. assert (List.length l + j < List.length l)
    by (apply nth_error_Some; congruence). lia.
Qed.

Lemma nth_error_snoc_here {A} (l l' : list A) (c x : A) :
  nth_error ((l ++ [c]) ++ l') (List.length l + 0) = Some x -> x = c.
Proof.
  rewrite Nat.add_0_r, <- app_assoc, nth_error_app2 by lia.
  rewrite Nat.sub_diag. cbn. congruence.
Qed.

(** An invocation that was made: the run reached the top of its pass, found
    the flag set and a non-empty argument list. *)
Lemma loop_invoked_nth (total : nat) (cmds : list (list string)) :
  forall idx s r s' j cmd,
    Py.for_enumerate idx cmds (run_body env total) s = (r, s') ->
    nth_error (invoked s') (List.length (invoked s) + j) = Some cmd ->
    exists sj,
      arrive env total idx cmds j s = Some sj
      /\ nth_error cmds j = Some cmd
      /\ stop_seen env (idx + j) sj = false
      /\ cmd <> [].
Proof.
  induction cmds as [|c rest IH]; intros idx s r s' j cmd H N.
  - cbn in H. injection H as _ <-. now apply nth_error_beyond in N.
  - rewrite for_enumerate_cons in H.
    destruct (stop_seen env idx s) eqn:SS.
    { destruct (run_body_stopped total idx c s SS) as (s1 & B & _ & E2 & _).
      rewrite B in H. injection H as _ <-. rewrite E2 in N.
      now apply nth_error_beyond in N. }
    pose proof (run_body_running total idx c s SS) as B.
    destruct c as [|a l].
    { rewrite B in H. injection H as _ <-. now apply nth_error_beyond in N. }
    set (c := a :: l) in *. cbn zeta in B.
    assert (Hc : c <> []) by discriminate.
    assert (Here : forall l', invoked s' = (invoked s ++ [c]) ++ l' ->
              j = 0%nat ->
              exists sj, arrive env total idx (c :: rest) j s = Some sj
                         /\ nth_error (c :: rest) j = Some cmd
                         /\ stop_seen env (idx + j) sj = false /\ cmd <> []).
    { intros l' E ->. rewrite E in N. apply nth_error_snoc_here in N. subst cmd.
      exists s. rewrite Nat.add_0_r. auto. }
    assert (Last : invoked s' = (invoked s ++ [c]) ++ [] ->
              exists sj, arrive env total idx (c :: rest) j s = Some sj
                         /\ nth_error (c :: rest) j = Some cmd
                         /\ stop_seen env (idx + j) sj = false /\ cmd <> []).
    { intros E. destruct j as [|j]; [now apply (Here [])|].
      rewrite E, app_nil_r in N. exfalso.
      apply (nth_error_beyond (invoked s ++ [c]) j cmd).
      rewrite <- N. f_equal. rewrite length_app. cbn. lia. }
    destruct (env_subprocess_run env idx c) as [[o m|m]|out];
      rewrite B in H.
    + injection H as _ <-. apply Last. now rewrite app_nil_r.
    + injection H as _ <-. apply Last. now rewrite app_nil_r.
    + destruct j as [|j].
      * destruct (loop_trace total rest _ _ _ _ H) as (ev & n & _ & T & _).
        apply (Here (firstn n rest)); auto.
      * destruct (IH _ _ _ _ j cmd H) as (sj & A1 & A2 & A3 & A4).
        { rewrite <- N. f_equal.
          cbn [invoked add_emitted add_invoked]. rewrite length_app. cbn. lia. }
        exists sj. cbn [arrive nth_error]. rewrite B.
        replace (idx + S j)%nat with (S idx + j)%nat by lia. auto.
Qed.

Lemma conclude_invoked (x : (Py.exn + unit) * RunState) :
  invoked (conclude x) = invoked (snd x).
Proof. destruct x as [[e|u] s]; reflexivity. Qed.

Lemma nth_error_skipn_cons {A} (l : list A) (k : nat) (x : A) :
  nth_error l k = Some x -> skipn k l = x :: skipn (S k) l.
Proof.
  revert l. induction k as [|k IH]; intros [|a l] H; try discriminate.
  - cbn in H. injection H as ->. reflexivity.
  - cbn in H. cbn [skipn]. rewrite (IH l H). reflexivity.
Qed.

Lemma firstn_snoc_nth {A} (l : list A) (k : nat) (x : A) :
  nth_error l k = Some x -> firstn (S k) l = firstn k l ++ [x].
Proof.
  revert l. induction k as [|k IH]; intros [|a l] H; try discriminate.
  - cbn in H. injection H as ->. reflexivity.
  - cbn in H. change (a :: firstn (S k) l = (a :: firstn k l) ++ [x]).
    rewrite (IH l H). reflexivity.
Qed.

(** The state at a boundary of a run. *)
Lemma boundary_facts (w : Worker) (k : nat) (s : RunState) :
  at_boundary env w k = Some s ->
  k <= List.length (w_commands w)
  /\ invoked s = firstn k (w_commands w)
  /\ success s = true
  /\ error_msg s = ""
  /\ existsb is_finished (emitted s) = false
  /\ List.length (filter is_progress (emitted s)) = k.
Proof.
  unfold at_boundary.
  destruct (env_mkdir env (PurePath.Path (w_output_dir w))); [discriminate|].
  intros H. apply arrive_facts in H.
  destruct H as (H1 & H2 & H3 & H4 & ev & H5 & H6 & H7).
  cbn in H2, H3, H4, H5. subst ev. auto 10.
Qed.

(** A run, from one of its boundaries on. *)
Lemma run_from_boundary (w : Worker) (k : nat) (s : RunState) :
  at_boundary env w k = Some s ->
  run_worker env w =
  conclude (Py.for_enumerate k (skipn k (w_commands w))
              (run_body env (List.length (w_commands w))) s).
Proof.
  unfold at_boundary. rewrite run_eq.
  destruct (env_mkdir env (PurePath.Path (w_output_dir w))); [discriminate|].
  intros H. now rewrite (loop_from_arrive _ _ _ _ _ _ H).
Qed.

(** A run that leaves the loop at a boundary, by [break] on a cleared flag or
    because no item is left: one more signal, [finished(True, "")]. *)
Lemma run_left_at_boundary (w : Worker) (k : nat) (s : RunState) :
  at_boundary env w k = Some s ->
  k = List.length (w_commands w) \/ stop_seen env k s = true ->
  emitted (run_worker env w) = emitted s ++ [finished true ""]
  /\ invoked (run_worker env w) = invoked s.
Proof.
  intros B H. rewrite (run_from_boundary w k s B).
  destruct (boundary_facts w k s B) as (L & _ & S1 & S2 & _).
  destruct (skipn k (w_commands w)) as [|c rest] eqn:K.
  - cbn. now rewrite S1, S2.
  - destruct H as [->|SS].
    + rewrite skipn_all in K. discriminate.
    + rewrite for_enumerate_cons.
      destruct (run_body_stopped (List.length (w_commands w)) k c s SS)
        as (s1 & R & E1 & E2 & E3 & E4).
      rewrite R. cbn. now rewrite E1, E2, E3, E4, S1, S2.
Qed.

(** A run in which the [k]-th invocation made returned a non-zero status:
    the run was at the boundary before item [k], and ends right after the
    failure. *)
Lemma run_failure (w : Worker) (k : nat) (cmd : list string)
    (out msg : string) :
  nth_error (invoked (run_worker env w)) k = Some cmd ->
  env_subprocess_run env k cmd = inl (Py.CalledProcessError out msg) ->
  exists s,
    at_boundary env w k = Some s
    /\ nth_error (w_commands w) k = Some cmd
    /\ emitted (run_worker env w)
       = emitted s ++
         [current_file (last cmd "");
          output_received (executing (List.length (w_commands w)) k cmd);
          output_received ("Error: " +++ out);
          finished false ("Failed to process " +++ last cmd "")]
    /\ invoked (run_worker env w) = invoked s ++ [cmd].
Proof.
  intros N F. rewrite run_eq in N.
  destruct (env_mkdir env (PurePath.Path (w_output_dir w))) as [e|u] eqn:M.
  { destruct k; discriminate. }
  rewrite conclude_invoked in N.
  destruct (Py.for_enumerate 0 (w_commands w) _ (initial w)) as [r s'] eqn:L.
  cbn [snd] in N.
  destruct (loop_invoked_nth _ _ _ _ _ _ k cmd L N) as (s & A & C & SS & Hc).
  cbn [Nat.add] in SS.
  assert (B : at_boundary env w k = Some s)
    by (unfold at_boundary; now rewrite M).
  exists s. split; [exact B|]. split; [exact C|].
  rewrite (run_from_boundary w k s B), (nth_error_skipn_cons _ _ _ C).
  rewrite for_enumerate_cons, (run_body_running _ _ _ _ SS).
  destruct cmd as [|a l]; [contradiction|].
  cbn zeta. rewrite F.
  cbn [conclude emitted invoked success error_msg set_error_msg set_success
         add_emitted add_invoked].
  rewrite <- !app_assoc. auto.
Qed.

End ExecutorFacts.

(** ** The claims about the batch executor *)

(** Every run ends with its only [finished] signal. *)
Lemma run_one_finished (env : Env) (w : Worker) :
  exists front b m,
    emitted (run_worker env w) = front ++ [finished b m]
    /\ existsb is_finished front = false.
Proof.
  rewrite run_eq.
  destruct (env_mkdir env (PurePath.Path (w_output_dir w))) as [e|u].
  - eexists [_], _, _. split; reflexivity.
  - destruct (Py.for_enumerate 0 (w_commands w) _ (initial w))
      as [r s'] eqn:L.
    destruct (loop_trace env _ _ _ _ _ _ L) as (ev & n & E & _ & F & _).
    cbn in E. destruct r as [e|u'].
    + exists (ev ++ [output_received ("Critical Error: " +++ Py.exn_str e)]).
      eexists _, _. cbn [conclude emitted add_emitted set_success set_error_msg].
      rewrite E. split; [reflexivity|].
      rewrite existsb_app, F. reflexivity.
    + exists ev. eexists _, _. cbn [conclude emitted add_emitted].
      rewrite E. auto.
Qed.

(** The [current_file] signals of a run are the last arguments of the
    invocations it made, in order. *)
Lemma run_current_files (env : Env) (w : Worker) :
  current_files (emitted (run_worker env w))
  = map (fun c => last c "") (invoked (run_worker env w)).
Proof.
  rewrite run_eq.
  destruct (env_mkdir env (PurePath.Path (w_output_dir w))) as [e|u].
  - reflexivity.
  - destruct (Py.for_enumerate 0 (w_commands w) _ (initial w))
      as [r s'] eqn:L.
    destruct (loop_trace env _ _ _ _ _ _ L) as (ev & n & E & I & _ & C & _).
    cbn in E, I. rewrite conclude_invoked. cbn [snd]. rewrite I, <- C.
    destruct r as [e|u'];
      cbn [conclude emitted add_emitted set_success set_error_msg];
      rewrite E, ?current_files_app; cbn; now rewrite ?app_nil_r.
Qed.

(** X22: when [subprocess.run] raises [CalledProcessError] on the [k]-th
    invocation made, the invocations made are the first [k + 1] of the
    JobPlan and no other; the run ends with [finished(False, "Failed to
    process <last argument of invocation k>")], its only [finished] signal;
    [k] progress ticks were emitted, all of them before item [k] was
    announced, so none for item [k]. *)
Theorem failure_aborts_the_batch (env : Env) (w : Worker) (k : nat)
    (cmd : list string) (out msg : string) :
  nth_error (invoked (run_worker env w)) k = Some cmd ->
  env_subprocess_run env k cmd = inl (Py.CalledProcessError out msg) ->
  nth_error (w_commands w) k = Some cmd
  /\ invoked (run_worker env w) = firstn (S k) (w_commands w)
  /\ List.length (invoked (run_worker env w)) = S k
  /\ exists front,
       emitted (run_worker env w)
       = front ++
         [current_file (last cmd "");
          output_received (executing (List.length (w_commands w)) k cmd);
          output_received ("Error: " +++ out);
          finished false ("Failed to process " +++ last cmd "")]
       /\ existsb is_finished front = false
       /\ List.length (filter is_progress front) = k.
Proof.
  intros N F.
  destruct (run_failure env w k cmd out msg N F) as (s & B & C & E & I).
  destruct (boundary_facts env w k s B) as (L & I' & _ & _ & NF & P).
  split; [exact C|].
  assert (I2 : invoked (run_worker env w) = firstn (S k) (w_commands w)).
  { rewrite I, I'. symmetry. now apply firstn_snoc_nth. }
  split; [exact I2|]. split.
  - rewrite I2, length_firstn.
    assert (k < List.length (w_commands w))
      by (apply nth_error_Some; congruence). lia.
  - exists (emitted s). auto.
Qed.

Lemma failure_aborts_the_batch_witness :
  nth_error plan3 1 = Some ["gm"; "convert"; "/in/b.png"; "/out/b.webp"]
  /\ invoked (run_worker (env_fail_at 1 "bad image") (Worker_init plan3 "/out"))
     = firstn 2 plan3
  /\ List.length
       (invoked (run_worker (env_fail_at 1 "bad image")
                   (Worker_init plan3 "/out"))) = 2%nat
  /\ exists front,
       emitted (run_worker (env_fail_at 1 "bad image")
                  (Worker_init plan3 "/out"))
       = front ++
         [current_file "/out/b.webp";
          output_received
            (executing 3 1 ["gm"; "convert"; "/in/b.png"; "/out/b.webp"]);
          output_received "Error: bad image";
          finished false "Failed to process /out/b.webp"]
       /\ existsb is_finished front = false
       /\ List.length (filter is_progress front) = 1%nat.
Proof.
  apply (failure_aborts_the_batch (env_fail_at 1 "bad image")
           (Worker_init plan3 "/out") 1%nat
           ["gm"; "convert"; "/in/b.png"; "/out/b.webp"]
           "bad image" "non-zero exit status"); reflexivity.
Defined.

(** C1, on the run where it fails: the JobPlan has three items and the
    process of item 1 exits with status 1 after writing one byte that is
    not text.  No invocation follows item 1, one tick was emitted (for item
    0) and the one [finished] signal carries [False]; but its message is the
    text of the codec's error, taken at line 55, and names neither the
    destination nor the source of item 1, where line 50 would have given
    [Failed to process /out/b.webp]. *)
Theorem nonzero_exit_with_undecodable_output_names_no_item :
  tools_run (tools_undecodable_at 1) 1
    ["gm"; "convert"; "/in/b.png"; "/out/b.webp"]
  = exits 1 (undecodable lone_0xe9)
  /\ nth_error plan3 1 = Some ["gm"; "convert"; "/in/b.png"; "/out/b.webp"]
  /\ invoked (run_worker (env_of_tools (tools_undecodable_at 1))
                (Worker_init plan3 "/out"))
     = firstn 2 plan3
  /\ emitted (run_worker (env_of_tools (tools_undecodable_at 1))
                (Worker_init plan3 "/out"))
     = [current_file "/out/a.webp";
        output_received
          (executing 3 0 ["gm"; "convert"; "/in/a.png"; "/out/a.webp"]);
        output_received "";
        progress_incremented;
        current_file "/out/b.webp";
        output_received
          (executing 3 1 ["gm"; "convert"; "/in/b.png"; "/out/b.webp"]);
        output_received ("Critical Error: " +++ lone_0xe9);
        finished false lone_0xe9]
  /\ lone_0xe9 <> "Failed to process /out/b.webp"
  /\ str_contains "/out/b.webp" lone_0xe9 = false
  /\ str_contains "/in/b.png" lone_0xe9 = false.
Proof.
  split; [reflexivity|]. split; [reflexivity|].
  split; [vm_compute; reflexivity|]. split; [vm_compute; reflexivity|].
  split; [discriminate|]. split; vm_compute; reflexivity.
Qed.

(** C2, as amended: when the flag is found cleared at the boundary before
    item [k], no further invocation is made and no further [current_file],
    [output_received] or [progress_incremented] signal is emitted; the one
    signal that follows is the [finished] signal that ends every run. *)
Theorem stop_ends_the_run_with_finished (env : Env) (w : Worker) (k : nat)
    (s : RunState) :
  at_boundary env w k = Some s ->
  k < List.length (w_commands w) ->
  stop_seen env k s = true ->
  (exists b m, emitted (run_worker env w) = emitted s ++ [finished b m])
  /\ invoked (run_worker env w) = invoked s
  /\ invoked s = firstn k (w_commands w).
Proof.
  intros B L SS.
  destruct (run_left_at_boundary env w k s B (or_intror SS)) as [E I].
  destruct (boundary_facts env w k s B) as (_ & I' & _).
  split; [eauto|auto].
Qed.

Lemma stop_ends_the_run_with_finished_witness :
  (exists b m,
     emitted (run_worker (env_stop_at 1) (Worker_init plan3 "/out"))
     = [current_file "/out/a.webp";
        output_received
          (executing 3 0 ["gm"; "convert"; "/in/a.png"; "/out/a.webp"]);
        output_received ""; progress_incremented] ++ [finished b m])
  /\ invoked (run_worker (env_stop_at 1) (Worker_init plan3 "/out"))
     = [["gm"; "convert"; "/in/a.png"; "/out/a.webp"]]
  /\ [["gm"; "convert"; "/in/a.png"; "/out/a.webp"]] = firstn 1 plan3.
Proof.
  apply (stop_ends_the_run_with_finished (env_stop_at 1)
           (Worker_init plan3 "/out") 1%nat
           {| self := Worker_init plan3 "/out"; success := true;
              error_msg := "";
              emitted :=
                [current_file "/out/a.webp";
                 output_received
                   (executing 3 0
                      ["gm"; "convert"; "/in/a.png"; "/out/a.webp"]);
                 output_received ""; progress_incremented];
              invoked := [["gm"; "convert"; "/in/a.png"; "/out/a.webp"]] |}).
  - reflexivity.
  - cbn. lia.
  - reflexivity.
Defined.

(** C2, as stated, fails: a run cancelled before its first item emits a
    signal after the flag was found cleared, and that signal is
    [finished]. *)
Lemma cancelled_run_emits_finished :
  let env := env_stop_at 0 in
  let w := Worker_init plan3 "/out" in
  at_boundary env w 0 = Some (initial w)
  /\ stop_seen env 0 (initial w) = true
  /\ emitted (initial w) = []
  /\ emitted (run_worker env w) = [finished true ""]
  /\ existsb is_finished (emitted (run_worker env w)) = true.
Proof. cbn zeta. repeat split; reflexivity. Qed.

(** C7: when the flag is cleared before the first pass through the loop, no
    invocation is made and no progress tick is emitted, whatever the
    JobPlan. *)
Theorem cancel_before_first_invocation (env : Env) (w : Worker) :
  stop_seen env 0 (initial w) = true ->
  invoked (run_worker env w) = []
  /\ filter is_progress (emitted (run_worker env w)) = [].
Proof.
  intros SS. rewrite run_eq.
  destruct (env_mkdir env (PurePath.Path (w_output_dir w))) as [e|u] eqn:M.
  - split; reflexivity.
  - assert (B : at_boundary env w 0 = Some (initial w))
      by (unfold at_boundary; now rewrite M).
    destruct (run_left_at_boundary env w 0 (initial w) B (or_intror SS))
      as [E I].
    rewrite run_eq, M in E, I. rewrite E, I. split; reflexivity.
Qed.

Lemma cancel_before_first_invocation_witness :
  invoked (run_worker (env_stop_at 0) (Worker_init plan3 "/out")) = []
  /\ filter is_progress
       (emitted (run_worker (env_stop_at 0) (Worker_init plan3 "/out"))) = [].
Proof.
  apply (cancel_before_first_invocation (env_stop_at 0)
           (Worker_init plan3 "/out")).
  reflexivity.
Defined.

(** C9: every run, however it goes, ends with a [finished] signal and emits
    no other; a run that leaves the loop on a cleared flag ends with
    [finished(True, "")], exactly as a run that leaves it after its last
    item does. *)
Theorem exactly_one_finished_on_every_path (env : Env) (w : Worker) :
  (exists front b m,
     emitted (run_worker env w) = front ++ [finished b m]
     /\ existsb is_finished front = false)
  /\
  (forall k s,
     at_boundary env w k = Some s ->
     k = List.length (w_commands w) \/ stop_seen env k s = true ->
     emitted (run_worker env w) = emitted s ++ [finished true ""]
     /\ existsb is_finished (emitted s) = false).
Proof.
  split; [apply run_one_finished|].
  intros k s B H.
  destruct (run_left_at_boundary env w k s B H) as [E _].
  destruct (boundary_facts env w k s B) as (_ & _ & _ & _ & NF & _).
  auto.
Qed.

Lemma exactly_one_finished_on_every_path_witness :
  (emitted (run_worker (env_stop_at 1) (Worker_init plan3 "/out"))
   = [current_file "/out/a.webp";
      output_received
        (executing 3 0 ["gm"; "convert"; "/in/a.png"; "/out/a.webp"]);
      output_received ""; progress_incremented] ++ [finished true ""])
  /\ (last (emitted (run_worker env_ok (Worker_init plan3 "/out")))
           progress_incremented = finished true "").
Proof.
  split.
  - destruct (exactly_one_finished_on_every_path (env_stop_at 1)
                (Worker_init plan3 "/out")) as [_ H].
    apply (H 1%nat
             {| self := Worker_init plan3 "/out"; success := true;
                error_msg := "";
                emitted :=
                  [current_file "/out/a.webp";
                   output_received
                     (executing 3 0
                        ["gm"; "convert"; "/in/a.png"; "/out/a.webp"]);
                   output_received ""; progress_incremented];
                invoked := [["gm"; "convert"; "/in/a.png"; "/out/a.webp"]] |}
             eq_refl (or_intror eq_refl)).
  - reflexivity.
Defined.

(** C10: the path that identifies an item is the last argument of its
    invocation, in the [current_file] signal that announces it and in the
    message of [finished(False, ...)]; in a JobPlan made by the builder that
    argument is the destination path, the source path being the third
    argument. *)
Theorem item_identified_by_destination (env : Env) (w : Worker) :
  current_files (emitted (run_worker env w))
  = map (fun c => last c "") (invoked (run_worker env w))
  /\
  (forall k cmd out msg,
     nth_error (invoked (run_worker env w)) k = Some cmd ->
     env_subprocess_run env k cmd = inl (Py.CalledProcessError out msg) ->
     exists front,
       emitted (run_worker env w)
       = front ++ [finished false ("Failed to process " +++ last cmd "")])
  /\
  (forall (FS : Type) (mkdir : PurePath.t -> FS -> (Py.exn + unit) * FS)
          (gui : Widgets) (fs0 : FS) (i : nat) (f : string),
     fst (run_build_commands FS mkdir gui fs0) = inr (w_commands w) ->
     nth_error (input_files gui) i = Some f ->
     exists cmd,
       nth_error (w_commands w) i = Some cmd
       /\ last cmd "" = PurePath.str (destination_file gui f)
       /\ nth_error cmd 2 = Some (PurePath.str (PurePath.Path f))).
Proof.
  split; [apply run_current_files|]. split.
  - intros k cmd out msg N F.
    destruct (run_failure env w k cmd out msg N F) as (s & _ & _ & E & _).
    exists (emitted s ++
            [current_file (last cmd "");
             output_received (executing (List.length (w_commands w)) k cmd);
             output_received ("Error: " +++ out)]).
    rewrite E, <- app_assoc. reflexivity.
  - intros FS mkdir gui fs0 i f Hp Hf.
    apply build_commands_plan in Hp. rewrite Hp.
    exists (invocation gui f). split; [now apply plan_nth|].
    split; [apply invocation_last|reflexivity].
Qed.

Lemma item_identified_by_destination_witness :
  current_files
    (emitted (run_worker (env_fail_at 1 "bad image")
                (Worker_init
                   [["gm"; "convert"; "/in/a.png"; "-quality"; "80"; "/out/a.webp"];
                    ["gm"; "convert"; "/in/b.jpg"; "-quality"; "80"; "/out/b.webp"]]
                   "/out")))
  = ["/out/a.webp"; "/out/b.webp"]
  /\ (exists front,
        emitted (run_worker (env_fail_at 1 "bad image")
                   (Worker_init
                      [["gm"; "convert"; "/in/a.png"; "-quality"; "80"; "/out/a.webp"];
                       ["gm"; "convert"; "/in/b.jpg"; "-quality"; "80"; "/out/b.webp"]]
                      "/out"))
        = front ++ [finished false "Failed to process /out/b.webp"])
  /\ (exists cmd,
        nth_error
          [["gm"; "convert"; "/in/a.png"; "-quality"; "80"; "/out/a.webp"];
           ["gm"; "convert"; "/in/b.jpg"; "-quality"; "80"; "/out/b.webp"]] 1
        = Some cmd
        /\ last cmd "" = "/out/b.webp"
        /\ nth_error cmd 2 = Some "/in/b.jpg").
Proof.
  destruct (item_identified_by_destination (env_fail_at 1 "bad image")
              (Worker_init
                 [["gm"; "convert"; "/in/a.png"; "-quality"; "80"; "/out/a.webp"];
                  ["gm"; "convert"; "/in/b.jpg"; "-quality"; "80"; "/out/b.webp"]]
                 "/out")) as (A & B & C).
  split; [exact A|]. split.
  - apply (B 1%nat ["gm"; "convert"; "/in/b.jpg"; "-quality"; "80"; "/out/b.webp"]
             "bad image" "non-zero exit status"); reflexivity.
  - apply (C nat mkdir_ok (gui_webp ["/in/a.png"; "/in/b.jpg"] "/out") 0%nat
             1%nat "/in/b.jpg"); reflexivity.
Defined.

(** * Further properties of the command builder *)

Lemma length_append (s t : string) :
  String.length (s +++ t) = (String.length s + String.length t)%nat.
Proof. induction s as [|a s IH]; simpl; auto. Qed.

Lemma append_inj_r (s1 s2 t : string) : s1 +++ t = s2 +++ t -> s1 = s2.
Proof.
  revert s2. induction s1 as [|a s1 IH]; intros [|b s2] H.
  - reflexivity.
  - apply (f_equal String.length) in H. simpl in H.
    rewrite length_append in H. lia.
  - apply (f_equal String.length) in H. simpl in H.
    rewrite length_append in H. lia.
  - simpl in H. injection H as -> H. f_equal. now apply IH.
Qed.

Lemma parts_parent (p : PurePath.t) :
  PurePath.parts (PurePath.parent p) = removelast (PurePath.parts p).
Proof.
  unfold PurePath.parent. destruct (PurePath.parts p) eqn:P; [|reflexivity].
  now rewrite P.
Qed.

(** The destination argument of an invocation parses to the directory
    computed for the input, extended by one component: the new file name. *)
Lemma destination_argument (gui : Widgets) (f : string) :
  PurePath.name (PurePath.Path f) <> "" ->
  exists n,
    PurePath.Path (last (invocation gui f) "")
    = PurePath.mk (PurePath.root (destination_dir gui f))
                  (PurePath.parts (destination_dir gui f) ++ [n])
    /\ n = match output_format_of gui with
           | Some fmt => PurePath.stem (PurePath.Path f) +++ "." +++ fmt
           | None => PurePath.name (PurePath.Path f)
           end.
Proof.
  intros Hn. rewrite invocation_last.
  destruct (destination_file_parent gui f Hn) as [RT _]. rewrite RT.
  destruct (destination_file_eq gui f Hn) as (n & E & En & _). eauto.
Qed.

Lemma destination_arguments_equal (gui : Widgets) (f1 f2 : string) :
  PurePath.name (PurePath.Path f1) <> "" ->
  PurePath.name (PurePath.Path f2) <> "" ->
  (last (invocation gui f1) "" = last (invocation gui f2) "" <->
   destination_file gui f1 = destination_file gui f2).
Proof.
  intros H1 H2. rewrite !invocation_last.
  destruct (destination_file_parent gui f1 H1) as [R1 _].
  destruct (destination_file_parent gui f2 H2) as [R2 _].
  split; [|congruence].
  intros E. rewrite <- R1, <- R2. now rewrite E.
Qed.

(** X1: when the directory structure is not preserved, two inputs (with a
    file name each) are given the same destination argument exactly when
    they have the same stem, for an explicit format, or the same name, for
    the format of the input -- whatever directories they come from. *)
Theorem flat_destinations_collide
    (FS : Type) (mkdir : PurePath.t -> FS -> (Py.exn + unit) * FS)
    (gui : Widgets) (fs0 : FS) (plan : list (list string))
    (i j : nat) (f1 f2 : string) :
  fst (run_build_commands FS mkdir gui fs0) = inr plan ->
  nth_error (input_files gui) i = Some f1 ->
  nth_error (input_files gui) j = Some f2 ->
  PurePath.name (PurePath.Path f1) <> "" ->
  PurePath.name (PurePath.Path f2) <> "" ->
  chk_preserve_structure gui = false ->
  exists cmd1 cmd2,
    nth_error plan i = Some cmd1 /\ nth_error plan j = Some cmd2
    /\ (last cmd1 "" = last cmd2 "" <->
        match format_combo gui with
        | item_same_as_input =>
            PurePath.name (PurePath.Path f1) = PurePath.name (PurePath.Path f2)
        | _ =>
            PurePath.stem (PurePath.Path f1) = PurePath.stem (PurePath.Path f2)
        end).
Proof.
  intros Hp Hi Hj H1 H2 Pr. apply build_commands_plan in Hp. subst plan.
  exists (invocation gui f1), (invocation gui f2).
  split; [now apply plan_nth|]. split; [now apply plan_nth|].
  rewrite (destination_arguments_equal gui f1 f2 H1 H2).
  destruct (destination_file_eq gui f1 H1) as (n1 & E1 & N1 & _).
  destruct (destination_file_eq gui f2 H2) as (n2 & E2 & N2 & _).
  rewrite E1, E2, !destination_dir_eq, Pr.
  rewrite output_format_of_cases in N1, N2.
  split.
  - intros E. injection E as E. apply app_inj_tail in E. destruct E as [_ E].
    subst n1 n2.
    destruct (format_combo gui); auto; now apply append_inj_r in E.
  - intros E. do 2 f_equal. subst n1 n2.
    destruct (format_combo gui); congruence.
Qed.

Lemma flat_destinations_collide_witness :
  exists cmd1 cmd2,
    nth_error [["gm"; "convert"; "/a/x.png"; "-quality"; "80"; "/out/x.webp"];
               ["gm"; "convert"; "/b/x.jpg"; "-quality"; "80"; "/out/x.webp"]]
              0 = Some cmd1
    /\ nth_error [["gm"; "convert"; "/a/x.png"; "-quality"; "80"; "/out/x.webp"];
                  ["gm"; "convert"; "/b/x.jpg"; "-quality"; "80"; "/out/x.webp"]]
                 1 = Some cmd2
    /\ (last cmd1 "" = last cmd2 "" <->
        PurePath.stem (PurePath.Path "/a/x.png")
        = PurePath.stem (PurePath.Path "/b/x.jpg")).
Proof.
  apply (flat_destinations_collide nat mkdir_ok
           (gui_webp ["/a/x.png"; "/b/x.jpg"] "/out") 0%nat _ 0%nat 1%nat
           "/a/x.png" "/b/x.jpg");
    try reflexivity; discriminate.
Defined.

(** X2: when the directory structure is preserved and the format is that of
    the input, two inputs (with a file name each) are given the same
    destination argument exactly when they have the same components: only
    the root of an input is forgotten. *)
Theorem mirrored_destinations_distinct
    (FS : Type) (mkdir : PurePath.t -> FS -> (Py.exn + unit) * FS)
    (gui : Widgets) (fs0 : FS) (plan : list (list string))
    (i j : nat) (f1 f2 : string) :
  fst (run_build_commands FS mkdir gui fs0) = inr plan ->
  nth_error (input_files gui) i = Some f1 ->
  nth_error (input_files gui) j = Some f2 ->
  PurePath.name (PurePath.Path f1) <> "" ->
  PurePath.name (PurePath.Path f2) <> "" ->
  chk_preserve_structure gui = true ->
  format_combo gui = item_same_as_input ->
  exists cmd1 cmd2,
    nth_error plan i = Some cmd1 /\ nth_error plan j = Some cmd2
    /\ (last cmd1 "" = last cmd2 "" <->
        PurePath.parts (PurePath.Path f1) = PurePath.parts (PurePath.Path f2)).
Proof.
  intros Hp Hi Hj H1 H2 Pr Fm. apply build_commands_plan in Hp. subst plan.
  exists (invocation gui f1), (invocation gui f2).
  split; [now apply plan_nth|]. split; [now apply plan_nth|].
  rewrite (destination_arguments_equal gui f1 f2 H1 H2).
  destruct (destination_file_eq gui f1 H1) as (n1 & E1 & N1 & _).
  destruct (destination_file_eq gui f2 H2) as (n2 & E2 & N2 & _).
  rewrite E1, E2, !destination_dir_eq, Pr.
  rewrite output_format_of_cases, Fm in N1, N2. subst n1 n2.
  assert (P : forall f, PurePath.name (PurePath.Path f) <> "" ->
            removelast (PurePath.parts (PurePath.Path f)) ++
            [PurePath.name (PurePath.Path f)]
            = PurePath.parts (PurePath.Path f)).
  { intros f Hn. symmetry. apply app_removelast_last.
    intros E. apply Hn. now apply PurePathFacts.name_empty. }
  cbn [PurePath.joinpath PurePath.root PurePath.parts String.eqb negb].
  rewrite <- !app_assoc, (P f1 H1), (P f2 H2).
  split.
  - intros E. injection E as E. now apply app_inv_head in E.
  - now intros ->.
Qed.

Lemma mirrored_destinations_distinct_witness :
  exists cmd1 cmd2,
    nth_error [["gm"; "convert"; "/a/x.png"; "/out/a/x.png"];
               ["gm"; "convert"; "a/x.png"; "/out/a/x.png"]] 0 = Some cmd1
    /\ nth_error [["gm"; "convert"; "/a/x.png"; "/out/a/x.png"];
                  ["gm"; "convert"; "a/x.png"; "/out/a/x.png"]] 1 = Some cmd2
    /\ (last cmd1 "" = last cmd2 "" <->
        PurePath.parts (PurePath.Path "/a/x.png")
        = PurePath.parts (PurePath.Path "a/x.png")).
Proof.
  apply (mirrored_destinations_distinct nat mkdir_ok
           {| input_files := ["/a/x.png"; "a/x.png"]; output_dir := "/out";
              chk_overwrite := false; chk_preserve_structure := true;
              format_combo := item_same_as_input; quality_spin := 90;
              rotate_combo := rot_0; flip_check := false; flop_check := false;
              resize_check := false; width_spin := 1; height_spin := 1;
              aspect_check := true; chk_color_profile := false |}
           0%nat _ 0%nat 1%nat "/a/x.png" "a/x.png");
    try reflexivity; discriminate.
Defined.

(** X3: the destination argument of an input with a file name lies, as a
    path, below the output directory: it has the root of the output
    directory and its components, followed by at least one more. *)
Theorem destination_below_output_dir
    (FS : Type) (mkdir : PurePath.t -> FS -> (Py.exn + unit) * FS)
    (gui : Widgets) (fs0 : FS) (plan : list (list string))
    (i : nat) (f : string) :
  fst (run_build_commands FS mkdir gui fs0) = inr plan ->
  nth_error (input_files gui) i = Some f ->
  PurePath.name (PurePath.Path f) <> "" ->
  exists cmd rest,
    nth_error plan i = Some cmd
    /\ PurePath.root (PurePath.Path (last cmd ""))
       = PurePath.root (PurePath.Path (output_dir gui))
    /\ PurePath.parts (PurePath.Path (last cmd ""))
       = PurePath.parts (PurePath.Path (output_dir gui)) ++ rest
    /\ rest <> [].
Proof.
  intros Hp Hf Hn. apply build_commands_plan in Hp. subst plan.
  destruct (destination_argument gui f Hn) as (n & E & _).
  exists (invocation gui f). rewrite E, destination_dir_eq.
  destruct (chk_preserve_structure gui).
  - exists (removelast (PurePath.parts (PurePath.Path f)) ++ [n]).
    split; [now apply plan_nth|]. cbn. rewrite <- app_assoc.
    repeat split; auto. intros N. now apply app_eq_nil in N as [_ N].
  - exists [n]. split; [now apply plan_nth|]. cbn.
    repeat split; auto. discriminate.
Qed.

Lemma destination_below_output_dir_witness :
  exists cmd rest,
    nth_error [["gm"; "convert"; "/in/sub/a.jpeg"; "-resize"; "800x600";
                "-filter"; "Lanczos"; "-unsharp"; "0.25x0.25+8+0.065";
                "-profile"; "RGB.icm"; "/out/in/sub/a.png"]] 0 = Some cmd
    /\ PurePath.root (PurePath.Path (last cmd ""))
       = PurePath.root (PurePath.Path "/out")
    /\ PurePath.parts (PurePath.Path (last cmd ""))
       = PurePath.parts (PurePath.Path "/out") ++ rest
    /\ rest <> [].
Proof.
  apply (destination_below_output_dir nat mkdir_ok
           (gui_preserve ["/in/sub/a.jpeg"] "/out") 0%nat _ 0%nat
           "/in/sub/a.jpeg"); try reflexivity; discriminate.
Defined.

Lemma mkdirs_app {FS : Type}
    (mkdir : PurePath.t -> FS -> (Py.exn + unit) * FS)
    (l1 l2 : list PurePath.t) (fs0 : FS) :
  mkdirs mkdir (l1 ++ l2) fs0 =
  match mkdirs mkdir l1 fs0 with
  | (inr _, fs1) => mkdirs mkdir l2 fs1
  | (inl e, fs1) => (inl e, fs1)
  end.
Proof.
  revert fs0. induction l1 as [|d l1 IH]; intros fs0; cbn; auto.
  destruct (mkdir d fs0) as [[e|u] fs1]; auto.
Qed.

(** X4: when the [mkdir] for one input raises, the directories of the
    inputs before it having been made, [build_commands] raises that
    exception: no JobPlan is returned, and the file system is left as that
    [mkdir] left it -- no directory is asked for any later input. *)
Theorem mkdir_failure_aborts_the_build
    (FS : Type) (mkdir : PurePath.t -> FS -> (Py.exn + unit) * FS)
    (gui : Widgets) (fs0 fs1 fs2 : FS) (before after : list string)
    (f : string) (e : Py.exn) :
  input_files gui = before ++ f :: after ->
  mkdirs mkdir (map (destination_dir gui) before) fs0 = (inr tt, fs1) ->
  mkdir (destination_dir gui f) fs1 = (inl e, fs2) ->
  run_build_commands FS mkdir gui fs0 = (inl e, fs2).
Proof.
  intros Hi Hb Hf. rewrite run_build_commands_eq, Hi, map_app, mkdirs_app, Hb.
  cbn. now rewrite Hf.
Qed.

Lemma mkdir_failure_aborts_the_build_witness :
  run_build_commands nat
    (fun p n => if (n =? 1)%nat
                then (inl (Py.Exception "Permission denied"), n)
                else (inr tt, S n))
    (gui_preserve ["/in/a.png"; "/in/sub/b.png"; "/in/c.png"] "/out") 0%nat
  = (inl (Py.Exception "Permission denied"), 1%nat).
Proof.
  apply (mkdir_failure_aborts_the_build nat _
           (gui_preserve ["/in/a.png"; "/in/sub/b.png"; "/in/c.png"] "/out")
           0%nat 1%nat 1%nat ["/in/a.png"] ["/in/c.png"] "/in/sub/b.png");
    reflexivity.
Defined.

(** X5: the check box [chk_overwrite] has no effect on [build_commands]:
    the result and the file system are the same whatever its value. *)
Theorem overwrite_is_ignored
    (FS : Type) (mkdir : PurePath.t -> FS -> (Py.exn + unit) * FS)
    (gui : Widgets) (b : bool) (fs0 : FS) :
  run_build_commands FS mkdir (with_overwrite b gui) fs0
  = run_build_commands FS mkdir gui fs0.
Proof.
  rewrite !run_build_commands_eq.
  replace (map (destination_dir (with_overwrite b gui))
             (input_files (with_overwrite b gui)))
    with (map (destination_dir gui) (input_files gui))
    by (apply map_ext; reflexivity).
  replace (map (invocation (with_overwrite b gui))
             (input_files (with_overwrite b gui)))
    with (map (invocation gui) (input_files gui))
    by (apply map_ext; reflexivity).
  reflexivity.
Qed.

Lemma rotation_cases (r : RotateItem) :
  PyStr.rstrip (rotate_text r) degree_sign =
  match r with
  | rot_0 => "0" | rot_90 => "90" | rot_180 => "180" | rot_270 => "270"
  end.
Proof. destruct r; reflexivity. Qed.

(** Which flags the transformations of [build_commands] (lines 327 to 346)
    contain, control by control. *)
Lemma transform_args_flags (gui : Widgets) :
  (In "-resize" (transform_args gui) <-> resize_check gui = true)
  /\ (In "-filter" (transform_args gui) <->
      resize_check gui = true /\ aspect_check gui = true)
  /\ (In "-rotate" (transform_args gui) <-> rotate_combo gui <> rot_0)
  /\ (In "-flip" (transform_args gui) <-> flip_check gui = true)
  /\ (In "-flop" (transform_args gui) <-> flop_check gui = true)
  /\ (In "-profile" (transform_args gui) <-> chk_color_profile gui = true).
Proof.
  unfold transform_args. rewrite in_tuple_lossy, rotation_cases.
  assert (G : forall c flag,
             (nat_of_ascii c <? 48)%nat || (57 <? nat_of_ascii c)%nat = true ->
             PyStr.str_of_int (width_spin gui) +++ "x" +++
             PyStr.str_of_int (height_spin gui) <> String "-" (String c flag))
    by (intros; now apply PyStrFacts.str_of_int_not_flag).
  assert (Q : forall c flag,
             (nat_of_ascii c <? 48)%nat || (57 <? nat_of_ascii c)%nat = true ->
             PyStr.str_of_int (quality_spin gui) <> String "-" (String c flag)).
  { intros c flag Hc E.
    apply (PyStrFacts.str_of_int_not_flag (quality_spin gui) "" c flag Hc).
    rewrite <- E. clear. induction (PyStr.str_of_int (quality_spin gui));
      simpl; congruence. }
  set (g := PyStr.str_of_int (width_spin gui) +++ "x" +++
            PyStr.str_of_int (height_spin gui)) in *.
  set (q := PyStr.str_of_int (quality_spin gui)) in *.
  destruct (resize_check gui), (aspect_check gui), (rotate_combo gui),
    (flip_check gui), (flop_check gui), (lossy (format_combo gui)),
    (chk_color_profile gui);
    cbn [app negb String.eqb Ascii.eqb Bool.eqb];
    (split; [|split; [|split; [|split; [|split]]]]); split;
    match goal with
    | |- In _ _ -> _ =>
        intros H;
        first [ solve [repeat split; first [reflexivity | discriminate]]
              | exfalso; cbn [In] in H;
                repeat (destruct H as [H|H];
                        [first [ discriminate H
                               | revert H; first [apply G | apply Q];
                                 reflexivity ]|]);
                exact H ]
    | |- _ -> In _ _ =>
        intros H;
        first [ discriminate H
              | solve [destruct H; discriminate]
              | solve [exfalso; apply H; reflexivity]
              | solve [cbn [In]; repeat (first [left; reflexivity | right])] ]
    end.
Qed.

(** X6: every invocation of a JobPlan built by [build_commands] is [gm],
    [convert], the source of one of the inputs, some flags, and that input's
    destination; among these flags, each flag of the transformations is
    present exactly when its control asks for it: [-resize] when Resize is
    checked, [-filter] when Resize and Maintain Aspect Ratio are both
    checked, [-rotate] when the rotation is not 0, [-flip], [-flop] and
    [-profile] when their boxes are checked. *)
Theorem transformation_flags_follow_controls
    (FS : Type) (mkdir : PurePath.t -> FS -> (Py.exn + unit) * FS)
    (gui : Widgets) (fs0 : FS) (plan : list (list string))
    (cmd : list string) :
  fst (run_build_commands FS mkdir gui fs0) = inr plan ->
  In cmd plan ->
  exists f flags,
    In f (input_files gui)
    /\ cmd = "gm" :: "convert" :: PurePath.str (PurePath.Path f) ::
             flags ++ [PurePath.str (destination_file gui f)]
    /\ (In "-resize" flags <-> resize_check gui = true)
    /\ (In "-filter" flags <->
        resize_check gui = true /\ aspect_check gui = true)
    /\ (In "-rotate" flags <-> rotate_combo gui <> rot_0)
    /\ (In "-flip" flags <-> flip_check gui = true)
    /\ (In "-flop" flags <-> flop_check gui = true)
    /\ (In "-profile" flags <-> chk_color_profile gui = true).
Proof.
  intros Hp Hc. apply build_commands_plan in Hp. subst plan.
  apply in_map_iff in Hc. destruct Hc as (f & <- & Hf).
  exists f, (transform_args gui).
  split; [exact Hf|]. split; [apply invocation_shape|].
  apply transform_args_flags.
Qed.

Lemma transformation_flags_follow_controls_witness :
  (In "-rotate" ["-rotate"; "90"; "-flip"] <-> rot_90 <> rot_0)
  /\ (In "-flip" ["-rotate"; "90"; "-flip"] <-> true = true)
  /\ (In "-flop" ["-rotate"; "90"; "-flip"] <-> false = true)
  /\ (In "-resize" ["-rotate"; "90"; "-flip"] <-> false = true).
Proof.
  destruct (transformation_flags_follow_controls nat mkdir_ok
              (gui_rotate_flip ["/in/a.png"] "/out") 0%nat
              [["gm"; "convert"; "/in/a.png"; "-rotate"; "90"; "-flip";
                "/out/a.png"]]
              ["gm"; "convert"; "/in/a.png"; "-rotate"; "90"; "-flip";
               "/out/a.png"] eq_refl (or_introl eq_refl))
    as (f & flags & _ & E & Rs & _ & Ro & Fi & Fo & _).
  injection E as _ E.
  apply (app_inj_tail ["-rotate"; "90"; "-flip"] flags) in E.
  destruct E as [<- _].
  exact (conj Ro (conj Fi (conj Fo Rs))).
Defined.

(** * Further properties of the batch executor *)

Section ExecutorMore.

Variable env : Env.

(** What the loop adds, counted: [n] invocations, the first [n] of the
    list, and [n] or [n - 1] progress ticks; when it ends without raising
    and with [success] set, every invocation made has had its tick and
    [error_msg] is as before. *)
Lemma loop_counts (total : nat) (cmds : list (list string)) :
  forall idx s r s',
    Py.for_enumerate idx cmds (run_body env total) s = (r, s') ->
    exists ev n,
      emitted s' = emitted s ++ ev
      /\ invoked s' = invoked s ++ firstn n cmds
      /\ n <= List.length cmds
      /\ List.length (filter is_progress ev) <= n
      /\ n <= S (List.length (filter is_progress ev))
      /\ (r = inr tt -> success s' = true ->
          List.length (filter is_progress ev) = n
          /\ error_msg s' = error_msg s /\ success s = true).
Proof.
  induction cmds as [|c rest IH]; intros idx s r s' H.
  - cbn in H. injection H as <- <-. exists [], 0%nat.
    rewrite !app_nil_r. cbn. auto 10.
  - rewrite for_enumerate_cons in H.
    destruct (stop_seen env idx s) eqn:SS.
    { destruct (run_body_stopped env total idx c s SS)
        as (s1 & B & E1 & E2 & E3 & E4).
      rewrite B in H. injection H as <- <-. exists [], 0%nat.
      rewrite !app_nil_r, E1, E2, E3, E4. cbn.
      repeat split; auto; lia. }
    pose proof (run_body_running env total idx c s SS) as B.
    destruct c as [|a l].
    { rewrite B in H. injection H as <- <-. exists [], 0%nat.
      rewrite !app_nil_r. cbn. repeat split; auto; try lia; discriminate. }
    set (c := a :: l) in *. cbn zeta in B.
    destruct (env_subprocess_run env idx c) as [[o m|m]|out];
      rewrite B in H.
    + injection H as <- <-.
      exists [current_file (last c "");
              output_received (executing total idx c);
              output_received ("Error: " +++ o)], 1%nat.
      cbn [emitted invoked success error_msg set_error_msg set_success
             add_emitted add_invoked].
      rewrite <- !app_assoc.
      repeat split; auto; cbn; try lia; discriminate.
    + injection H as <- <-.
      exists [current_file (last c "");
              output_received (executing total idx c)], 1%nat.
      cbn [emitted invoked add_emitted add_invoked].
      rewrite <- !app_assoc.
      repeat split; auto; cbn; try lia; discriminate.
    + apply IH in H.
      destruct H as (ev & n & H1 & H2 & H3 & H4 & H5 & H6).
      exists ([current_file (last c "");
               output_received (executing total idx c);
               output_received out; progress_incremented] ++ ev), (S n).
      cbn [emitted invoked success error_msg add_emitted add_invoked]
        in H1, H2, H6.
      rewrite H1, H2, <- !app_assoc.
      cbn [app filter is_progress List.length firstn].
      repeat split; auto; try lia;
        destruct (H6 H H0) as (K1 & K2 & K3); auto.
Qed.

End ExecutorMore.

(** X7: on every run the invocations made are the first [n] of the JobPlan,
    in order, for some [n]; the progress ticks emitted number [n] or
    [n - 1]: at most the last invocation made is without its tick. *)
Theorem invocations_are_a_prefix_of_the_plan (env : Env) (w : Worker) :
  exists n,
    invoked (run_worker env w) = firstn n (w_commands w)
    /\ n <= List.length (w_commands w)
    /\ List.length (filter is_progress (emitted (run_worker env w))) <= n
    /\ n <= S (List.length (filter is_progress (emitted (run_worker env w)))).
Proof.
  rewrite run_eq.
  destruct (env_mkdir env (PurePath.Path (w_output_dir w))) as [e|u].
  - exists 0%nat. cbn. repeat split; lia.
  - destruct (Py.for_enumerate 0 (w_commands w) _ (initial w))
      as [r s'] eqn:L.
    destruct (loop_counts _ _ _ _ _ _ _ L)
      as (ev & n & E & I & B & T1 & T2 & _).
    cbn in E, I. exists n. rewrite conclude_invoked. cbn [snd].
    assert (P : List.length (filter is_progress (emitted (conclude (r, s'))))
                = List.length (filter is_progress ev)).
    { destruct r as [e|u'];
        cbn [conclude emitted add_emitted set_success set_error_msg];
        rewrite E, !filter_app, !length_app; cbn; lia. }
    rewrite P. auto.
Qed.

(** X8: a [finished] signal with [success] set carries the empty message,
    and is emitted only by a run in which every invocation made returned
    normally: as many progress ticks as invocations. *)
Theorem finished_true_means_all_succeeded (env : Env) (w : Worker)
    (front : list Signal) (m : string) :
  emitted (run_worker env w) = front ++ [finished true m] ->
  m = ""
  /\ List.length (filter is_progress front)
     = List.length (invoked (run_worker env w)).
Proof.
  rewrite run_eq.
  destruct (env_mkdir env (PurePath.Path (w_output_dir w))) as [e|u].
  - intros H.
    assert (E : emitted (conclude (inl e, initial w))
                = [output_received ("Critical Error: " +++ Py.exn_str e)] ++
                  [finished false (Py.exn_str e)]) by reflexivity.
    rewrite E in H. apply app_inj_tail in H. destruct H as [_ H].
    discriminate.
  - destruct (Py.for_enumerate 0 (w_commands w) _ (initial w))
      as [r s'] eqn:L.
    destruct (loop_counts _ _ _ _ _ _ _ L)
      as (ev & n & E & I & B & T1 & T2 & K).
    cbn in E, I. rewrite conclude_invoked. cbn [snd].
    destruct r as [e|[]];
      cbn [conclude emitted add_emitted set_success set_error_msg];
      intros H; apply app_inj_tail in H; destruct H as [F H];
      [discriminate|].
    injection H as S1 M.
    destruct (K eq_refl S1) as (K1 & K2 & _). cbn in K2.
    rewrite E in F. subst front. rewrite I, K1, length_firstn.
    split; [congruence|lia].
Qed.

Lemma finished_true_means_all_succeeded_witness :
  "" = ""
  /\ List.length
       (filter is_progress
          [current_file "/out/a.webp";
           output_received
             (executing 3 0 ["gm"; "convert"; "/in/a.png"; "/out/a.webp"]);
           output_received ""; progress_incremented])
     = List.length
         (invoked (run_worker (env_stop_at 1) (Worker_init plan3 "/out"))).
Proof.
  apply (finished_true_means_all_succeeded (env_stop_at 1)
           (Worker_init plan3 "/out")).
  reflexivity.
Defined.

(** When nothing stops or fails the passes, the loop reaches its exit. *)
Lemma arrive_all (env : Env) (total : nat) (cmds : list (list string)) :
  forall idx s,
    _is_running (self s) = true ->
    (forall i c,
       nth_error cmds i = Some c ->
       c <> [] /\ env_stop_called env (idx + i) = false
       /\ exists out, env_subprocess_run env (idx + i) c = inr out) ->
    exists s', arrive env total idx cmds (List.length cmds) s = Some s'.
Proof.
  induction cmds as [|c rest IH]; intros idx s R H.
  - exists s. reflexivity.
  - destruct (H 0%nat c eq_refl) as (Hc & St & out & Ho).
    rewrite Nat.add_0_r in St, Ho.
    assert (SS : stop_seen env idx s = false)
      by (unfold stop_seen; now rewrite St, R).
    cbn [List.length arrive].
    rewrite (run_body_running env total idx c s SS).
    destruct c as [|a l]; [contradiction|]. cbn zeta. rewrite Ho.
    apply IH.
    + exact R.
    + intros i c' N. specialize (H (S i) c' N).
      now replace (S idx + i)%nat with (idx + S i)%nat by lia.
Qed.

(** X9: when the worker has not been stopped, the output directory can be
    made, no stop is called, and every invocation of the JobPlan is a
    non-empty argument list on which the tool returns normally, the run
    invokes the whole JobPlan in order, emits one progress tick per
    invocation and ends with [finished(True, "")]. *)
Theorem all_succeed_completes (env : Env) (w : Worker) :
  _is_running w = true ->
  env_mkdir env (PurePath.Path (w_output_dir w)) = inr tt ->
  (forall i c,
     nth_error (w_commands w) i = Some c ->
     c <> [] /\ env_stop_called env i = false
     /\ exists out, env_subprocess_run env i c = inr out) ->
  invoked (run_worker env w) = w_commands w
  /\ exists front,
       emitted (run_worker env w) = front ++ [finished true ""]
       /\ List.length (filter is_progress front) = List.length (w_commands w)
       /\ current_files front = map (fun c => last c "") (w_commands w).
Proof.
  intros R M H.
  destruct (arrive_all env (List.length (w_commands w)) (w_commands w)
              0%nat (initial w) R H) as [s A].
  assert (B : at_boundary env w (List.length (w_commands w)) = Some s)
    by (unfold at_boundary; now rewrite M).
  destruct (run_left_at_boundary env w _ s B (or_introl eq_refl)) as [E I].
  destruct (boundary_facts env w _ s B) as (_ & I' & _ & _ & _ & P).
  rewrite firstn_all in I'.
  split; [congruence|].
  exists (emitted s). split; [exact E|]. split; [exact P|].
  pose proof (run_current_files env w) as C.
  rewrite E, I, I', current_files_app in C. cbn in C.
  now rewrite app_nil_r in C.
Qed.

Lemma all_succeed_completes_witness :
  invoked (run_worker env_ok (Worker_init plan3 "/out")) = plan3
  /\ exists front,
       emitted (run_worker env_ok (Worker_init plan3 "/out"))
       = front ++ [finished true ""]
       /\ List.length (filter is_progress front) = 3%nat
       /\ current_files front = ["/out/a.webp"; "/out/b.webp"; "/out/c.webp"].
Proof.
  apply (all_succeed_completes env_ok (Worker_init plan3 "/out")).
  - reflexivity.
  - reflexivity.
  - intros i c N. split.
    + intros ->. destruct i as [|[|[|[|i]]]]; discriminate.
    + split; [reflexivity|]. exists "". reflexivity.
Defined.

(** X10: when the [mkdir] of the output directory raises, the run makes no
    invocation: it logs [Critical Error:] with the text of the exception and
    ends with [finished(False, <that text>)]. *)
Theorem mkdir_failure_ends_the_run (env : Env) (w : Worker) (e : Py.exn) :
  env_mkdir env (PurePath.Path (w_output_dir w)) = inl e ->
  invoked (run_worker env w) = []
  /\ emitted (run_worker env w)
     = [output_received ("Critical Error: " +++ Py.exn_str e);
        finished false (Py.exn_str e)].
Proof. intros M. rewrite run_eq, M. split; reflexivity. Qed.

Lemma mkdir_failure_ends_the_run_witness :
  invoked (run_worker
             {| env_mkdir := fun _ => inl (Py.Exception "Read-only file system");
                env_subprocess_run := fun _ _ => inr "";
                env_stop_called := fun _ => false |}
             (Worker_init plan3 "/out")) = []
  /\ emitted (run_worker
                {| env_mkdir := fun _ => inl (Py.Exception "Read-only file system");
                   env_subprocess_run := fun _ _ => inr "";
                   env_stop_called := fun _ => false |}
                (Worker_init plan3 "/out"))
     = [output_received "Critical Error: Read-only file system";
        finished false "Read-only file system"].
Proof.
  apply (mkdir_failure_ends_the_run _ (Worker_init plan3 "/out")
           (Py.Exception "Read-only file system")).
  reflexivity.
Defined.

(** X11: when [subprocess.run] raises anything but [CalledProcessError] on
    the [k]-th invocation made (the tool cannot be started, say), the run
    makes no further invocation, emits no tick for item [k], logs
    [Critical Error:] with the text of the exception and ends with
    [finished(False, <that text>)]. *)
Theorem tool_exception_aborts_the_batch (env : Env) (w : Worker) (k : nat)
    (cmd : list string) (m : string) :
  nth_error (invoked (run_worker env w)) k = Some cmd ->
  env_subprocess_run env k cmd = inl (Py.Exception m) ->
  invoked (run_worker env w) = firstn (S k) (w_commands w)
  /\ exists front,
       emitted (run_worker env w)
       = front ++
         [current_file (last cmd "");
          output_received (executing (List.length (w_commands w)) k cmd);
          output_received ("Critical Error: " +++ m);
          finished false m]
       /\ existsb is_finished front = false
       /\ List.length (filter is_progress front) = k.
Proof.
  intros N F. pose proof N as N'. rewrite run_eq in N.
  destruct (env_mkdir env (PurePath.Path (w_output_dir w))) as [e|u] eqn:M.
  { destruct k; discriminate. }
  rewrite conclude_invoked in N.
  destruct (Py.for_enumerate 0 (w_commands w) _ (initial w)) as [r s'] eqn:L.
  cbn [snd] in N.
  destruct (loop_invoked_nth env _ _ _ _ _ _ k cmd L N)
    as (s & A & C & SS & Hc).
  cbn [Nat.add] in SS.
  assert (B : at_boundary env w k = Some s)
    by (unfold at_boundary; now rewrite M).
  destruct (boundary_facts env w k s B) as (_ & I' & _ & _ & NF & P).
  rewrite (run_from_boundary env w k s B), (nth_error_skipn_cons _ _ _ C).
  rewrite for_enumerate_cons, (run_body_running env _ _ _ _ SS).
  destruct cmd as [|a l]; [contradiction|].
  cbn zeta. rewrite F.
  cbn [conclude emitted invoked success error_msg set_error_msg set_success
         add_emitted add_invoked Py.exn_str].
  split.
  - rewrite I'. symmetry. now apply firstn_snoc_nth.
  - exists (emitted s). rewrite <- !app_assoc. auto.
Qed.

Lemma tool_exception_aborts_the_batch_witness :
  invoked (run_worker
             {| env_mkdir := fun _ => inr tt;
                env_subprocess_run := fun idx _ =>
                  if (idx =? 1)%nat then inl (Py.Exception "No such file: gm")
                  else inr "";
                env_stop_called := fun _ => false |}
             (Worker_init plan3 "/out")) = firstn 2 plan3
  /\ exists front,
       emitted (run_worker
                  {| env_mkdir := fun _ => inr tt;
                     env_subprocess_run := fun idx _ =>
                       if (idx =? 1)%nat
                       then inl (Py.Exception "No such file: gm")
                       else inr "";
                     env_stop_called := fun _ => false |}
                  (Worker_init plan3 "/out"))
       = front ++
         [current_file "/out/b.webp";
          output_received
            (executing 3 1 ["gm"; "convert"; "/in/b.png"; "/out/b.webp"]);
          output_received "Critical Error: No such file: gm";
          finished false "No such file: gm"]
       /\ existsb is_finished front = false
       /\ List.length (filter is_progress front) = 1%nat.
Proof.
  apply (tool_exception_aborts_the_batch _ (Worker_init plan3 "/out") 1%nat
           ["gm"; "convert"; "/in/b.png"; "/out/b.webp"] "No such file: gm");
    reflexivity.
Defined.

(** A run whose [k]-th invocation raises anything but [CalledProcessError]:
    lines 54 to 59 end it. *)
Lemma run_tool_raises (env : Env) (w : Worker) (k : nat)
    (cmd : list string) (m : string) :
  nth_error (invoked (run_worker env w)) k = Some cmd ->
  env_subprocess_run env k cmd = inl (Py.Exception m) ->
  invoked (run_worker env w) = firstn (S k) (w_commands w)
  /\ exists front,
       emitted (run_worker env w)
       = front ++
         [current_file (last cmd "");
          output_received (executing (List.length (w_commands w)) k cmd);
          output_received ("Critical Error: " +++ m);
          finished false m]
       /\ existsb is_finished front = false
       /\ List.length (filter is_progress front) = k.
Proof.
  intros N F. pose proof N as N'. rewrite run_eq in N.
  destruct (env_mkdir env (PurePath.Path (w_output_dir w))) as [e|u] eqn:M.
  { destruct k; discriminate. }
  rewrite conclude_invoked in N.
  destruct (Py.for_enumerate 0 (w_commands w) _ (initial w)) as [r s'] eqn:L.
  cbn [snd] in N.
  destruct (loop_invoked_nth env _ _ _ _ _ _ k cmd L N)
    as (s & A & C & SS & Hc).
  cbn [Nat.add] in SS.
  assert (B : at_boundary env w k = Some s)
    by (unfold at_boundary; now rewrite M).
  destruct (boundary_facts env w k s B) as (_ & I' & _ & _ & NF & P).
  rewrite (run_from_boundary env w k s B), (nth_error_skipn_cons _ _ _ C).
  rewrite for_enumerate_cons, (run_body_running env _ _ _ _ SS).
  destruct cmd as [|a l]; [contradiction|].
  cbn zeta. rewrite F.
  cbn [conclude emitted invoked success error_msg set_error_msg set_success
         add_emitted add_invoked Py.exn_str].
  split.
  - rewrite I'. symmetry. now apply firstn_snoc_nth.
  - exists (emitted s). rewrite <- !app_assoc. auto.
Qed.

(** X23: when the process of the [k]-th invocation made exits with a
    non-zero status, the run makes no further invocation, emits no tick for
    item [k] and ends with its one [finished] signal, which carries [False].
    When the output of the process was text, it is logged after [Error:] and
    the message is [Failed to process <last argument of the invocation>];
    when it was not, the text of the codec's error is logged after
    [Critical Error:] and is the message. *)
Theorem nonzero_exit_ends_the_run (t : Tools) (w : Worker) (k : nat)
    (cmd : list string) (rc : Z) (read : Read) :
  nth_error (invoked (run_worker (env_of_tools t) w)) k = Some cmd ->
  tools_run t k cmd = exits rc read ->
  rc <> 0%Z ->
  invoked (run_worker (env_of_tools t) w) = firstn (S k) (w_commands w)
  /\ exists front,
       emitted (run_worker (env_of_tools t) w)
       = front ++
         [current_file (last cmd "");
          output_received (executing (List.length (w_commands w)) k cmd)] ++
         match read with
         | decoded out =>
             [output_received ("Error: " +++ out);
              finished false ("Failed to process " +++ last cmd "")]
         | undecodable m =>
             [output_received ("Critical Error: " +++ m);
              finished false m]
         end
       /\ existsb is_finished front = false
       /\ List.length (filter is_progress front) = k.
Proof.
  intros N R Hrc.
  assert (Z0 : (rc =? 0)%Z = false) by now apply Z.eqb_neq.
  destruct read as [out|m]; cbn [app].
  - assert (F : env_subprocess_run (env_of_tools t) k cmd
                = inl (Py.CalledProcessError out (tools_check_str t cmd rc))).
    { cbn. unfold subprocess_outcome. now rewrite R, Z0. }
    destruct (run_failure _ w k cmd out _ N F) as (s & B & C & E & I).
    destruct (boundary_facts _ w k s B) as (L & I' & _ & _ & NF & P).
    split.
    + rewrite I, I'. symmetry. now apply firstn_snoc_nth.
    + exists (emitted s). auto.
  - assert (F : env_subprocess_run (env_of_tools t) k cmd
                = inl (Py.Exception m)).
    { cbn. unfold subprocess_outcome. now rewrite R. }
    exact (run_tool_raises _ w k cmd m N F).
Qed.

Lemma nonzero_exit_ends_the_run_witness :
  (invoked (run_worker (env_of_tools (tools_exit_at 1 2 "bad image"))
              (Worker_init plan3 "/out")) = firstn 2 plan3
   /\ exists front,
        emitted (run_worker (env_of_tools (tools_exit_at 1 2 "bad image"))
                   (Worker_init plan3 "/out"))
        = front ++
          [current_file "/out/b.webp";
           output_received
             (executing 3 1 ["gm"; "convert"; "/in/b.png"; "/out/b.webp"])] ++
          [output_received "Error: bad image";
           finished false "Failed to process /out/b.webp"]
        /\ existsb is_finished front = false
        /\ List.length (filter is_progress front) = 1%nat)
  /\ (invoked (run_worker (env_of_tools (tools_undecodable_at 1))
                 (Worker_init plan3 "/out")) = firstn 2 plan3
      /\ exists front,
           emitted (run_worker (env_of_tools (tools_undecodable_at 1))
                      (Worker_init plan3 "/out"))
           = front ++
             [current_file "/out/b.webp";
              output_received
                (executing 3 1 ["gm"; "convert"; "/in/b.png"; "/out/b.webp"])] ++
             [output_received ("Critical Error: " +++ lone_0xe9);
              finished false lone_0xe9]
           /\ existsb is_finished front = false
           /\ List.length (filter is_progress front) = 1%nat).
Proof.
  split.
  - apply (nonzero_exit_ends_the_run (tools_exit_at 1 2 "bad image")
             (Worker_init plan3 "/out") 1%nat
             ["gm"; "convert"; "/in/b.png"; "/out/b.webp"] 2%Z
             (decoded "bad image")).
    + vm_compute. reflexivity.
    + reflexivity.
    + discriminate.
  - apply (nonzero_exit_ends_the_run (tools_undecodable_at 1)
             (Worker_init plan3 "/out") 1%nat
             ["gm"; "convert"; "/in/b.png"; "/out/b.webp"] 1%Z
             (undecodable lone_0xe9)).
    + vm_compute. reflexivity.
    + reflexivity.
    + discriminate.
Defined.

(** X12: when the run reaches, with the flag set, an item whose argument
    list is empty, nothing is handed to the tool for it and nothing is
    announced: the run logs [Critical Error: list index out of range] and
    ends with [finished(False, "list index out of range")]. *)
Theorem empty_invocation_ends_the_run (env : Env) (w : Worker) (k : nat)
    (s : RunState) :
  at_boundary env w k = Some s ->
  nth_error (w_commands w) k = Some [] ->
  stop_seen env k s = false ->
  invoked (run_worker env w) = firstn k (w_commands w)
  /\ emitted (run_worker env w)
     = emitted s ++
       [output_received "Critical Error: list index out of range";
        finished false "list index out of range"].
Proof.
  intros B C SS.
  destruct (boundary_facts env w k s B) as (_ & I' & _).
  rewrite (run_from_boundary env w k s B), (nth_error_skipn_cons _ _ _ C).
  rewrite for_enumerate_cons, (run_body_running env _ _ _ _ SS).
  cbn [conclude emitted invoked success error_msg set_error_msg set_success
         add_emitted add_invoked Py.exn_str].
  rewrite <- !app_assoc. auto.
Qed.

Lemma empty_invocation_ends_the_run_witness :
  invoked (run_worker env_ok (Worker_init [[]; ["gm"; "version"]] "/out"))
  = firstn 0 [[]; ["gm"; "version"]]
  /\ emitted (run_worker env_ok (Worker_init [[]; ["gm"; "version"]] "/out"))
     = emitted (initial (Worker_init [[]; ["gm"; "version"]] "/out")) ++
       [output_received "Critical Error: list index out of range";
        finished false "list index out of range"].
Proof.
  apply (empty_invocation_ends_the_run env_ok
           (Worker_init [[]; ["gm"; "version"]] "/out") 0%nat);
    reflexivity.
Defined.

(** * Properties of the main window *)

Section WindowFacts.

Variable PB : Type.
Variable pb_setRange : Z -> Z -> PB -> PB.
Variable pb_setValue : Z -> PB -> PB.
Variable pb_value : PB -> Z.
Variable FS : Type.
Variable mkdir : PurePath.t -> FS -> (Py.exn + unit) * FS.
Variable access_w : string -> FS -> Py.exn + bool.

Local Abbreviation validate := (validate_settings PB FS access_w).
Local Abbreviation start :=
  (start_conversion PB pb_setRange pb_setValue FS mkdir access_w).
Local Abbreviation user :=
  (handle_user PB pb_setRange pb_setValue FS mkdir access_w).
Local Abbreviation shown d a :=
  {| win := show_dialog PB d (win a); disk := disk a |}.

(** [validate_settings], case by case. *)
Lemma validate_settings_eq (a : App PB FS) :
  validate a =
  if input_files_defined (win a) then
    match input_files (controls (win a)) with
    | [] =>
        (inr false, shown (warning "Warning" "Please select input files!") a)
    | _ :: _ =>
        if String.eqb (output_dir (controls (win a))) "" then
          (inr false,
           shown (warning "Warning" "Please select output directory!") a)
        else
          match access_w (output_dir (controls (win a))) (disk a) with
          | inr true => (inr true, a)
          | inr false =>
              (inr false,
               shown (critical "Error" "Output directory is not writable") a)
          | inl e => (inr false, shown (critical "Error" (Py.exn_str e)) a)
          end
    end
  else
    (inl (Py.Exception
            "'ImprovedGMConvertGUI' object has no attribute 'input_files'"),
     a).
Proof.
  unfold validate_settings, self_input_files, os_access, on_win,
    Py.try_except, Py.bind, Py.get, Py.ret, Py.modify, Py.raise.
  destruct (input_files_defined (win a)); [|reflexivity].
  destruct (input_files (controls (win a))); [reflexivity|].
  destruct (String.eqb (output_dir (controls (win a))) ""); [reflexivity|].
  destruct (access_w (output_dir (controls (win a))) (disk a)) as [e|[|]];
    reflexivity.
Qed.

(** [start_conversion] once the settings are valid. *)
Lemma start_conversion_valid (a : App PB FS) :
  validate a = (inr true, a) ->
  start a =
  match run_build_commands FS mkdir (controls (win a)) (disk a) with
  | (inl e, fs') => (inl e, {| win := win a; disk := fs' |})
  | (inr commands, fs') =>
      (inr tt,
       {| win :=
            set_worker PB
              (Some (Worker_init commands (output_dir (controls (win a)))))
              (set_progress_bar PB (pb_setValue 0)
                 (set_progress_bar PB
                    (pb_setRange 0 (Z.of_nat (List.length commands)))
                    (set_btn_cancel PB true
                       (set_btn_convert PB false
                          (set_log_browser PB [] (win a))))));
          disk := fs' |})
  end.
Proof.
  intros V. pose proof V as V'. rewrite validate_settings_eq in V'.
  unfold start_conversion. unfold Py.bind at 1. rewrite V. cbn [negb].
  unfold call_build_commands, self_input_files, on_win,
    Py.bind, Py.get, Py.ret, Py.modify, Py.raise.
  destruct (input_files_defined (win a)); [|discriminate].
  destruct (run_build_commands FS mkdir (controls (win a)) (disk a))
    as [[e|commands] fs']; reflexivity.
Qed.

(** X13: while the attribute [input_files] has never been assigned -- no
    file dropped or picked, the list never cleared -- [start_conversion]
    raises [AttributeError]: no message box, no directory made, the window
    as it was. *)
Theorem start_before_any_file_raises (a : App PB FS) :
  input_files_defined (win a) = false ->
  start a =
  (inl (Py.Exception
          "'ImprovedGMConvertGUI' object has no attribute 'input_files'"), a).
Proof.
  intros D. unfold start_conversion. unfold Py.bind at 1.
  rewrite validate_settings_eq, D. reflexivity.
Qed.

(** X14: when the list of inputs is empty, or the output directory text is
    empty, or [os.access] does not answer that the directory is writable,
    [start_conversion] shows one message box and does nothing else: the file
    system, the worker, the buttons, the log and the progress bar are as
    they were. *)
Theorem invalid_settings_start_nothing (a : App PB FS) :
  input_files_defined (win a) = true ->
  input_files (controls (win a)) = []
  \/ output_dir (controls (win a)) = ""
  \/ access_w (output_dir (controls (win a))) (disk a) <> inr true ->
  exists d,
    start a = (inr tt, {| win := show_dialog PB d (win a); disk := disk a |}).
Proof.
  intros D H. unfold start_conversion. unfold Py.bind at 1.
  rewrite validate_settings_eq, D.
  destruct (input_files (controls (win a))) as [|f files].
  { eexists. reflexivity. }
  destruct (String.eqb_spec (output_dir (controls (win a))) "") as [E|E].
  { eexists. reflexivity. }
  destruct H as [H|[H|H]]; [discriminate|contradiction|].
  destruct (access_w (output_dir (controls (win a))) (disk a)) as [e|[|]];
    try (eexists; reflexivity).
  now contradiction H.
Qed.

(** X15: with valid settings and no [mkdir] raising, [start_conversion]
    makes the destination directories, clears the log, disables Start,
    enables Cancel, sets the progress bar to 0 in the range from 0 to the
    number of inputs, and creates the worker on the JobPlan of the controls
    and the output directory text. *)
Theorem start_conversion_starts_a_worker (a : App PB FS) (fs' : FS) :
  input_files_defined (win a) = true ->
  input_files (controls (win a)) <> [] ->
  output_dir (controls (win a)) <> "" ->
  access_w (output_dir (controls (win a))) (disk a) = inr true ->
  mkdirs mkdir (map (destination_dir (controls (win a)))
                    (input_files (controls (win a)))) (disk a)
  = (inr tt, fs') ->
  exists a',
    start a = (inr tt, a')
    /\ disk a' = fs'
    /\ worker (win a')
       = Some (Worker_init
                 (map (invocation (controls (win a)))
                      (input_files (controls (win a))))
                 (output_dir (controls (win a))))
    /\ btn_convert (win a') = false
    /\ btn_cancel (win a') = true
    /\ log_browser (win a') = []
    /\ progress_bar (win a')
       = pb_setValue 0
           (pb_setRange 0
              (Z.of_nat (List.length (input_files (controls (win a)))))
              (progress_bar (win a)))
    /\ dialogs (win a') = dialogs (win a).
Proof.
  intros D Hf Ho Ha Hm.
  assert (V : validate a = (inr true, a)).
  { rewrite validate_settings_eq, D.
    destruct (input_files (controls (win a))); [contradiction|].
    destruct (String.eqb_spec (output_dir (controls (win a))) "");
      [contradiction|].
    now rewrite Ha. }
  rewrite (start_conversion_valid a V), run_build_commands_eq, Hm.
  eexists. split; [reflexivity|]. cbn. rewrite length_map. auto 10.
Qed.

(** X16: with valid settings, when a [mkdir] of [build_commands] raises,
    [start_conversion] raises that exception before it touches the window:
    Start stays enabled, no message box is shown, no worker is created. *)
Theorem start_conversion_mkdir_failure (a : App PB FS) (e : Py.exn)
    (fs' : FS) :
  input_files_defined (win a) = true ->
  input_files (controls (win a)) <> [] ->
  output_dir (controls (win a)) <> "" ->
  access_w (output_dir (controls (win a))) (disk a) = inr true ->
  mkdirs mkdir (map (destination_dir (controls (win a)))
                    (input_files (controls (win a)))) (disk a)
  = (inl e, fs') ->
  start a = (inl e, {| win := win a; disk := fs' |}).
Proof.
  intros D Hf Ho Ha Hm.
  assert (V : validate a = (inr true, a)).
  { rewrite validate_settings_eq, D.
    destruct (input_files (controls (win a))); [contradiction|].
    destruct (String.eqb_spec (output_dir (controls (win a))) "");
      [contradiction|].
    now rewrite Ha. }
  now rewrite (start_conversion_valid a V), run_build_commands_eq, Hm.
Qed.

End WindowFacts.

Section RunInWindow.

Variable PB : Type.
Variable pb_setRange : Z -> Z -> PB -> PB.
Variable pb_setValue : Z -> PB -> PB.
Variable pb_value : PB -> Z.

Local Abbreviation handle1 := (handle PB pb_setRange pb_setValue pb_value).
Local Abbreviation process1 := (process PB pb_setRange pb_setValue pb_value).

Lemma process_app (ev1 ev2 : list GuiEvent) (w : Window PB) :
  process1 (ev1 ++ ev2) w = process1 ev2 (process1 ev1 w).
Proof. unfold process. apply fold_left_app. Qed.

(** The events up to the last signal, that signal, and the clicks after. *)
Lemma signals_of_split (events : list GuiEvent) :
  forall front x,
    signals_of events = front ++ [x] ->
    exists ev1 ev2,
      events = ev1 ++ Delivered x :: ev2
      /\ signals_of ev1 = front /\ signals_of ev2 = [].
Proof.
  induction events as [|ev events IH]; intros front x H.
  - destruct front; discriminate.
  - destruct ev as [sg|].
    + cbn in H. destruct front as [|y front].
      * injection H as -> H. exists [], events. auto.
      * injection H as -> H. destruct (IH _ _ H) as (ev1 & ev2 & E & F & G).
        exists (Delivered y :: ev1), ev2. subst events. cbn. now rewrite F.
    + cbn in H. destruct (IH _ _ H) as (ev1 & ev2 & E & F & G).
      exists (CancelClicked :: ev1), ev2. subst events. auto.
Qed.

(** Clicks on a disabled Cancel button change nothing. *)
Lemma process_clicks (events : list GuiEvent) (w : Window PB) :
  signals_of events = [] -> btn_cancel w = false -> process1 events w = w.
Proof.
  induction events as [|ev events IH]; intros S C; [reflexivity|].
  destruct ev as [sg|]; [discriminate|].
  cbn. rewrite C. now apply IH.
Qed.

(** Before the [finished] signal no message box is shown. *)
Lemma dialogs_before_finished (events : list GuiEvent) :
  forall w,
    existsb is_finished (signals_of events) = false ->
    dialogs (process1 events w) = dialogs w.
Proof.
  induction events as [|ev events IH]; intros w H; [reflexivity|].
  cbn [process fold_left].
  change (fold_left (fun w0 ev0 => handle1 ev0 w0) events (handle1 ev w))
    with (process1 events (handle1 ev w)).
  destruct ev as [sg|].
  - cbn in H. apply orb_false_iff in H. destruct H as [H1 H2].
    rewrite (IH _ H2). destruct sg; try discriminate; reflexivity.
  - cbn in H. rewrite (IH _ H). cbn.
    destruct (btn_cancel w); [|reflexivity].
    unfold cancel_conversion. destruct (worker w); reflexivity.
Qed.

(** The window after the events of a run, given the last signal. *)
Lemma process_run (events : list GuiEvent) (front : list Signal)
    (b : bool) (m : string) (w : Window PB) :
  signals_of events = front ++ [finished b m] ->
  existsb is_finished front = false ->
  btn_convert (process1 events w) = true
  /\ btn_cancel (process1 events w) = false
  /\ status_label (process1 events w)
     = (if b then "Ready" else "Conversion failed")
  /\ dialogs (process1 events w)
     = dialogs w ++
       [if b
        then information "Success" "All conversions completed successfully!"
        else critical "Error" m].
Proof.
  intros S NF.
  destruct (signals_of_split events front _ S) as (ev1 & ev2 & E & F & G).
  subst events front.
  change (ev1 ++ Delivered (finished b m) :: ev2)
    with (ev1 ++ [Delivered (finished b m)] ++ ev2).
  rewrite !process_app.
  pose proof (dialogs_before_finished ev1 w NF) as Dg.
  set (w1 := process1 ev1 w) in *.
  rewrite process_clicks; auto; destruct b; cbn; now rewrite ?Dg.
Qed.

End RunInWindow.

(** X17: however a run goes, once its signals have been delivered in order
    -- with clicks on Cancel anywhere among them -- Start is enabled again,
    Cancel is disabled, and exactly one message box has been shown:
    Success with status Ready after [finished(True, ...)], Error with the
    message and status Conversion failed after [finished(False, ...)]. *)
Theorem window_recovers_after_every_run
    (PB : Type) (pb_setRange : Z -> Z -> PB -> PB)
    (pb_setValue : Z -> PB -> PB) (pb_value : PB -> Z)
    (env : Env) (w : Worker) (events : list GuiEvent) (win0 : Window PB) :
  signals_of events = emitted (run_worker env w) ->
  exists b m,
    last (emitted (run_worker env w)) progress_incremented = finished b m
    /\ btn_convert (process PB pb_setRange pb_setValue pb_value events win0)
       = true
    /\ btn_cancel (process PB pb_setRange pb_setValue pb_value events win0)
       = false
    /\ status_label (process PB pb_setRange pb_setValue pb_value events win0)
       = (if b then "Ready" else "Conversion failed")
    /\ dialogs (process PB pb_setRange pb_setValue pb_value events win0)
       = dialogs win0 ++
         [if b
          then information "Success" "All conversions completed successfully!"
          else critical "Error" m].
Proof.
  intros S. destruct (run_one_finished env w) as (front & b & m & E & NF).
  exists b, m. split; [rewrite E; apply last_last|].
  rewrite E in S.
  apply (process_run PB pb_setRange pb_setValue pb_value events front); auto.
Qed.

Lemma window_recovers_after_every_run_witness :
  exists b m,
    last (emitted (run_worker (env_fail_at 1 "bad image")
                     (Worker_init plan3 "/out"))) progress_incremented
    = finished b m
    /\ btn_convert
         (process Bar bar_setRange bar_setValue bar_value
            (CancelClicked ::
             map Delivered
               (emitted (run_worker (env_fail_at 1 "bad image")
                           (Worker_init plan3 "/out"))))
            (initUI Bar bar_setRange bar_new)) = true
    /\ btn_cancel
         (process Bar bar_setRange bar_setValue bar_value
            (CancelClicked ::
             map Delivered
               (emitted (run_worker (env_fail_at 1 "bad image")
                           (Worker_init plan3 "/out"))))
            (initUI Bar bar_setRange bar_new)) = false
    /\ status_label
         (process Bar bar_setRange bar_setValue bar_value
            (CancelClicked ::
             map Delivered
               (emitted (run_worker (env_fail_at 1 "bad image")
                           (Worker_init plan3 "/out"))))
            (initUI Bar bar_setRange bar_new))
       = (if b then "Ready" else "Conversion failed")
    /\ dialogs
         (process Bar bar_setRange bar_setValue bar_value
            (CancelClicked ::
             map Delivered
               (emitted (run_worker (env_fail_at 1 "bad image")
                           (Worker_init plan3 "/out"))))
            (initUI Bar bar_setRange bar_new))
       = dialogs (initUI Bar bar_setRange bar_new) ++
         [if b
          then information "Success" "All conversions completed successfully!"
          else critical "Error" m].
Proof.
  apply (window_recovers_after_every_run Bar bar_setRange bar_setValue
           bar_value (env_fail_at 1 "bad image") (Worker_init plan3 "/out")).
  vm_compute. reflexivity.
Defined.

(** X18: a run that is cancelled -- the flag found cleared at a boundary --
    is reported to the user as a success: after its signals the status is
    Ready and the one message box shown says that all conversions completed
    successfully, whenever the clicks on Cancel were handled. *)
Theorem cancelled_run_is_reported_as_success
    (PB : Type) (pb_setRange : Z -> Z -> PB -> PB)
    (pb_setValue : Z -> PB -> PB) (pb_value : PB -> Z)
    (env : Env) (w : Worker) (k : nat) (s : RunState)
    (events : list GuiEvent) (win0 : Window PB) :
  at_boundary env w k = Some s ->
  stop_seen env k s = true ->
  signals_of events = emitted (run_worker env w) ->
  status_label (process PB pb_setRange pb_setValue pb_value events win0)
  = "Ready"
  /\ dialogs (process PB pb_setRange pb_setValue pb_value events win0)
     = dialogs win0 ++
       [information "Success" "All conversions completed successfully!"]
  /\ btn_convert (process PB pb_setRange pb_setValue pb_value events win0)
     = true.
Proof.
  intros B SS S.
  destruct (run_left_at_boundary env w k s B (or_intror SS)) as [E _].
  destruct (boundary_facts env w k s B) as (_ & _ & _ & _ & NF & _).
  rewrite E in S.
  destruct (process_run PB pb_setRange pb_setValue pb_value events
              (emitted s) true "" win0 S NF) as (P1 & P2 & P3 & P4).
  auto.
Qed.

Lemma cancelled_run_is_reported_as_success_witness :
  status_label
    (process Bar bar_setRange bar_setValue bar_value
       [CancelClicked; Delivered (finished true "")]
       (set_btn_cancel Bar true (initUI Bar bar_setRange bar_new)))
  = "Ready"
  /\ dialogs
       (process Bar bar_setRange bar_setValue bar_value
          [CancelClicked; Delivered (finished true "")]
          (set_btn_cancel Bar true (initUI Bar bar_setRange bar_new)))
     = dialogs (set_btn_cancel Bar true (initUI Bar bar_setRange bar_new)) ++
       [information "Success" "All conversions completed successfully!"]
  /\ btn_convert
       (process Bar bar_setRange bar_setValue bar_value
          [CancelClicked; Delivered (finished true "")]
          (set_btn_cancel Bar true (initUI Bar bar_setRange bar_new)))
     = true.
Proof.
  apply (cancelled_run_is_reported_as_success Bar bar_setRange bar_setValue
           bar_value (env_stop_at 0) (Worker_init plan3 "/out") 0%nat
           (initial (Worker_init plan3 "/out")));
    reflexivity.
Defined.

Section Sessions.

Variable PB : Type.
Variable pb_setRange : Z -> Z -> PB -> PB.
Variable pb_setValue : Z -> PB -> PB.
Variable pb_value : PB -> Z.
Variable FS : Type.
Variable mkdir : PurePath.t -> FS -> (Py.exn + unit) * FS.
Variable access_w : string -> FS -> Py.exn + bool.

Local Abbreviation start :=
  (start_conversion PB pb_setRange pb_setValue FS mkdir access_w).
Local Abbreviation user :=
  (handle_user PB pb_setRange pb_setValue FS mkdir access_w).

(** The loop of [update_file_list] adds the items and nothing else. *)
Lemma add_items_eq (files : list string) :
  forall a : App PB FS,
    exists a',
      Py.for_each files
        (fun f => on_win PB FS
                    (fun w => set_file_list PB (file_list w ++ [f]) w)) a
      = (inr tt, a')
      /\ file_list (win a') = file_list (win a) ++ files
      /\ controls (win a') = controls (win a)
      /\ input_files_defined (win a') = input_files_defined (win a)
      /\ file_counter (win a') = file_counter (win a)
      /\ btn_convert (win a') = btn_convert (win a)
      /\ btn_cancel (win a') = btn_cancel (win a)
      /\ worker (win a') = worker (win a)
      /\ disk a' = disk a.
Proof.
  induction files as [|f files IH]; intros a.
  - exists a. cbn. rewrite app_nil_r. auto 10.
  - cbn [Py.for_each]. unfold Py.bind, on_win at 1, Py.modify.
    destruct (IH {| win := set_file_list PB (file_list (win a) ++ [f]) (win a);
                    disk := disk a |})
      as (a' & E & H1 & H2 & H3 & H4 & H5 & H6 & H7 & H8).
    exists a'. cbn in *. rewrite <- app_assoc in H1. auto 10.
Qed.

(** [update_file_list] once [input_files] is assigned. *)
Lemma update_file_list_eq (a : App PB FS) :
  input_files_defined (win a) = true ->
  exists a',
    update_file_list PB FS a = (inr tt, a')
    /\ file_list (win a') = input_files (controls (win a))
    /\ file_counter (win a')
       = PyStr.str_of_int
           (Z.of_nat (List.length (input_files (controls (win a))))) +++
         " files queued"
    /\ controls (win a') = controls (win a)
    /\ input_files_defined (win a') = true
    /\ btn_convert (win a') = btn_convert (win a)
    /\ btn_cancel (win a') = btn_cancel (win a)
    /\ worker (win a') = worker (win a)
    /\ disk a' = disk a.
Proof.
  intros D. unfold update_file_list.
  unfold Py.bind at 1. unfold on_win at 1, Py.modify.
  unfold Py.bind at 1. unfold self_input_files at 1.
  unfold Py.bind at 1, Py.get. cbn [win set_file_list input_files_defined].
  rewrite D. unfold Py.ret at 1. cbn [controls set_file_list win].
  unfold Py.bind at 1.
  destruct (add_items_eq (input_files (controls (win a)))
              {| win := set_file_list PB [] (win a); disk := disk a |})
    as (a1 & E & H1 & H2 & H3 & H4 & H5 & H6 & H7 & H8).
  rewrite E. cbn in H1, H2, H3, H4, H5, H6, H7, H8.
  unfold self_input_files, on_win, Py.bind, Py.get, Py.ret, Py.modify.
  rewrite H3, D, H2.
  eexists. split; [reflexivity|]. cbn. repeat split; auto; congruence.
Qed.

(** What each event of the user leaves alone when both buttons are
    disabled: the buttons, the worker and the file system; none raises. *)
Lemma user_frame (ev : UserEvent) (a : App PB FS) :
  btn_convert (win a) = false ->
  btn_cancel (win a) = false ->
  exists a',
    user ev a = (inr tt, a')
    /\ btn_convert (win a') = false
    /\ btn_cancel (win a') = false
    /\ worker (win a') = worker (win a)
    /\ disk a' = disk a.
Proof.
  intros C1 C2. destruct ev as [files|files| |directory|g| |];
    unfold handle_user.
  - unfold dropEvent, Py.bind, on_win at 1, Py.modify.
    destruct (update_file_list_eq
                {| win := set_input_files PB (filter accepted_input files)
                            (win a);
                   disk := disk a |} eq_refl)
      as (a' & E & _ & _ & _ & _ & H5 & H6 & H7 & H8).
    exists a'. rewrite E. cbn in *. repeat split; congruence.
  - unfold browse_files. destruct files as [|f files].
    + exists a. auto.
    + unfold Py.bind, on_win at 1, Py.modify.
      destruct (update_file_list_eq
                  {| win := set_input_files PB (f :: files) (win a);
                     disk := disk a |} eq_refl)
        as (a' & E & _ & _ & _ & _ & H5 & H6 & H7 & H8).
      exists a'. rewrite E. cbn in *. repeat split; congruence.
  - eexists. split; [reflexivity|]. cbn. auto.
  - unfold browse_output_dir. destruct (negb (String.eqb directory "")).
    + eexists. split; [reflexivity|]. cbn. auto.
    + exists a. auto.
  - eexists. split; [reflexivity|]. cbn. auto.
  - unfold Py.bind, Py.get. rewrite C1. exists a. auto.
  - unfold Py.bind, Py.get. rewrite C2. exists a. auto.
Qed.

Lemma session_frame (events : list UserEvent) :
  forall a : App PB FS,
    btn_convert (win a) = false ->
    btn_cancel (win a) = false ->
    exists a',
      Py.for_each events user a = (inr tt, a')
      /\ btn_convert (win a') = false
      /\ btn_cancel (win a') = false
      /\ worker (win a') = worker (win a)
      /\ disk a' = disk a.
Proof.
  induction events as [|ev events IH]; intros a C1 C2.
  - exists a. auto.
  - destruct (user_frame ev a C1 C2) as (a1 & E & H1 & H2 & H3 & H4).
    destruct (IH a1 H1 H2) as (a2 & E2 & K1 & K2 & K3 & K4).
    exists a2. cbn [Py.for_each]. unfold Py.bind. rewrite E.
    repeat split; auto; congruence.
Qed.

(** [__init__] when the tool is not detected. *)
Lemma Window_init_without_gm (pb : PB) (gm_version : Py.exn + string)
    (a0 : App PB FS) :
  (forall out, gm_version = inr out ->
               str_contains "GraphicsMagick" out = false) ->
  exists a1,
    Window_init PB pb_setRange FS pb gm_version a0 = (inr tt, a1)
    /\ btn_convert (win a1) = false
    /\ btn_cancel (win a1) = false
    /\ worker (win a1) = None
    /\ disk a1 = disk a0
    /\ dialogs (win a1)
       = [critical "Error"
            "GraphicsMagick (gm) not found! Please install it and ensure it's in your PATH."].
Proof.
  intros H. unfold Window_init, check_gm_installed, on_win,
    Py.try_except, Py.bind, Py.ret, Py.modify, Py.raise.
  destruct gm_version as [e|out].
  - eexists. split; [reflexivity|]. cbn. auto 10.
  - rewrite (H out eq_refl). cbn [negb].
    eexists. split; [reflexivity|]. cbn. auto 10.
Qed.

End Sessions.

(** X19: when the tool is not detected at start-up -- [gm version] raises,
    or its output does not contain [GraphicsMagick] -- one error box is
    shown, and whatever the user does afterwards (dropping or picking
    files, clearing the list, picking a directory, changing the controls,
    clicking either button), no conversion ever starts: no worker is
    created, no directory is made, and nothing raises. *)
Theorem no_conversion_without_gm
    (PB : Type) (pb_setRange : Z -> Z -> PB -> PB)
    (pb_setValue : Z -> PB -> PB)
    (FS : Type) (mkdir : PurePath.t -> FS -> (Py.exn + unit) * FS)
    (access_w : string -> FS -> Py.exn + bool)
    (pb : PB) (gm_version : Py.exn + string) (events : list UserEvent)
    (a0 : App PB FS) :
  (forall out, gm_version = inr out ->
               str_contains "GraphicsMagick" out = false) ->
  exists a1 a2,
    Window_init PB pb_setRange FS pb gm_version a0 = (inr tt, a1)
    /\ Py.for_each events
         (handle_user PB pb_setRange pb_setValue FS mkdir access_w) a1
       = (inr tt, a2)
    /\ worker (win a2) = None
    /\ disk a2 = disk a0
    /\ btn_convert (win a2) = false.
Proof.
  intros H.
  destruct (Window_init_without_gm PB pb_setRange FS pb gm_version a0 H)
    as (a1 & E1 & C1 & C2 & W & D & _).
  destruct (session_frame PB pb_setRange pb_setValue FS mkdir access_w
              events a1 C1 C2) as (a2 & E2 & K1 & K2 & K3 & K4).
  exists a1, a2. repeat split; auto; congruence.
Qed.

Lemma no_conversion_without_gm_witness :
  exists a1 a2,
    Window_init Bar bar_setRange nat bar_new
      (inl (Py.Exception "No such file or directory: 'gm'")) app_fresh
    = (inr tt, a1)
    /\ Py.for_each
         [DropFiles ["/in/a.png"; "/in/notes.txt"]; BrowseOutputDir "/out";
          ClickConvert; ClickCancel]
         (handle_user Bar bar_setRange bar_setValue nat mkdir_ok
            access_granted) a1
       = (inr tt, a2)
    /\ worker (win a2) = None
    /\ disk a2 = disk app_fresh
    /\ btn_convert (win a2) = false.
Proof.
  apply (no_conversion_without_gm Bar bar_setRange bar_setValue nat mkdir_ok
           access_granted bar_new
           (inl (Py.Exception "No such file or directory: 'gm'"))).
  intros out H. discriminate.
Defined.

Lemma start_before_any_file_raises_witness :
  start_conversion Bar bar_setRange bar_setValue nat mkdir_ok access_granted
    app_fresh
  = (inl (Py.Exception
            "'ImprovedGMConvertGUI' object has no attribute 'input_files'"),
     app_fresh).
Proof.
  apply (start_before_any_file_raises Bar bar_setRange bar_setValue nat
           mkdir_ok access_granted app_fresh).
  reflexivity.
Defined.

Lemma invalid_settings_start_nothing_witness :
  exists d,
    start_conversion Bar bar_setRange bar_setValue nat mkdir_ok
      (fun _ _ => inr false) (app_ready ["/in/a.png"] "/out")
    = (inr tt,
       {| win := show_dialog Bar d (win (app_ready ["/in/a.png"] "/out"));
          disk := disk (app_ready ["/in/a.png"] "/out") |}).
Proof.
  apply (invalid_settings_start_nothing Bar bar_setRange bar_setValue nat
           mkdir_ok (fun _ _ => inr false) (app_ready ["/in/a.png"] "/out")).
  - reflexivity.
  - right. right. discriminate.
Defined.

Lemma start_conversion_starts_a_worker_witness :
  exists a',
    start_conversion Bar bar_setRange bar_setValue nat mkdir_ok access_granted
      (app_ready ["/in/a.png"; "/in/b.jpg"] "/out") = (inr tt, a')
    /\ disk a' = 2%nat
    /\ worker (win a')
       = Some (Worker_init
                 [["gm"; "convert"; "/in/a.png"; "-quality"; "90"; "/out/a.jpg"];
                  ["gm"; "convert"; "/in/b.jpg"; "-quality"; "90"; "/out/b.jpg"]]
                 "/out")
    /\ btn_convert (win a') = false
    /\ btn_cancel (win a') = true
    /\ log_browser (win a') = []
    /\ progress_bar (win a')
       = bar_setValue 0
           (bar_setRange 0 2
              (progress_bar (win (app_ready ["/in/a.png"; "/in/b.jpg"] "/out"))))
    /\ dialogs (win a') = [].
Proof.
  apply (start_conversion_starts_a_worker Bar bar_setRange bar_setValue nat
           mkdir_ok access_granted
           (app_ready ["/in/a.png"; "/in/b.jpg"] "/out") 2%nat);
    try reflexivity; discriminate.
Defined.

Lemma start_conversion_mkdir_failure_witness :
  start_conversion Bar bar_setRange bar_setValue nat mkdir_refused
    access_granted (app_ready ["/in/a.png"] "/out")
  = (inl (Py.Exception "Permission denied"),
     {| win := win (app_ready ["/in/a.png"] "/out"); disk := 0%nat |}).
Proof.
  apply (start_conversion_mkdir_failure Bar bar_setRange bar_setValue nat
           mkdir_refused access_granted (app_ready ["/in/a.png"] "/out")
           (Py.Exception "Permission denied") 0%nat);
    try reflexivity; discriminate.
Defined.

Section FileQueue.

Variable PB : Type.
Variable pb_setRange : Z -> Z -> PB -> PB.
Variable pb_setValue : Z -> PB -> PB.
Variable FS : Type.
Variable mkdir : PurePath.t -> FS -> (Py.exn + unit) * FS.
Variable access_w : string -> FS -> Py.exn + bool.

Local Abbreviation start :=
  (start_conversion PB pb_setRange pb_setValue FS mkdir access_w).
Local Abbreviation user :=
  (handle_user PB pb_setRange pb_setValue FS mkdir access_w).

(** [start_conversion] leaves the queue and its display alone, however it
    ends. *)
Lemma start_conversion_queue (a : App PB FS) :
  input_files (controls (win (snd (start a))))
  = input_files (controls (win a))
  /\ input_files_defined (win (snd (start a))) = input_files_defined (win a)
  /\ file_list (win (snd (start a))) = file_list (win a)
  /\ file_counter (win (snd (start a))) = file_counter (win a).
Proof.
  assert (Inv : validate_settings PB FS access_w a = (inr true, a)
                \/ (exists r d,
                      validate_settings PB FS access_w a
                      = (r, {| win := show_dialog PB d (win a);
                               disk := disk a |})
                      /\ r <> inr true)
                \/ (exists e,
                      validate_settings PB FS access_w a = (inl e, a))).
  { rewrite validate_settings_eq.
    destruct (input_files_defined (win a)); [|eauto].
    destruct (input_files (controls (win a)));
      [right; left; eexists _, _; split; [reflexivity|discriminate]|].
    destruct (String.eqb (output_dir (controls (win a))) "");
      [right; left; eexists _, _; split; [reflexivity|discriminate]|].
    destruct (access_w _ _) as [e'|[|]]; auto;
      right; left; eexists _, _; split; try reflexivity; discriminate. }
  destruct Inv as [V|[(r & d & V & Hr)|(e & V)]].
  - rewrite (start_conversion_valid PB pb_setRange pb_setValue FS mkdir
               access_w a V).
    destruct (run_build_commands FS mkdir (controls (win a)) (disk a))
      as [[e|commands] fs']; cbn; auto.
  - assert (E : start a =
                (match r with inl e => inl e | inr _ => inr tt end,
                 {| win := show_dialog PB d (win a); disk := disk a |})).
    { unfold start_conversion. unfold Py.bind at 1. rewrite V.
      destruct r as [e|[|]]; [| exfalso; now apply Hr |]; reflexivity. }
    rewrite E. cbn. auto.
  - assert (E : start a = (inl e, a)).
    { unfold start_conversion. unfold Py.bind at 1. now rewrite V. }
    rewrite E. cbn. auto.
Qed.

(** One event of the user keeps the display of the queue in step with the
    queue. *)
Lemma user_queue (ev : UserEvent) (a a' : App PB FS) (r : Py.exn + unit) :
  user ev a = (r, a') ->
  (input_files_defined (win a) = true ->
   file_list (win a) = input_files (controls (win a))
   /\ file_counter (win a)
      = PyStr.str_of_int
          (Z.of_nat (List.length (input_files (controls (win a))))) +++
        " files queued") ->
  input_files_defined (win a') = true ->
  file_list (win a') = input_files (controls (win a'))
  /\ file_counter (win a')
     = PyStr.str_of_int
         (Z.of_nat (List.length (input_files (controls (win a'))))) +++
       " files queued".
Proof.
  intros E Inv. destruct ev as [files|files| |directory|g| |];
    unfold handle_user in E.
  - unfold dropEvent, Py.bind, on_win at 1, Py.modify in E.
    destruct (update_file_list_eq PB FS
                {| win := set_input_files PB (filter accepted_input files)
                            (win a);
                   disk := disk a |} eq_refl)
      as (a1 & E1 & H1 & H2 & H3 & _).
    rewrite E1 in E. injection E as _ <-. intros _.
    rewrite H1, H2, H3. auto.
  - unfold browse_files in E. destruct files as [|f files].
    + injection E as _ <-. exact Inv.
    + unfold Py.bind, on_win at 1, Py.modify in E.
      destruct (update_file_list_eq PB FS
                  {| win := set_input_files PB (f :: files) (win a);
                     disk := disk a |} eq_refl)
        as (a1 & E1 & H1 & H2 & H3 & _).
      rewrite E1 in E. injection E as _ <-. intros _.
      rewrite H1, H2, H3. auto.
  - injection E as _ <-. intros _. split; reflexivity.
  - unfold browse_output_dir in E.
    destruct (negb (String.eqb directory "")); injection E as _ <-;
      exact Inv.
  - injection E as _ <-. exact Inv.
  - unfold Py.bind, Py.get in E. destruct (btn_convert (win a)).
    + destruct (start_conversion_queue a) as (Q1 & Q2 & Q3 & Q4).
      rewrite E in Q1, Q2, Q3, Q4. cbn [snd] in Q1, Q2, Q3, Q4.
      rewrite Q1, Q2, Q3, Q4. exact Inv.
    + injection E as _ <-. exact Inv.
  - unfold Py.bind, Py.get in E. destruct (btn_cancel (win a)).
    + injection E as _ <-. cbn. unfold cancel_conversion.
      destruct (worker (win a)); exact Inv.
    + injection E as _ <-. exact Inv.
Qed.

End FileQueue.

(** X20: through every sequence of events of the user that raises nothing,
    the list widget shows exactly the queued input files, in order, and the
    counter label reads [<their number> files queued], as soon as the
    attribute [input_files] is assigned. *)
Theorem file_list_shows_the_queue
    (PB : Type) (pb_setRange : Z -> Z -> PB -> PB)
    (pb_setValue : Z -> PB -> PB)
    (FS : Type) (mkdir : PurePath.t -> FS -> (Py.exn + unit) * FS)
    (access_w : string -> FS -> Py.exn + bool)
    (events : list UserEvent) (a a' : App PB FS) :
  (input_files_defined (win a) = true ->
   file_list (win a) = input_files (controls (win a))
   /\ file_counter (win a)
      = PyStr.str_of_int
          (Z.of_nat (List.length (input_files (controls (win a))))) +++
        " files queued") ->
  Py.for_each events
    (handle_user PB pb_setRange pb_setValue FS mkdir access_w) a
  = (inr tt, a') ->
  input_files_defined (win a') = true ->
  file_list (win a') = input_files (controls (win a'))
  /\ file_counter (win a')
     = PyStr.str_of_int
         (Z.of_nat (List.length (input_files (controls (win a'))))) +++
       " files queued".
Proof.
  revert a. induction events as [|ev events IH]; intros a Inv H.
  - cbn in H. injection H as <-. exact Inv.
  - cbn [Py.for_each] in H. unfold Py.bind in H.
    destruct (handle_user PB pb_setRange pb_setValue FS mkdir access_w ev a)
      as [[e|[]] a1] eqn:E; [discriminate|].
    apply (IH a1); [|exact H].
    exact (user_queue PB pb_setRange pb_setValue FS mkdir access_w
             ev a a1 (inr tt) E Inv).
Qed.

Lemma file_list_shows_the_queue_witness :
  let a' :=
    snd (Py.for_each
           [DropFiles ["/in/a.png"; "/in/notes.txt"; "/in/B.JPG"];
            BrowseFiles []; BrowseOutputDir "/out"; ClickConvert]
           (handle_user Bar bar_setRange bar_setValue nat mkdir_ok
              access_granted)
           app_fresh) in
  file_list (win a') = input_files (controls (win a'))
  /\ file_counter (win a')
     = PyStr.str_of_int
         (Z.of_nat (List.length (input_files (controls (win a'))))) +++
       " files queued".
Proof.
  intros a'.
  apply (file_list_shows_the_queue Bar bar_setRange bar_setValue nat mkdir_ok
           access_granted
           [DropFiles ["/in/a.png"; "/in/notes.txt"; "/in/B.JPG"];
            BrowseFiles []; BrowseOutputDir "/out"; ClickConvert]
           app_fresh a').
  - intros H. vm_compute in H. discriminate H.
  - unfold a'. vm_compute. reflexivity.
  - unfold a'. vm_compute. reflexivity.
Defined.

(** X21: a drop replaces the queue by the dropped files that end with a
    recognised extension, in their order -- by the empty queue when none
    does; every file it queues has a file name, so that its destination
    lies directly in the directory computed for it. *)
Theorem drop_queues_the_accepted_files
    (PB : Type) (FS : Type) (files : list string) (a : App PB FS) :
  exists a',
    dropEvent PB FS files a = (inr tt, a')
    /\ input_files_defined (win a') = true
    /\ input_files (controls (win a')) = filter accepted_input files
    /\ file_list (win a') = filter accepted_input files
    /\ disk a' = disk a
    /\ forall f,
         In f (input_files (controls (win a'))) ->
         accepted_input f = true
         /\ PurePath.name (PurePath.Path f) <> ""
         /\ PurePath.parent (destination_file (controls (win a')) f)
            = destination_dir (controls (win a')) f.
Proof.
  unfold dropEvent, Py.bind, on_win at 1, Py.modify.
  destruct (update_file_list_eq PB FS
              {| win := set_input_files PB (filter accepted_input files)
                          (win a);
                 disk := disk a |} eq_refl)
    as (a' & E & H1 & H2 & H3 & H4 & _ & _ & _ & H8).
  exists a'. rewrite E. cbn in H1, H3, H8.
  split; [reflexivity|]. split; [exact H4|].
  assert (Q : input_files (controls (win a')) = filter accepted_input files)
    by now rewrite H3.
  split; [exact Q|]. split; [exact H1|]. split; [exact H8|].
  intros f Hf. rewrite Q in Hf. apply filter_In in Hf. destruct Hf as [_ Acc].
  pose proof (accepted_has_name f Acc) as Hn.
  split; [exact Acc|]. split; [exact Hn|].
  apply destination_file_parent. exact Hn.
Qed.
